(** * Spectroscopic 0D observers and observer groups

    A shallow embedding of [cherab/tools/observers/spectroscopic.py]:
    the observer groups ([Observer0DGroup] and its two concrete classes), the
    observer base class ([_SpectroscopicObserver0DBase]) and the parts of the
    rendering engine they call.

    Conventions of the embedding.
    - A Python value is a [pyval].
    - A coordinate of a point, of a vector or of a matrix is a C [double]: a
      binary64 number, with the rounding, the underflow and the overflow of
      its arithmetic.  The module branches on the exact value of coordinates
      and the engine's normalisation of a vector divides by a length that
      can round to zero, so nothing less would say what the setters do.
    - A radiometric quantity (a wavelength, a sample of a spectrum, a mean)
      is a real number: the module passes these on, and divides once.
    - A raised exception is a value of [exn]; a function that can raise
      returns a [result], and a function that mutates objects returns the
      new state next to its [result], also when it raises (what was written
      before the exception stays written).
    - Observers are objects: a group holds references ([nat] identifiers)
      into a [heap], so that one observer listed twice in a group is one
      object.  The pipelines of an observer are its own, as those the
      constructors and [connect_pipelines] build are: no pipeline object
      is shared between two observers.
    - What the rendering engine decides, and this module cannot see, is the
      class [Engine]: how it converts and checks the values given to its
      attributes, the texts of its type errors, its defaults, and what a
      spectrum computes. *)

From Stdlib Require Import Reals Lra Lia List String Ascii ZArith Bool.
From Stdlib Require Import DecimalString.
From Stdlib Require Import Floats.SpecFloat.
Import ListNotations.

Set Warnings "-register-all".

Local Open Scope list_scope.
Local Open Scope string_scope.

(** ** Exceptions and results *)

Inductive exn : Type :=
| TypeError (msg : string)
| ValueError (msg : string)
| IndexError (msg : string)
| ZeroDivisionError (msg : string).

Inductive result (A : Type) : Type :=
| Ok (a : A)
| Raise (e : exn).

Arguments Ok {A} a.
Arguments Raise {A} e.

Definition bind {A B : Type} (r : result A) (k : A -> result B) : result B :=
  match r with
  | Ok a => k a
  | Raise e => Raise e
  end.

Notation "x <- r ;; k" := (bind r (fun x => k))
  (at level 61, r at next level, right associativity).

Definition message (e : exn) : string :=
  match e with
  | TypeError m | ValueError m | IndexError m | ZeroDivisionError m => m
  end.

(** ** Strings: [str] of an integer, [str.format], substring test *)

Definition str_of_Z (z : Z) : string := NilZero.string_of_int (Z.to_int z).

Definition str_of_nat (n : nat) : string := str_of_Z (Z.of_nat n).

Definition str_of_name (n : option string) : string :=
  match n with
  | Some s => s
  | None => "None"
  end.

Definition prepend (s : string) (r : result string) : result string :=
  match r with
  | Ok t => Ok (s ++ t)
  | Raise e => Raise e
  end.

(** [template.format( *args )] for the templates of this module: literal text,
    the automatically numbered field [{}], and the doubled braces.  The
    template is read from left to right and the first fault met is raised.
    [idx] is the number of the next automatic field. *)
Fixpoint format_from (idx : nat) (template : string) (args : list string)
  : result string :=
  match template with
  | EmptyString => Ok ""
  | String c rest =>
    if Ascii.eqb c "{" then
      match rest with
      | EmptyString =>
        Raise (ValueError "Single '{' encountered in format string")
      | String c' rest' =>
        if Ascii.eqb c' "{" then prepend "{" (format_from idx rest' args)
        else if Ascii.eqb c' "}" then
          match nth_error args idx with
          | Some a => prepend a (format_from (S idx) rest' args)
          | None =>
            Raise (IndexError ("Replacement index " ++ str_of_nat idx
                               ++ " out of range for positional args tuple"))
          end
        else Raise (ValueError "replacement field not used by this module")
      end
    else if Ascii.eqb c "}" then
      match rest with
      | EmptyString =>
        Raise (ValueError "Single '}' encountered in format string")
      | String c' rest' =>
        if Ascii.eqb c' "}" then prepend "}" (format_from idx rest' args)
        else Raise (ValueError "Single '}' encountered in format string")
      end
    else prepend (String c "") (format_from idx rest args)
  end.

Definition format (template : string) (args : list string) : result string :=
  format_from 0 template args.

(** [raise Cls(template.format( *args ))]: the exception that reaches the
    caller, which is the one of [format] when building the message fails. *)
Definition raising (cls : string -> exn) (template : string)
  (args : list string) : exn :=
  match format template args with
  | Ok m => cls m
  | Raise e => e
  end.

Fixpoint prefix_of (p s : string) : bool :=
  match p, s with
  | EmptyString, _ => true
  | String a p', String b s' => Ascii.eqb a b && prefix_of p' s'
  | String _ _, EmptyString => false
  end.

(** [p in s] on strings. *)
Fixpoint contains (s p : string) : bool :=
  prefix_of p s ||
  match s with
  | EmptyString => false
  | String _ s' => contains s' p
  end.

(** ** Doubles

    A C [double] is an IEEE 754 binary64 number: 53 bits of precision,
    exponents below 1024, rounding to nearest even.  [double_of_Z] is the
    conversion of a Python [int] passed where the engine takes a
    [double]. *)

Definition double : Type := spec_float.

Definition double_of_Z (z : Z) : double := binary_normalize 53 1024 z 0 false.

Definition dadd (a b : double) : double := SFadd 53 1024 a b.
Definition dsub (a b : double) : double := SFsub 53 1024 a b.
Definition dmul (a b : double) : double := SFmul 53 1024 a b.
Definition ddiv (a b : double) : double := SFdiv 53 1024 a b.
Definition dsqrt (a : double) : double := SFsqrt 53 1024 a.

(** [a == b] on doubles: the two zeros are equal, a NaN equals nothing. *)
Definition deqb (a b : double) : bool := SFeqb a b.

(** [2 ** e], for an [e] in the range of the exponents. *)
Definition double_pow2 (e : Z) : double := SFldexp 53 1024 (double_of_Z 1) e.

Declare Scope double_scope.
Delimit Scope double_scope with D.
Infix "+" := dadd : double_scope.
Infix "-" := dsub : double_scope.
Infix "*" := dmul : double_scope.
Infix "/" := ddiv : double_scope.

(** ** Engine geometry: points, vectors, affine matrices

    [Point3D], [Vector3D], [AffineMatrix3D], [translate] and [rotate_basis]
    are the rendering engine's (raysect.core); they are written out here as
    the engine computes them, operation by operation, on doubles. *)

Record Point3D : Type := mkPoint3D { px : double; py : double; pz : double }.

Record Vector3D : Type := mkVector3D { vx : double; vy : double; vz : double }.

Record AffineMatrix3D : Type := mkAffineMatrix3D {
  m00 : double; m01 : double; m02 : double; m03 : double;
  m10 : double; m11 : double; m12 : double; m13 : double;
  m20 : double; m21 : double; m22 : double; m23 : double;
  m30 : double; m31 : double; m32 : double; m33 : double }.

(** [Point3D(x, y, z)] and [Vector3D(x, y, z)] called with integers. *)
Definition Point3D_new (x y z : Z) : Point3D :=
  mkPoint3D (double_of_Z x) (double_of_Z y) (double_of_Z z).

Definition Vector3D_new (x y z : Z) : Vector3D :=
  mkVector3D (double_of_Z x) (double_of_Z y) (double_of_Z z).

(** [a == b] on vectors: the coordinates are equal. *)
Definition Vector3D_eqb (a b : Vector3D) : bool :=
  deqb (vx a) (vx b) && deqb (vy a) (vy b) && deqb (vz a) (vz b).

Definition vdot (a b : Vector3D) : double :=
  (vx a * vx b + vy a * vy b + vz a * vz b)%D.

Definition vcross (a b : Vector3D) : Vector3D :=
  mkVector3D (vy a * vz b - vy b * vz a)%D
             (vz a * vx b - vz b * vx a)%D
             (vx a * vy b - vx b * vy a)%D.

Definition vsub (a b : Vector3D) : Vector3D :=
  mkVector3D (vx a - vx b)%D (vy a - vy b)%D (vz a - vz b)%D.

Definition vscale (k : double) (a : Vector3D) : Vector3D :=
  mkVector3D (k * vx a)%D (k * vy a)%D (k * vz a)%D.

(** The exception of [Vector3D.normalise] on a vector whose squared length
    is zero. *)
Definition zero_length : exn :=
  ZeroDivisionError "A zero length vector can not be normalised as the direction of a zero length vector is undefined.".

(** [v.normalise()]: the squared length is computed in doubles, so it is
    zero also for a vector whose coordinates are too small for their squares,
    and infinite for one whose coordinates are too large. *)
Definition normalise (v : Vector3D) : result Vector3D :=
  let t := (vx v * vx v + vy v * vy v + vz v * vz v)%D in
  if deqb t (double_of_Z 0) then Raise zero_length
  else
    let t' := (double_of_Z 1 / dsqrt t)%D in
    Ok (mkVector3D (vx v * t') (vy v * t') (vz v * t'))%D.

(** [translate(x, y, z)]. *)
Definition translate (x y z : double) : AffineMatrix3D :=
  mkAffineMatrix3D
    (double_of_Z 1) (double_of_Z 0) (double_of_Z 0) x
    (double_of_Z 0) (double_of_Z 1) (double_of_Z 0) y
    (double_of_Z 0) (double_of_Z 0) (double_of_Z 1) z
    (double_of_Z 0) (double_of_Z 0) (double_of_Z 0) (double_of_Z 1).

(** The exception of [rotate_basis] when the two vectors, normalised, are
    equal. *)
Definition coincident : exn :=
  ValueError "Forward and up vectors must not be coincident.".

(** [rotate_basis(forward, up)]: the rotation whose third basis vector is
    [forward] normalised and whose second is [up] made perpendicular to it.
    It refuses two vectors that are equal once normalised, and fails in the
    last normalisation when nothing is left of [up]. *)
Definition rotate_basis (forward up : Vector3D) : result AffineMatrix3D :=
  z <- normalise forward ;;
  y <- normalise up ;;
  if Vector3D_eqb y z then Raise coincident
  else
    y' <- normalise (vsub y (vscale (vdot y z) z)) ;;
    let x := vcross y' z in
    Ok (mkAffineMatrix3D
          (vx x) (vx y') (vx z) (double_of_Z 0)
          (vy x) (vy y') (vy z) (double_of_Z 0)
          (vz x) (vz y') (vz z) (double_of_Z 0)
          (double_of_Z 0) (double_of_Z 0) (double_of_Z 0) (double_of_Z 1)).

(** [a * b] on affine matrices: the matrix product. *)
Definition mul (a b : AffineMatrix3D) : AffineMatrix3D :=
  mkAffineMatrix3D
    (m00 a * m00 b + m01 a * m10 b + m02 a * m20 b + m03 a * m30 b)%D
    (m00 a * m01 b + m01 a * m11 b + m02 a * m21 b + m03 a * m31 b)%D
    (m00 a * m02 b + m01 a * m12 b + m02 a * m22 b + m03 a * m32 b)%D
    (m00 a * m03 b + m01 a * m13 b + m02 a * m23 b + m03 a * m33 b)%D
    (m10 a * m00 b + m11 a * m10 b + m12 a * m20 b + m13 a * m30 b)%D
    (m10 a * m01 b + m11 a * m11 b + m12 a * m21 b + m13 a * m31 b)%D
    (m10 a * m02 b + m11 a * m12 b + m12 a * m22 b + m13 a * m32 b)%D
    (m10 a * m03 b + m11 a * m13 b + m12 a * m23 b + m13 a * m33 b)%D
    (m20 a * m00 b + m21 a * m10 b + m22 a * m20 b + m23 a * m30 b)%D
    (m20 a * m01 b + m21 a * m11 b + m22 a * m21 b + m23 a * m31 b)%D
    (m20 a * m02 b + m21 a * m12 b + m22 a * m22 b + m23 a * m32 b)%D
    (m20 a * m03 b + m21 a * m13 b + m22 a * m23 b + m23 a * m33 b)%D
    (m30 a * m00 b + m31 a * m10 b + m32 a * m20 b + m33 a * m30 b)%D
    (m30 a * m01 b + m31 a * m11 b + m32 a * m21 b + m33 a * m31 b)%D
    (m30 a * m02 b + m31 a * m12 b + m32 a * m22 b + m33 a * m32 b)%D
    (m30 a * m03 b + m31 a * m13 b + m32 a * m23 b + m33 a * m33 b)%D.

(** [AffineMatrix3D()]: the identity, the transform of a new node. *)
Definition identity : AffineMatrix3D :=
  mkAffineMatrix3D
    (double_of_Z 1) (double_of_Z 0) (double_of_Z 0) (double_of_Z 0)
    (double_of_Z 0) (double_of_Z 1) (double_of_Z 0) (double_of_Z 0)
    (double_of_Z 0) (double_of_Z 0) (double_of_Z 1) (double_of_Z 0)
    (double_of_Z 0) (double_of_Z 0) (double_of_Z 0) (double_of_Z 1).

(** The translation part of a transform, as a point. *)
Definition translation_of (m : AffineMatrix3D) : Point3D :=
  mkPoint3D (m03 m) (m13 m) (m23 m).

(** The determinant of the linear (upper left 3 by 3) part: a transform is
    degenerate when it is zero. *)
Definition linear_det (m : AffineMatrix3D) : double :=
  (m00 m * (m11 m * m22 m - m12 m * m21 m)
   - m01 m * (m10 m * m22 m - m12 m * m20 m)
   + m02 m * (m10 m * m21 m - m11 m * m20 m))%D.

(** Two vectors are parallel when neither is zero and their cross product
    is. *)
Definition zero_vector (v : Vector3D) : bool :=
  Vector3D_eqb v (Vector3D_new 0 0 0).

Definition parallel (a b : Vector3D) : bool :=
  negb (zero_vector a) && negb (zero_vector b) && zero_vector (vcross a b).

(** ** Python values

    [PySpectralFunction] is an object of the engine's class
    [SpectralFunction], by its reference. *)

Inductive pyval : Type :=
| PyNone
| PyBool (b : bool)
| PyInt (n : Z)
| PyFloat (x : R)
| PyStr (s : string)
| PyPoint3D (p : Point3D)
| PyVector3D (v : Vector3D)
| PySpectralFunction (f : nat)
| PyList (items : list pyval)
| PyTuple (items : list pyval)
| PyNdarray (items : list pyval).

Local Open Scope R_scope.

Definition Req_b (a b : R) : bool := if Req_dec_T a b then true else false.

Definition Rle_b (a b : R) : bool := if Rle_dec a b then true else false.

(** A number read as a radiometric quantity. *)
Definition as_float (v : pyval) : option R :=
  match v with
  | PyFloat x => Some x
  | PyInt n => Some (IZR n)
  | _ => None
  end.

(** [a / b] on floats. *)
Definition py_div (a b : R) : result R :=
  if Req_b b 0 then Raise (ZeroDivisionError "float division by zero")
  else Ok (a / b).

(** [t[i]] on a tuple or list: a negative index counts from the end. *)
Definition py_index {A : Type} (l : list A) (i : Z) : option A :=
  let n := Z.of_nat (List.length l) in
  if ((0 <=? i) && (i <? n))%Z then nth_error l (Z.to_nat i)
  else if ((- n <=? i) && (i <? 0))%Z then nth_error l (Z.to_nat (n + i))
  else None.

(** ** Pipelines and spectra (engine objects, as far as this module reads
    and writes them) *)

Inductive PipelineClass : Type :=
| PowerPipeline0D
| RadiancePipeline0D
| SpectralPowerPipeline0D
| SpectralRadiancePipeline0D
| OtherClass (cls_name : string).

(** [PipelineClass.__name__]. *)
Definition class_name (c : PipelineClass) : string :=
  match c with
  | PowerPipeline0D => "PowerPipeline0D"
  | RadiancePipeline0D => "RadiancePipeline0D"
  | SpectralPowerPipeline0D => "SpectralPowerPipeline0D"
  | SpectralRadiancePipeline0D => "SpectralRadiancePipeline0D"
  | OtherClass n => n
  end.

Definition PipelineClass_eqb (a b : PipelineClass) : bool :=
  match a, b with
  | PowerPipeline0D, PowerPipeline0D
  | RadiancePipeline0D, RadiancePipeline0D
  | SpectralPowerPipeline0D, SpectralPowerPipeline0D
  | SpectralRadiancePipeline0D, SpectralRadiancePipeline0D => true
  | OtherClass n, OtherClass m => String.eqb n m
  | _, _ => false
  end.

(** [a == b] on names, which are strings or [None]. *)
Definition name_eqb (a b : option string) : bool :=
  match a, b with
  | Some x, Some y => String.eqb x y
  | None, None => true
  | _, _ => false
  end.

(** [StatsArray1D]: of the running statistics only the means are read. *)
Record StatsArray1D : Type := mkStatsArray1D { sa_mean : list R }.

(** A pipeline.  [pl_accumulate] and [pl_display_progress] are C booleans
    of the engine, read as [True] or [False]. *)
Record Pipeline : Type := mkPipeline {
  pl_class : PipelineClass;
  pl_name : option string;
  pl_filter : option pyval;             (* [None]: a class without filter *)
  pl_accumulate : pyval;
  pl_display_progress : pyval;
  pl_value_mean : R;                  (* [value.mean], scalar pipelines *)
  pl_samples : option StatsArray1D;   (* [samples], [None] until observed *)
  pl_min_wavelength : R;
  pl_max_wavelength : R;
  pl_bins : Z }.

(** The radiance classes derive from the power classes. *)
Definition isinstance_RadiancePipeline0D (p : Pipeline) : bool :=
  match pl_class p with RadiancePipeline0D => true | _ => false end.

Definition isinstance_PowerPipeline0D (p : Pipeline) : bool :=
  match pl_class p with
  | PowerPipeline0D | RadiancePipeline0D => true
  | _ => false
  end.

Definition isinstance_SpectralRadiancePipeline0D (p : Pipeline) : bool :=
  match pl_class p with SpectralRadiancePipeline0D => true | _ => false end.

Definition isinstance_SpectralPowerPipeline0D (p : Pipeline) : bool :=
  match pl_class p with
  | SpectralPowerPipeline0D | SpectralRadiancePipeline0D => true
  | _ => false
  end.

Definition with_pl_display_progress (v : pyval) (p : Pipeline) : Pipeline :=
  mkPipeline (pl_class p) (pl_name p) (pl_filter p) (pl_accumulate p) v
    (pl_value_mean p) (pl_samples p) (pl_min_wavelength p)
    (pl_max_wavelength p) (pl_bins p).

Definition with_pl_accumulate (v : pyval) (p : Pipeline) : Pipeline :=
  mkPipeline (pl_class p) (pl_name p) (pl_filter p) v (pl_display_progress p)
    (pl_value_mean p) (pl_samples p) (pl_min_wavelength p)
    (pl_max_wavelength p) (pl_bins p).

(** A spectrum object.  [sp_samples] is the array its attribute [samples]
    names; [sp_buffer] is the memory the engine's own methods ([total],
    [to_photons]) read.  The constructor makes them one array of zeros;
    writing an element of [samples] writes that array, and so both;
    assigning another array to the attribute [samples] leaves the
    buffer as it was. *)
Record Spectrum : Type := mkSpectrum {
  sp_min_wavelength : R;
  sp_max_wavelength : R;
  sp_bins : Z;
  sp_samples : list R;
  sp_buffer : list R }.

(** [Spectrum(min_wavelength, max_wavelength, bins)]: the engine refuses a
    wavelength that is not positive, an empty range and no bins; the samples
    start at zero. *)
Definition Spectrum_init (lo hi : R) (bins : Z) : result Spectrum :=
  if Rle_b lo 0 || Rle_b hi 0 then
    Raise (ValueError "Wavelength cannot be less than or equal to zero.")
  else if Rle_b hi lo then
    Raise (ValueError "Minimum wavelength cannot be greater or equal to the maximum wavelength.")
  else if (bins <? 1)%Z then
    Raise (ValueError "Number of bins cannot be less than 1.")
  else Ok (mkSpectrum lo hi bins (repeat 0 (Z.to_nat bins))
             (repeat 0 (Z.to_nat bins))).

(** [spectrum.samples = samples]: the attribute names another array. *)
Definition with_samples (samples : list R) (s : Spectrum) : Spectrum :=
  mkSpectrum (sp_min_wavelength s) (sp_max_wavelength s) (sp_bins s) samples
    (sp_buffer s).

Definition set_first (x : R) (samples : list R) : list R :=
  match samples with
  | [] => []
  | _ :: rest => x :: rest
  end.

(** [spectrum.samples[0] = x] on a spectrum as its constructor made it:
    the one array is written. *)
Definition store_first (x : R) (s : Spectrum) : Spectrum :=
  mkSpectrum (sp_min_wavelength s) (sp_max_wavelength s) (sp_bins s)
    (set_first x (sp_samples s)) (set_first x (sp_buffer s)).

(** [spectrum.new_spectrum()]: a new spectrum of the same range and bins,
    all zeros. *)
Definition new_spectrum (s : Spectrum) : Spectrum :=
  mkSpectrum (sp_min_wavelength s) (sp_max_wavelength s) (sp_bins s)
    (repeat 0 (Z.to_nat (sp_bins s))) (repeat 0 (Z.to_nat (sp_bins s))).

(** ** The attributes a group forwards *)

Inductive attr : Type :=
| A_names
| A_origin
| A_direction
| A_display_progress
| A_accumulate
| A_min_wavelength
| A_max_wavelength
| A_spectral_bins
| A_ray_extinction_prob
| A_ray_extinction_min_depth
| A_ray_max_depth
| A_ray_important_path_weight
| A_pixel_samples
| A_samples_per_task
| A_acceptance_angle
| A_radius.

Definition attr_name (a : attr) : string :=
  match a with
  | A_names => "names"
  | A_origin => "origin"
  | A_direction => "direction"
  | A_display_progress => "display_progress"
  | A_accumulate => "accumulate"
  | A_min_wavelength => "min_wavelength"
  | A_max_wavelength => "max_wavelength"
  | A_spectral_bins => "spectral_bins"
  | A_ray_extinction_prob => "ray_extinction_prob"
  | A_ray_extinction_min_depth => "ray_extinction_min_depth"
  | A_ray_max_depth => "ray_max_depth"
  | A_ray_important_path_weight => "ray_important_path_weight"
  | A_pixel_samples => "pixel_samples"
  | A_samples_per_task => "samples_per_task"
  | A_acceptance_angle => "acceptance_angle"
  | A_radius => "radius"
  end.

Definition attr_eqb (a b : attr) : bool := String.eqb (attr_name a) (attr_name b).

(** ** The rendering engine

    What the engine decides and this module cannot see.
    - [engine_convert a v]: what [sight_line.<a> = v] first does for an
      attribute [a] the engine's observer keeps ([pixel_samples] and the
      like): the type error of the engine's setter, or [v] converted to the
      C type of the attribute.
    - [engine_check a attrs w]: the check the engine's setter then makes of
      the converted value [w], with what the observer holds for its
      attributes: the exception of the engine, or [None] when the value is
      stored.  The check of an attribute looks at the value given and at
      the other attributes (a lower wavelength is compared with the upper
      one), not at what the attribute held so far: this is
      [engine_check_others].
    - [pipeline_flag v]: the same for [pipeline.accumulate = v] and
      [pipeline.display_progress = v], which are C booleans.
    - [engine_check_pipelines]: whether [sight_line.pipelines = ...] takes
      the list; [None] means it does.
    - [argument_type_error name v]: the [TypeError] of the engine for the
      value [v] given to its typed argument [name].
    - [default_name] and [default_filter]: the name a pipeline gets when it
      is built without one, and the filter of a scalar pipeline built
      without one.
    - What a spectrum computes from its range, its bins and its buffer. *)
Class Engine : Type := {
  engine_convert : attr -> pyval -> result pyval;
  engine_check : attr -> (attr -> pyval) -> pyval -> option exn;
  engine_check_others :
    forall (a : attr) (attrs attrs' : attr -> pyval) (w : pyval),
      (forall b, attr_eqb a b = false -> attrs b = attrs' b) ->
      engine_check a attrs w = engine_check a attrs' w;
  pipeline_flag : pyval -> result bool;
  engine_check_pipelines : list Pipeline -> option exn;
  argument_type_error : string -> pyval -> exn;
  default_name : PipelineClass -> string;
  default_filter : pyval;
  Spectrum_wavelengths : Spectrum -> list R;
  Spectrum_total : Spectrum -> R;
  Spectrum_to_photons : Spectrum -> list R }.

Section Pipelines.

Context {engine : Engine}.

(** [name or default], as the constructors of the pipelines have it: no
    name and the empty name both give the default of the class. *)
Definition name_or_default (c : PipelineClass) (name : option string)
  : string :=
  match name with
  | Some s => if String.eqb s "" then default_name c else s
  | None => default_name c
  end.

(** A pipeline as its constructor leaves it: it has observed nothing. *)
Definition new_pipeline (c : PipelineClass) (filter : option pyval)
  (accumulate : bool) (name : option string) : Pipeline :=
  mkPipeline c (Some (name_or_default c name)) filter (PyBool accumulate)
    (PyBool true) 0 None 0 0 0.

(** [PipelineClass(accumulate=..., name=...)] of the two spectral
    classes. *)
Definition SpectralPipeline_new (c : PipelineClass) (accumulate : bool)
  (name : option string) : Pipeline :=
  new_pipeline c None accumulate name.

(** [PipelineClass(filter=..., accumulate=..., name=...)] of the two scalar
    classes: the filter is a [SpectralFunction] or [None], for which the
    pipeline gets the default filter; anything else is a type error of the
    engine. *)
Definition ScalarPipeline_new (c : PipelineClass) (filter : pyval)
  (accumulate : bool) (name : option string) : result Pipeline :=
  match filter with
  | PyNone => Ok (new_pipeline c (Some default_filter) accumulate name)
  | PySpectralFunction _ => Ok (new_pipeline c (Some filter) accumulate name)
  | _ => Raise (argument_type_error "filter" filter)
  end.

End Pipelines.

(** ** Observers: [_SpectroscopicObserver0DBase] and its two classes *)

Inductive ObserverClass : Type :=
| SpectroscopicSightLine
| SpectroscopicFibreOptic.

Definition ObserverClass_name (c : ObserverClass) : string :=
  match c with
  | SpectroscopicSightLine => "SpectroscopicSightLine"
  | SpectroscopicFibreOptic => "SpectroscopicFibreOptic"
  end.

Definition ObserverClass_eqb (a b : ObserverClass) : bool :=
  match a, b with
  | SpectroscopicSightLine, SpectroscopicSightLine
  | SpectroscopicFibreOptic, SpectroscopicFibreOptic => true
  | _, _ => false
  end.

(** An observer object.  [parent] is the identifier of the group the
    observer was put under, [engine_attrs] the attributes kept by the
    engine's observer. *)
Record Observer : Type := mkObserver {
  ob_class : ObserverClass;
  ob_name : option string;
  ob_parent : option nat;
  _origin : Point3D;
  _direction : Vector3D;
  transform : AffineMatrix3D;
  pipelines : list Pipeline;
  engine_attrs : attr -> pyval }.

Definition with_name (n : option string) (o : Observer) : Observer :=
  mkObserver (ob_class o) n (ob_parent o) (_origin o) (_direction o)
    (transform o) (pipelines o) (engine_attrs o).

Definition with_parent (g : option nat) (o : Observer) : Observer :=
  mkObserver (ob_class o) (ob_name o) g (_origin o) (_direction o)
    (transform o) (pipelines o) (engine_attrs o).

Definition with_origin (p : Point3D) (o : Observer) : Observer :=
  mkObserver (ob_class o) (ob_name o) (ob_parent o) p (_direction o)
    (transform o) (pipelines o) (engine_attrs o).

Definition with_direction (d : Vector3D) (o : Observer) : Observer :=
  mkObserver (ob_class o) (ob_name o) (ob_parent o) (_origin o) d
    (transform o) (pipelines o) (engine_attrs o).

Definition with_transform (m : AffineMatrix3D) (o : Observer) : Observer :=
  mkObserver (ob_class o) (ob_name o) (ob_parent o) (_origin o) (_direction o)
    m (pipelines o) (engine_attrs o).

Definition with_pipelines (ps : list Pipeline) (o : Observer) : Observer :=
  mkObserver (ob_class o) (ob_name o) (ob_parent o) (_origin o) (_direction o)
    (transform o) ps (engine_attrs o).

Definition with_engine_attr (a : attr) (v : pyval) (o : Observer) : Observer :=
  mkObserver (ob_class o) (ob_name o) (ob_parent o) (_origin o) (_direction o)
    (transform o) (pipelines o)
    (fun b => if attr_eqb a b then v else engine_attrs o b).

(** A lookup key: [item] of [__getitem__] and [get_pipeline]. *)
Inductive key : Type :=
| KInt (i : Z)
| KStr (s : string)
| KOther.

Definition str_of_key (k : key) : string :=
  match k with
  | KInt i => str_of_Z i
  | KStr s => s
  | KOther => "<object>"
  end.

Definition repr_of_key (k : key) : string :=
  match k with
  | KStr s => "'" ++ s ++ "'"
  | _ => str_of_key k
  end.

(** The up vector both setters choose for a direction:
    [if d.x != 0 or d.y != 0 or d.z != 1: up = Vector3D(0, 0, 1)]
    [else: up = Vector3D(1, 0, 0)]. *)
Definition up_for (d : Vector3D) : Vector3D :=
  if negb (deqb (vx d) (double_of_Z 0)) || negb (deqb (vy d) (double_of_Z 0))
     || negb (deqb (vz d) (double_of_Z 1))
  then Vector3D_new 0 0 1
  else Vector3D_new 1 0 0.

(** [origin] setter. *)
Definition Observer_set_origin (value : pyval) (o : Observer)
  : Observer * result unit :=
  match value with
  | PyPoint3D p =>
    let up := up_for (_direction o) in
    let o1 := with_origin p o in
    match rotate_basis (_direction o1) up with
    | Ok rot =>
      (with_transform (mul (translate (px p) (py p) (pz p)) rot) o1, Ok tt)
    | Raise e => (o1, Raise e)
    end
  | _ => (o, Raise (TypeError "Attribute 'origin' must be of type Point3D."))
  end.

(** [direction] setter. *)
Definition Observer_set_direction (value : pyval) (o : Observer)
  : Observer * result unit :=
  match value with
  | PyVector3D d =>
    let up := up_for d in
    let o1 := with_direction d o in
    match rotate_basis d up with
    | Ok rot =>
      (with_transform
         (mul (translate (px (_origin o1)) (py (_origin o1)) (pz (_origin o1)))
              rot) o1, Ok tt)
    | Raise e => (o1, Raise e)
    end
  | _ =>
    (o, Raise (TypeError "Attribute 'direction' must be of type Vector3D."))
  end.

(** [display_progress] and [accumulate] getters. *)
Definition Observer_display_progress (o : Observer) : pyval :=
  PyList (map (fun pipeline =>
                 if isinstance_SpectralPowerPipeline0D pipeline
                 then pl_display_progress pipeline
                 else PyNone)
              (pipelines o)).

Definition Observer_accumulate (o : Observer) : pyval :=
  PyList (map (fun pipeline =>
                 if isinstance_PowerPipeline0D pipeline
                    || isinstance_SpectralPowerPipeline0D pipeline
                 then pl_accumulate pipeline
                 else PyNone)
              (pipelines o)).

Definition pyval_of_name (n : option string) : pyval :=
  match n with
  | Some s => PyStr s
  | None => PyNone
  end.

(** [[pipeline for pipeline in self.pipelines if pipeline.name == item]]. *)
Definition pipelines_named (o : Observer) (item : string) : list Pipeline :=
  filter (fun pipeline => name_eqb (pl_name pipeline) (Some item))
         (pipelines o).

(** [get_pipeline(item)]. *)
Definition Observer_get_pipeline (o : Observer) (item : key)
  : result Pipeline :=
  match item with
  | KInt i =>
    match py_index (pipelines o) i with
    | Some pipeline => Ok pipeline
    | None =>
      Raise (raising IndexError
               "Pipeline number {} not available in this {} with only {} pipelines."
               [str_of_Z i; ObserverClass_name (ob_class o);
                str_of_nat (List.length (pipelines o))])
    end
  | KStr s =>
    let found := pipelines_named o s in
    match found with
    | [pipeline] => Ok pipeline
    | [] =>
      Raise (raising ValueError "Pipeline '{}' was not found in this {}."
               [s; ObserverClass_name (ob_class o)])
    | _ =>
      Raise (raising ValueError "Found {} pipelines with name {} in this {}."
               [str_of_nat (List.length found); s;
                ObserverClass_name (ob_class o)])
    end
  | KOther =>
    Raise (raising TypeError "{} key must be of type int or str."
             [ObserverClass_name (ob_class o)])
  end.

(** [observed_spectrum(item)].  [self.min_wavelength] and
    [self.max_wavelength] are the engine's attributes of the observer.  For
    a scalar pipeline the sample is written into the spectrum's one array;
    for a spectral pipeline the means are assigned to its attribute. *)
Definition Observer_observed_spectrum (o : Observer) (item : key)
  : result Spectrum :=
  pipeline <- Observer_get_pipeline o item ;;
  if isinstance_PowerPipeline0D pipeline then
    match as_float (engine_attrs o A_min_wavelength),
          as_float (engine_attrs o A_max_wavelength) with
    | Some lo, Some hi =>
      spectrum <- Spectrum_init lo hi 1 ;;
      sample <- py_div (pl_value_mean pipeline) (hi - lo) ;;
      Ok (store_first sample spectrum)
    | _, _ => Raise (TypeError "a float is required")
    end
  else if isinstance_SpectralPowerPipeline0D pipeline then
    match pl_samples pipeline with
    | None => Raise (ValueError "No spectrum has been observed.")
    | Some samples =>
      spectrum <- Spectrum_init (pl_min_wavelength pipeline)
                    (pl_max_wavelength pipeline) (pl_bins pipeline) ;;
      Ok (with_samples (sa_mean samples) spectrum)
    end
  else
    Raise (raising TypeError
             "Method 'observed_spectrum' supports only PowerPipeline0D, SpectralPowerPipeline0D and their instances. Pipeline {} of type {} is not supported."
             [str_of_key item; ObserverClass_name (ob_class o)]).
(** ** The plot surface

    [matplotlib.pyplot] is a log of the calls made on it; a call never
    raises.  A plotting method is a computation in the monad [Plot]: it takes
    the log, and gives back the log with its [result]. *)

Inductive plt_call : Type :=
| plt_figure
| plt_plot (xs ys : list R) (marker : bool) (label : option string)
| plt_ylim (ymax : R)
| plt_title (text : string)
| plt_xlabel (text : string)
| plt_ylabel (text : string)
| plt_legend.

Definition Plot (A : Type) : Type := list plt_call -> list plt_call * result A.

Definition pret {A : Type} (a : A) : Plot A := fun log => (log, Ok a).

Definition pbind {A B : Type} (m : Plot A) (k : A -> Plot B) : Plot B :=
  fun log =>
    match m log with
    | (log', Ok a) => k a log'
    | (log', Raise e) => (log', Raise e)
    end.

(** A computation that only reads, inside [Plot]. *)
Definition lift {A : Type} (r : result A) : Plot A := fun log => (log, r).

Definition call (c : plt_call) : Plot unit := fun log => ((log ++ [c])%list, Ok tt).

Notation "x <~ m ;; k" := (pbind m (fun x => k))
  (at level 61, m at next level, right associativity).

Notation "m ;;; k" := (pbind m (fun _ => k))
  (at level 61, right associativity).

(** The unit of the y axis, by the class of the pipeline; the radiance
    classes are tested before the power classes they derive from. *)
Definition units_of (pipeline : Pipeline) (unit : string) : result string :=
  if isinstance_RadiancePipeline0D pipeline then format "{}/s/m^2/str" [unit]
  else if isinstance_PowerPipeline0D pipeline then format "{}/s" [unit]
  else if isinstance_SpectralRadiancePipeline0D pipeline
       then format "{}/s/m^2/str/nm" [unit]
  else if isinstance_SpectralPowerPipeline0D pipeline
       then format "{}/s/nm" [unit]
  else Ok "".

Section WithEngine.

Context {engine : Engine}.

(** The spectrum [plot_spectra] draws: as observed for "J", turned into
    photons for "ph". *)
Definition spectrum_in_unit (o : Observer) (item : key) (unit : string)
  : result Spectrum :=
  if String.eqb unit "J" then Observer_observed_spectrum o item
  else if String.eqb unit "ph" then
    spectrum_observed <- Observer_observed_spectrum o item ;;
    Ok (with_samples (Spectrum_to_photons spectrum_observed)
          (new_spectrum spectrum_observed))
  else Raise (ValueError "unit must be 'J' or 'ph'.").

(** The block [if spectrum.samples.size > 1: ... else: ...]: a line, or a
    marker for a single sample. *)
Definition plot_samples (o : Observer) (item : key) (spectrum : Spectrum)
  : Plot Datatypes.unit :=
  if (1 <? List.length (sp_samples spectrum))%nat then
    call (plt_plot (Spectrum_wavelengths spectrum) (sp_samples spectrum)
            false (ob_name o))
  else
    pipeline <~ lift (Observer_get_pipeline o item) ;;
    if isinstance_SpectralPowerPipeline0D pipeline then
      call (plt_plot (Spectrum_wavelengths spectrum) (sp_samples spectrum)
              true (ob_name o))
    else if isinstance_PowerPipeline0D pipeline then
      call (plt_plot (Spectrum_wavelengths spectrum)
              [Spectrum_total spectrum] true (ob_name o))
    else pret tt.

(** The block [if extras: ...]: the limit of the y axis, the title and the
    labels of the axes. *)
Definition plot_extras (o : Observer) (item : key) (unit : string)
  (ymax : option R) : Plot Datatypes.unit :=
  pipeline <~ lift (Observer_get_pipeline o item) ;;
  units <~ lift (units_of pipeline unit) ;;
  match ymax with
  | Some y => call (plt_ylim y)
  | None => pret tt
  end ;;;
  title <~ lift (format "{}: {}" [str_of_name (ob_name o);
                                  str_of_name (pl_name pipeline)]) ;;
  call (plt_title title) ;;;
  call (plt_xlabel "wavelength (nm)") ;;;
  label <~ lift (format "radiance ({}})" [units]) ;;
  call (plt_ylabel label).

(** [plot_spectra(item, unit, ymax, extras)] of an observer. *)
Definition Observer_plot_spectra (o : Observer) (item : key) (unit : string)
  (ymax : option R) (extras : bool) : Plot Datatypes.unit :=
  spectrum <~ lift (spectrum_in_unit o item unit) ;;
  plot_samples o item spectrum ;;;
  if extras then plot_extras o item unit ymax else pret tt.

(** [sight_line.<a> = value] for an attribute of the engine's observer: the
    engine converts the value to the type of the attribute, checks it, and
    keeps it converted; it raises, and keeps what it had, when the value
    has not the type or fails the check. *)
Definition Observer_set_engine_attr (a : attr) (value : pyval) (o : Observer)
  : Observer * result unit :=
  match engine_convert a value with
  | Ok kept =>
    match engine_check a (engine_attrs o) kept with
    | None => (with_engine_attr a kept o, Ok tt)
    | Some e => (o, Raise e)
    end
  | Raise e => (o, Raise e)
  end.

(** [sight_line.name = value]: the scene-graph node takes a string, and
    nothing else. *)
Definition Observer_set_name (value : pyval) (o : Observer)
  : Observer * result unit :=
  match value with
  | PyStr s => (with_name (Some s) o, Ok tt)
  | _ => (o, Raise (argument_type_error "value" value))
  end.

(** [for pipeline in self.pipelines: if isinstance(pipeline, ...):
    pipeline.<flag> = value]: each pipeline of the classes that have the
    flag is assigned the value, which the engine converts to a C boolean;
    the first conversion that raises ends the loop. *)
Fixpoint assign_flag (has : Pipeline -> bool)
  (store : pyval -> Pipeline -> Pipeline) (value : pyval)
  (pipelines : list Pipeline) : list Pipeline * result unit :=
  match pipelines with
  | [] => ([], Ok tt)
  | pipeline :: rest =>
    if has pipeline then
      match pipeline_flag value with
      | Ok b =>
        let (rest', r) := assign_flag has store value rest in
        (store (PyBool b) pipeline :: rest', r)
      | Raise e => (pipeline :: rest, Raise e)
      end
    else
      let (rest', r) := assign_flag has store value rest in
      (pipeline :: rest', r)
  end.

(** [display_progress] setter. *)
Definition Observer_set_display_progress (value : pyval) (o : Observer)
  : Observer * result unit :=
  let (pipelines', r) :=
    assign_flag isinstance_SpectralPowerPipeline0D with_pl_display_progress
      value (pipelines o) in
  (with_pipelines pipelines' o, r).

(** [accumulate] setter. *)
Definition Observer_set_accumulate (value : pyval) (o : Observer)
  : Observer * result unit :=
  let (pipelines', r) :=
    assign_flag (fun pipeline =>
                   isinstance_PowerPipeline0D pipeline
                   || isinstance_SpectralPowerPipeline0D pipeline)
      with_pl_accumulate value (pipelines o) in
  (with_pipelines pipelines' o, r).

(** [sight_line.pipelines = value]. *)
Definition Observer_set_pipelines (value : list Pipeline) (o : Observer)
  : Observer * result unit :=
  match engine_check_pipelines value with
  | None => (with_pipelines value o, Ok tt)
  | Some e => (o, Raise e)
  end.

(** [sight_line.<a>] and [sight_line.<a> = value], by attribute. *)
Definition Observer_get (a : attr) (o : Observer) : pyval :=
  match a with
  | A_names => pyval_of_name (ob_name o)
  | A_origin => PyPoint3D (_origin o)
  | A_direction => PyVector3D (_direction o)
  | A_display_progress => Observer_display_progress o
  | A_accumulate => Observer_accumulate o
  | _ => engine_attrs o a
  end.

Definition Observer_set (a : attr) (value : pyval) (o : Observer)
  : Observer * result unit :=
  match a with
  | A_names => Observer_set_name value o
  | A_origin => Observer_set_origin value o
  | A_direction => Observer_set_direction value o
  | A_display_progress => Observer_set_display_progress value o
  | A_accumulate => Observer_set_accumulate value o
  | _ => Observer_set_engine_attr a value o
  end.

End WithEngine.

(** ** Observer groups: [Observer0DGroup], [LineOfSightGroup],
    [FibreOpticGroup] *)

Inductive GroupClass : Type :=
| LineOfSightGroup
| FibreOpticGroup.

Definition GroupClass_name (c : GroupClass) : string :=
  match c with
  | LineOfSightGroup => "LineOfSightGroup"
  | FibreOpticGroup => "FibreOpticGroup"
  end.

(** The class of observers a group holds. *)
Definition member_class (c : GroupClass) : ObserverClass :=
  match c with
  | LineOfSightGroup => SpectroscopicSightLine
  | FibreOpticGroup => SpectroscopicFibreOptic
  end.

(** A group object: [_sight_lines] is the tuple of its members, as
    references into the heap. *)
Record Group : Type := mkGroup {
  g_id : nat;
  g_class : GroupClass;
  g_name : option string;
  _sight_lines : list nat }.

Definition heap : Type := nat -> Observer.

Definition update (h : heap) (id : nat) (o : Observer) : heap :=
  fun j => if Nat.eqb j id then o else h j.

(** The properties a group class declares: [acceptance_angle] and [radius]
    are those of [FibreOpticGroup] only. *)
Definition has_property (c : GroupClass) (a : attr) : bool :=
  match a, c with
  | (A_acceptance_angle | A_radius), LineOfSightGroup => false
  | _, _ => true
  end.

(** [isinstance(value, (list, tuple))] for [names], [origin] and
    [direction]; [isinstance(value, (list, tuple, ndarray))] for the others. *)
Definition accepts_ndarray (a : attr) : bool :=
  match a with
  | A_names | A_origin | A_direction => false
  | _ => true
  end.

Definition as_collection (a : attr) (value : pyval) : option (list pyval) :=
  match value with
  | PyList items | PyTuple items => Some items
  | PyNdarray items => if accepts_ndarray a then Some items else None
  | _ => None
  end.

(** [[sight_line for sight_line in self._sight_lines if sight_line.name == item]]. *)
Definition sight_lines_named (g : Group) (h : heap) (item : string)
  : list nat :=
  filter (fun sight_line => name_eqb (ob_name (h sight_line)) (Some item))
         (_sight_lines g).

(** [__getitem__(item)]: the member found, as its reference. *)
Definition Observer0DGroup_getitem (g : Group) (h : heap) (item : key)
  : result nat :=
  match item with
  | KInt i =>
    match py_index (_sight_lines g) i with
    | Some sight_line => Ok sight_line
    | None =>
      Raise (raising IndexError
               "Sight-line number {} not available in this {} with only {} sight-lines."
               [str_of_Z i; GroupClass_name (g_class g);
                str_of_nat (List.length (_sight_lines g))])
    end
  | KStr s =>
    let sightlines := sight_lines_named g h s in
    match sightlines with
    | [sight_line] => Ok sight_line
    | [] =>
      Raise (raising ValueError "Sight-line '{}' was not found in this {}."
               [s; GroupClass_name (g_class g)])
    | _ =>
      Raise (raising ValueError "Found {} sight-lines with name {} in this {}."
               [str_of_nat (List.length sightlines); s;
                GroupClass_name (g_class g)])
    end
  | KOther =>
    Raise (raising TypeError "{} key must be of type int or str."
             [GroupClass_name (g_class g)])
  end.

(** [add_sight_line(sight_line)]. *)
Definition add_sight_line (g : Group) (sight_line : nat) (h : heap)
  : (Group * heap) * result unit :=
  if ObserverClass_eqb (ob_class (h sight_line)) (member_class (g_class g))
  then
    ((mkGroup (g_id g) (g_class g) (g_name g)
        (_sight_lines g ++ [sight_line])%list,
      update h sight_line (with_parent (Some (g_id g)) (h sight_line))),
     Ok tt)
  else
    ((g, h),
     Raise (TypeError
              (match g_class g with
               | LineOfSightGroup =>
                 "The sight_line argument must be of type SpectroscopicSightLine."
               | FibreOpticGroup =>
                 "The sightline argument must be of type SpectroscopicFibreOptic."
               end))).


(** [set(...)] as the list of the distinct elements. *)
Fixpoint distinct {A : Type} (eqb : A -> A -> bool) (l : list A) : list A :=
  match l with
  | [] => []
  | x :: rest =>
    if existsb (eqb x) rest then distinct eqb rest
    else x :: distinct eqb rest
  end.

Section GroupWithEngine.

Context {engine : Engine}.

(** The pipelines [connect_pipelines] builds for one member, in the order
    of [properties]; the first class that is not supported, or the first
    filter the engine's constructor refuses, raises. *)
Fixpoint build_pipelines
  (properties : list (PipelineClass * option string * pyval))
  : result (list Pipeline) :=
  match properties with
  | [] => Ok []
  | (cls, name, filter_func) :: rest =>
    pipeline <-
      match cls with
      | SpectralRadiancePipeline0D | SpectralPowerPipeline0D =>
        Ok (SpectralPipeline_new cls false name)
      | RadiancePipeline0D | PowerPipeline0D =>
        ScalarPipeline_new cls filter_func false name
      | OtherClass _ =>
        Raise (raising ValueError
                 "Unsupported pipeline class: {}. Only the following pipeline types are supported: SpectralRadiancePipeline0D, SpectralPowerPipeline0D, RadiancePipeline0D, PowerPipeline0D."
                 [class_name cls])
      end ;;
    pipelines <- build_pipelines rest ;;
    Ok (pipeline :: pipelines)
  end.

(** [G.<a>]: the values of the members, in the order of the tuple. *)
Definition Observer0DGroup_get (a : attr) (g : Group) (h : heap)
  : list pyval :=
  map (fun sight_line => Observer_get a (h sight_line)) (_sight_lines g).

(** [for sight_line, v in zip(...): sight_line.<a> = v]. *)
Fixpoint assign_each (a : attr) (pairs : list (nat * pyval)) (h : heap)
  : heap * result unit :=
  match pairs with
  | [] => (h, Ok tt)
  | (sight_line, v) :: rest =>
    match Observer_set a v (h sight_line) with
    | (o', Ok _) => assign_each a rest (update h sight_line o')
    | (o', Raise e) => (update h sight_line o', Raise e)
    end
  end.

(** [G.<a> = value]. *)
Definition Observer0DGroup_set (a : attr) (value : pyval) (g : Group)
  (h : heap) : heap * result unit :=
  match as_collection a value with
  | Some items =>
    if Nat.eqb (List.length items) (List.length (_sight_lines g)) then
      assign_each a (combine (_sight_lines g) items) h
    else
      (h, Raise (raising ValueError
                   ("The length of '" ++ attr_name a
                    ++ "' ({}) mismatches the number of sight-lines ({}).")
                   [str_of_nat (List.length items);
                    str_of_nat (List.length (_sight_lines g))]))
  | None =>
    match a with
    | A_names =>
      (h, Raise (TypeError "The names attribute must be a list or tuple."))
    | _ =>
      assign_each a (map (fun sight_line => (sight_line, value))
                         (_sight_lines g)) h
    end
  end.

(** [G.pipelines]. *)
Definition Observer0DGroup_pipelines (g : Group) (h : heap)
  : list (list Pipeline) :=
  map (fun sight_line => pipelines (h sight_line)) (_sight_lines g).

(** [connect_pipelines(properties)]: the loop over the members. *)
Fixpoint connect_each
  (properties : list (PipelineClass * option string * pyval))
  (sight_lines : list nat) (h : heap) : heap * result unit :=
  match sight_lines with
  | [] => (h, Ok tt)
  | sight_line :: rest =>
    match build_pipelines properties with
    | Raise e => (h, Raise e)
    | Ok pipelines =>
      match Observer_set_pipelines pipelines (h sight_line) with
      | (o', Ok _) => connect_each properties rest (update h sight_line o')
      | (o', Raise e) => (update h sight_line o', Raise e)
      end
    end
  end.

Definition connect_pipelines
  (properties : list (PipelineClass * option string * pyval))
  (g : Group) (h : heap) : heap * result unit :=
  connect_each properties (_sight_lines g) h.

(** The first loop of the group's [plot_spectra]: the members that have
    the pipeline, each with it; a [ValueError] or an [IndexError] of
    [get_pipeline] skips the member, any other exception goes through. *)
Fixpoint resolve_pipelines (h : heap) (item : key) (sight_lines : list nat)
  : result (list (nat * Pipeline)) :=
  match sight_lines with
  | [] => Ok []
  | sight_line :: rest =>
    match Observer_get_pipeline (h sight_line) item with
    | Ok pipeline =>
      found <- resolve_pipelines h item rest ;;
      Ok ((sight_line, pipeline) :: found)
    | Raise (ValueError _) | Raise (IndexError _) =>
      resolve_pipelines h item rest
    | Raise e => Raise e
    end
  end.

(** [for sight_line in sight_lines: sight_line.plot_spectra(item=item,
    unit=unit, extras=False)]. *)
Fixpoint plot_each (h : heap) (item : key) (unit : string)
  (sight_lines : list nat) : Plot Datatypes.unit :=
  match sight_lines with
  | [] => pret tt
  | sight_line :: rest =>
    Observer_plot_spectra (h sight_line) item unit None false ;;;
    plot_each h item unit rest
  end.

(** [plot_spectra(item, unit, ymax)] of a group. *)
Definition Observer0DGroup_plot_spectra (g : Group) (h : heap) (item : key)
  (unit : string) (ymax : option R) : Plot Datatypes.unit :=
  found <~ lift (resolve_pipelines h item (_sight_lines g)) ;;
  let pipelines := map snd found in
  let sight_lines := map fst found in
  match pipelines with
  | [] =>
    lift (Raise (raising ValueError
                   "Pipeline {} was not found for any sight-line in this {}."
                   ["(" ++ repr_of_key item ++ ", '"
                    ++ GroupClass_name (g_class g) ++ "')"]))
  | pipeline :: _ =>
    if (1 <? List.length (distinct PipelineClass_eqb (map pl_class pipelines)))%nat
    then
      lift (Raise (raising ValueError
                     "Pipelines {} have different types for different sight-lines."
                     [str_of_key item]))
    else
      call plt_figure ;;;
      plot_each h item unit sight_lines ;;;
      units <~ lift (units_of pipeline unit) ;;
      match ymax with
      | Some y => call (plt_ylim y)
      | None => pret tt
      end ;;;
      match item with
      | KInt _ =>
        if Nat.eqb (List.length (distinct name_eqb (map pl_name pipelines))) 1
        then
          title <~ lift (format "{}: {}" [str_of_name (g_name g);
                                          str_of_name (pl_name pipeline)]) ;;
          call (plt_title title)
        else
          title <~ lift (format "{}: pipeline {}" [str_of_name (g_name g);
                                                   str_of_key item]) ;;
          call (plt_title title)
      | KStr s =>
        title <~ lift (format "{}: {}" [str_of_name (g_name g); s]) ;;
        call (plt_title title)
      | KOther => pret tt
      end ;;;
      call (plt_xlabel "wavelength (nm)") ;;;
      label <~ lift (format "radiance ({})" [units]) ;;
      call (plt_ylabel label) ;;;
      call plt_legend
  end.

End GroupWithEngine.

(** ** Vocabulary of the statements *)

Section Vocabulary.

Context {engine : Engine}.

(** A value is valid for an attribute of an observer when the observer's own
    setter takes it. *)
Definition accepted (a : attr) (v : pyval) (o : Observer) : Prop :=
  snd (Observer_set a v o) = Ok tt.

(** [display_progress] and [accumulate] of an observer live in its
    pipelines. *)
Definition per_pipeline (a : attr) : bool :=
  match a with
  | A_display_progress | A_accumulate => true
  | _ => false
  end.

Definition supports (a : attr) (pipeline : Pipeline) : bool :=
  match a with
  | A_display_progress => isinstance_SpectralPowerPipeline0D pipeline
  | A_accumulate =>
    isinstance_PowerPipeline0D pipeline
    || isinstance_SpectralPowerPipeline0D pipeline
  | _ => false
  end.

Definition pipeline_attr (a : attr) (pipeline : Pipeline) : pyval :=
  match a with
  | A_display_progress => pl_display_progress pipeline
  | A_accumulate => pl_accumulate pipeline
  | _ => PyNone
  end.

(** The store of the flag an attribute of the pipelines is. *)
Definition flag_store (a : attr) : pyval -> Pipeline -> Pipeline :=
  match a with
  | A_display_progress => with_pl_display_progress
  | _ => with_pl_accumulate
  end.

(** What is kept of a value assigned to an attribute, when it is taken: the
    value itself for a name, an origin and a direction, which this module
    and the scene-graph node store as they are; the C boolean the engine
    makes of it for the two attributes of the pipelines; the value
    converted by the engine for the attributes of the engine's observer. *)
Definition kept (a : attr) (v : pyval) : pyval :=
  match a with
  | A_names | A_origin | A_direction => v
  | A_display_progress | A_accumulate =>
    match pipeline_flag v with
    | Ok b => PyBool b
    | Raise _ => v
    end
  | _ =>
    match engine_convert a v with
    | Ok w => w
    | Raise _ => v
    end
  end.

(** The observer holds [x] for the attribute: it reads back what is kept
    of [x], or, for an attribute that lives in the pipelines, every
    pipeline that has the attribute reads what is kept of [x]. *)
Definition holds (a : attr) (x : pyval) (o : Observer) : Prop :=
  if per_pipeline a then
    Forall (fun pipeline =>
              supports a pipeline = true -> pipeline_attr a pipeline = kept a x)
           (pipelines o)
  else Observer_get a o = kept a x.

(** What an observer reads for the attribute once [v] was assigned to it:
    what is kept of [v], or, for an attribute that lives in the pipelines,
    the list with what is kept of [v] for each pipeline that has the
    attribute and [None] for the others. *)
Definition reads_after (a : attr) (v : pyval) (o : Observer) : pyval :=
  if per_pipeline a then
    PyList (map (fun pipeline =>
                   if supports a pipeline then kept a v else PyNone)
                (pipelines o))
  else kept a v.

(** The stored transform is the one of the stored origin and direction:
    [translate(origin) * rotate_basis(direction, up)], with the up vector
    the setters choose. *)
Definition consistent (o : Observer) : Prop :=
  exists rot,
    rotate_basis (_direction o) (up_for (_direction o)) = Ok rot
    /\ transform o
       = mul (translate (px (_origin o)) (py (_origin o)) (pz (_origin o)))
             rot.

(** The engine's methods read the buffer of a spectrum, and not its
    attribute [samples]: two spectra of the same range, bins and buffer
    have the same total and the same photons. *)
Definition reads_buffer : Prop :=
  forall s1 s2 : Spectrum,
    sp_min_wavelength s1 = sp_min_wavelength s2 ->
    sp_max_wavelength s1 = sp_max_wavelength s2 ->
    sp_bins s1 = sp_bins s2 ->
    sp_buffer s1 = sp_buffer s2 ->
    Spectrum_total s1 = Spectrum_total s2
    /\ Spectrum_to_photons s1 = Spectrum_to_photons s2.

(** The classes [connect_pipelines] supports, the filters the constructor
    of a scalar pipeline takes, and the pipeline built for a triple whose
    class is supported and whose filter is taken. *)
Definition supported (c : PipelineClass) : bool :=
  match c with
  | OtherClass _ => false
  | _ => true
  end.

Definition spectral (c : PipelineClass) : bool :=
  match c with
  | SpectralRadiancePipeline0D | SpectralPowerPipeline0D => true
  | _ => false
  end.

Definition is_filter (v : pyval) : bool :=
  match v with
  | PyNone | PySpectralFunction _ => true
  | _ => false
  end.

Definition filter_taken (property : PipelineClass * option string * pyval)
  : bool :=
  let '(cls, _, filter_func) := property in
  spectral cls || is_filter filter_func.

Definition filter_or_default (filter_func : pyval) : pyval :=
  match filter_func with
  | PyNone => default_filter
  | _ => filter_func
  end.

Definition connected (property : PipelineClass * option string * pyval)
  : Pipeline :=
  let '(cls, name, filter_func) := property in
  if spectral cls then new_pipeline cls None false name
  else new_pipeline cls (Some (filter_or_default filter_func)) false name.

End Vocabulary.

(** The message of [connect_pipelines] on a class it does not support. *)
Definition unsupported_message (n : string) : string :=
  "Unsupported pipeline class: " ++ n ++ ". Only the following pipeline types are supported: SpectralRadiancePipeline0D, SpectralPowerPipeline0D, RadiancePipeline0D, PowerPipeline0D.".

(** ** Construction and membership

    The constructors of the two observer classes, the constructor of a
    group and the [sight_lines] setter of the two group classes. *)

(** An element of the value given to [sight_lines]: an observer, by its
    reference, or an object of another kind, by what [str] makes of it. *)
Inductive pyobj : Type :=
| ObjObserver (sight_line : nat)
| ObjOther (text : string).

(** The value given to [sight_lines]: a list, a tuple, or something else. *)
Inductive members_value : Type :=
| MList (items : list pyobj)
| MTuple (items : list pyobj)
| MOther.

Definition members_items (value : members_value) : option (list pyobj) :=
  match value with
  | MList items | MTuple items => Some items
  | MOther => None
  end.

(** [Observer0DGroup.__init__]: a group starts without members. *)
Definition Observer0DGroup_init (id : nat) (c : GroupClass)
  (name : option string) : Group :=
  mkGroup id c name [].

Section Construction.

Context {engine : Engine}.

(** [pipelines or [SpectralRadiancePipeline0D(accumulate=False)]]: no list
    and the empty list both give the default. *)
Definition pipelines_or_default (pipelines : option (list Pipeline))
  : list Pipeline :=
  match pipelines with
  | None | Some [] =>
    [SpectralPipeline_new SpectralRadiancePipeline0D false None]
  | Some ps => ps
  end.

(** What the engine's constructor leaves in the attributes it keeps (its
    defaults and, for a fibre optic, the acceptance angle and the radius
    given), and what [str] makes of an observer. *)
Variable engine_defaults : attr -> pyval.
Variable str_of_observer : Observer -> string.

(** [SpectroscopicSightLine.__init__] and [SpectroscopicFibreOptic.__init__]:
    the stored origin and direction start at (0, 0, 0) and (1, 0, 0), the
    engine's constructor takes the pipelines, the parent and the name, and
    the origin and the direction given are then assigned through the
    setters. *)
Definition Observer_init (c : ObserverClass) (origin direction : pyval)
  (pipelines : option (list Pipeline)) (parent : option nat)
  (name : option string) : result Observer :=
  let self :=
    mkObserver c None None (Point3D_new 0 0 0) (Vector3D_new 1 0 0) identity
      [] engine_defaults in
  let pipelines := pipelines_or_default pipelines in
  match Observer_set_pipelines pipelines self with
  | (_, Raise e) => Raise e
  | (self, Ok _) =>
    let self := with_name name (with_parent parent self) in
    match Observer_set_origin origin self with
    | (_, Raise e) => Raise e
    | (self, Ok _) =>
      match Observer_set_direction direction self with
      | (_, Raise e) => Raise e
      | (self, Ok _) => Ok self
      end
    end
  end.

(** [isinstance(sight_line, SpectroscopicSightLine)], or
    [SpectroscopicFibreOptic], for the class of the group. *)
Definition is_member_object (g : Group) (h : heap) (x : pyobj) : bool :=
  match x with
  | ObjObserver sight_line =>
    ObserverClass_eqb (ob_class (h sight_line)) (member_class (g_class g))
  | ObjOther _ => false
  end.

Definition str_of_pyobj (h : heap) (x : pyobj) : string :=
  match x with
  | ObjObserver sight_line => str_of_observer (h sight_line)
  | ObjOther text => text
  end.

Definition not_a_list_message (c : GroupClass) : string :=
  match c with
  | LineOfSightGroup =>
    "The sight_lines attribute of LineOfSightGroup must be a list or tuple of SpectroscopicSightLines."
  | FibreOpticGroup =>
    "The sight_lines attribute of FibreOpticGroup must be a list or tuple of SpectroscopicFibreOptics."
  end.

Definition not_a_member_template (c : GroupClass) : string :=
  match c with
  | LineOfSightGroup =>
    "The sight_lines attribute of LineOfSightGroup must be a list or tuple of SpectroscopicSightLines. Value {} is not a SpectroscopicSightLine."
  | FibreOpticGroup =>
    "The sight_lines attribute of FibreOpticGroup must be a list or tuple of SpectroscopicFibreOptics. Value {} is not a SpectroscopicFibreOptic."
  end.

(** The first loop of the setter: the first element that is not an observer
    of the group's class raises. *)
Fixpoint check_members (g : Group) (h : heap) (items : list pyobj)
  : result (list nat) :=
  match items with
  | [] => Ok []
  | x :: rest =>
    match x with
    | ObjObserver sight_line =>
      if is_member_object g h x then
        members <- check_members g h rest ;;
        Ok (sight_line :: members)
      else
        Raise (raising TypeError (not_a_member_template (g_class g))
                 [str_of_pyobj h x])
    | ObjOther _ =>
      Raise (raising TypeError (not_a_member_template (g_class g))
               [str_of_pyobj h x])
    end
  end.

(** The second loop: [sight_line.parent = self] for each. *)
Fixpoint reparent_each (g : Group) (sight_lines : list nat) (h : heap)
  : heap :=
  match sight_lines with
  | [] => h
  | sight_line :: rest =>
    reparent_each g rest
      (update h sight_line (with_parent (Some (g_id g)) (h sight_line)))
  end.

(** [G.sight_lines = value] of [LineOfSightGroup] and of
    [FibreOpticGroup]. *)
Definition set_sight_lines (value : members_value) (g : Group) (h : heap)
  : (Group * heap) * result unit :=
  match members_items value with
  | None => ((g, h), Raise (TypeError (not_a_list_message (g_class g))))
  | Some items =>
    match check_members g h items with
    | Raise e => ((g, h), Raise e)
    | Ok sight_lines =>
      ((mkGroup (g_id g) (g_class g) (g_name g) sight_lines,
        reparent_each g sight_lines h),
       Ok tt)
    end
  end.

End Construction.

(** Every member of the group is an observer of the class the group
    holds. *)
Definition members_of_class (g : Group) (h : heap) : Prop :=
  Forall (fun sight_line =>
            ob_class (h sight_line) = member_class (g_class g))
         (_sight_lines g).

(** The message of the [sight_lines] setter on an element that is not an
    observer of the group's class, [text] being what [str] makes of the
    element. *)
Definition not_a_member_message (c : GroupClass) (text : string) : string :=
  match c with
  | LineOfSightGroup =>
    "The sight_lines attribute of LineOfSightGroup must be a list or tuple of SpectroscopicSightLines. Value "
    ++ text ++ " is not a SpectroscopicSightLine."
  | FibreOpticGroup =>
    "The sight_lines attribute of FibreOpticGroup must be a list or tuple of SpectroscopicFibreOptics. Value "
    ++ text ++ " is not a SpectroscopicFibreOptic."
  end.

(** ** Concrete objects, for the examples *)

(** [type(v).__name__], with the module for the classes of the engine, as
    the messages of type errors give it. *)
Definition type_name (v : pyval) : string :=
  match v with
  | PyNone => "NoneType"
  | PyBool _ => "bool"
  | PyInt _ => "int"
  | PyFloat _ => "float"
  | PyStr _ => "str"
  | PyPoint3D _ => "raysect.core.math.point.Point3D"
  | PyVector3D _ => "raysect.core.math.vector.Vector3D"
  | PySpectralFunction _ => "raysect.optical.spectralfunction.SpectralFunction"
  | PyList _ => "list"
  | PyTuple _ => "tuple"
  | PyNdarray _ => "numpy.ndarray"
  end.

(** The integer a C [int] takes of a float: the float cut towards zero. *)
Definition truncate (x : R) : Z :=
  if Rle_dec 0 x then Int_part x else (- Int_part (- x))%Z.

(** The attributes of the engine's observer that are C integers; the
    others are C doubles. *)
Definition integer_attr (a : attr) : bool :=
  match a with
  | A_spectral_bins | A_ray_extinction_min_depth | A_ray_max_depth
  | A_pixel_samples | A_samples_per_task => true
  | _ => false
  end.

Definition demo_convert (a : attr) (v : pyval) : result pyval :=
  if integer_attr a then
    match v with
    | PyInt n => Ok (PyInt n)
    | PyBool b => Ok (PyInt (if b then 1 else 0))
    | PyFloat x => Ok (PyInt (truncate x))
    | _ => Raise (TypeError "an integer is required")
    end
  else
    match v with
    | PyInt n => Ok (PyFloat (IZR n))
    | PyBool b => Ok (PyFloat (if b then 1 else 0))
    | PyFloat x => Ok (PyFloat x)
    | _ => Raise (TypeError ("must be real number, not " ++ type_name v))
    end.

(** [bool(v)] of a value that is not an array. *)
Definition truth (v : pyval) : bool :=
  match v with
  | PyNone => false
  | PyBool b => b
  | PyInt n => negb (n =? 0)%Z
  | PyFloat x => negb (Req_b x 0)
  | PyStr s => negb (String.eqb s "")
  | PyList items | PyTuple items | PyNdarray items =>
    negb (Nat.eqb (List.length items) 0)
  | PyPoint3D _ | PyVector3D _ | PySpectralFunction _ => true
  end.

Definition demo_flag (v : pyval) : result bool :=
  match v with
  | PyNdarray [] => Ok false
  | PyNdarray [x] => Ok (truth x)
  | PyNdarray _ =>
    Raise (ValueError "The truth value of an array with more than one element is ambiguous. Use a.any() or a.all()")
  | _ => Ok (truth v)
  end.

Definition demo_type_error (name : string) (v : pyval) : exn :=
  match v with
  | PyNone => TypeError ("Argument '" ++ name ++ "' must not be None")
  | _ =>
    TypeError ("Argument '" ++ name ++ "' has incorrect type (expected "
               ++ (if String.eqb name "filter"
                   then "raysect.optical.spectralfunction.SpectralFunction"
                   else "str")
               ++ ", got " ++ type_name v ++ ")")
  end.

Definition demo_default_name (c : PipelineClass) : string :=
  match c with
  | PowerPipeline0D => "Power Pipeline"
  | RadiancePipeline0D => "Radiance Pipeline"
  | SpectralPowerPipeline0D => "Spectral Power Pipeline"
  | SpectralRadiancePipeline0D => "Spectral Radiance Pipeline"
  | OtherClass n => n
  end.

(** The width of a bin, the wavelengths at the centres of the bins, and the
    energy in joules of a photon of a wavelength in nanometres. *)
Definition bin_width (s : Spectrum) : R :=
  (sp_max_wavelength s - sp_min_wavelength s) / IZR (sp_bins s).

Definition bin_centres (s : Spectrum) : list R :=
  map (fun i => sp_min_wavelength s + (INR i + / 2) * bin_width s)
      (seq 0 (Z.to_nat (sp_bins s))).

Definition photon_energy (wavelength : R) : R :=
  6.62607015e-34 * 299792458 / (wavelength * 1e-9).

(** An engine for the examples.  It converts a value to the C type of the
    attribute, as the engine does, and makes none of the engine's checks of
    ranges: the examples stay within them.  It takes at least one pipeline.
    Its spectra integrate and convert the buffer. *)
Definition demo_engine : Engine := {|
  engine_convert := demo_convert;
  engine_check := fun _ _ _ => None;
  engine_check_others := fun _ _ _ _ _ => eq_refl;
  pipeline_flag := demo_flag;
  engine_check_pipelines := fun ps =>
    match ps with
    | [] => Some (ValueError "At least one pipeline must be provided.")
    | _ => None
    end;
  argument_type_error := demo_type_error;
  default_name := demo_default_name;
  default_filter := PySpectralFunction 0;
  Spectrum_wavelengths := bin_centres;
  Spectrum_total := fun s => fold_right Rplus 0 (sp_buffer s) * bin_width s;
  Spectrum_to_photons := fun s =>
    map (fun wx => snd wx / photon_energy (fst wx))
        (combine (bin_centres s) (sp_buffer s)) |}.

Definition demo_attrs : attr -> pyval :=
  fun a =>
    match a with
    | A_min_wavelength => PyFloat 400
    | A_max_wavelength => PyFloat 700
    | A_spectral_bins => PyInt 3
    | A_ray_extinction_prob => PyFloat (1 / 10)
    | A_ray_extinction_min_depth => PyInt 3
    | A_ray_max_depth => PyInt 100
    | A_ray_important_path_weight => PyFloat (1 / 4)
    | A_pixel_samples => PyInt 100
    | A_samples_per_task => PyInt 250
    | _ => PyNone
    end.

(** The transform the two setters store for an origin and a direction the
    engine makes a rotation of. *)
Definition placed (p : Point3D) (d : Vector3D) : AffineMatrix3D :=
  match rotate_basis d (up_for d) with
  | Ok rot => mul (translate (px p) (py p) (pz p)) rot
  | Raise _ => identity
  end.

(** A sight line at the origin looking along x, with the pipelines
    given. *)
Definition demo_sight_line (name : string) (ps : list Pipeline) : Observer :=
  mkObserver SpectroscopicSightLine (Some name) None
    (Point3D_new 0 0 0) (Vector3D_new 1 0 0)
    (placed (Point3D_new 0 0 0) (Vector3D_new 1 0 0))
    ps demo_attrs.

(** A spectral pipeline that has observed three bins, and a power pipeline
    that has recorded a mean of 600. *)
Definition observed_spectral : Pipeline :=
  mkPipeline SpectralRadiancePipeline0D (Some "spectral") None
    (PyBool false) (PyBool false) 0
    (Some (mkStatsArray1D [1; 2; 3])) 400 700 3.

Definition observed_power : Pipeline :=
  mkPipeline PowerPipeline0D (Some "power") (Some (PySpectralFunction 0))
    (PyBool false) (PyBool false) 600 None 0 0 0.

Definition demo_heap : heap :=
  fun id =>
    match id with
    | 0%nat => demo_sight_line "los0" [observed_spectral]
    | 1%nat => demo_sight_line "los1" [observed_power]
    | _ => demo_sight_line "los" [observed_spectral; observed_power]
    end.

Definition demo_group (members : list nat) : Group :=
  mkGroup 100 LineOfSightGroup (Some "group") members.

(** The heap of the examples with, for observer 1, the direction (0, 0, 2)
    stored: one the engine makes no rotation of. *)
Definition stuck_heap : heap :=
  fun id =>
    match id with
    | 1%nat => with_direction (Vector3D_new 0 0 2) (demo_heap 1%nat)
    | _ => demo_heap id
    end.

(** * Properties *)

(** ** Lookup by position and by name *)


Lemma py_index_in_range (A : Type) (l : list A) (i : Z) :
  (- Z.of_nat (List.length l) <= i < Z.of_nat (List.length l))%Z ->
  exists x, py_index l i = Some x /\ In x l.
Proof.
  intros Hin. unfold py_index.
  destruct (Z.leb_spec 0 i) as [Hpos | Hneg]; simpl.
  - destruct (Z.ltb_spec i (Z.of_nat (List.length l))) as [Hlt | Hge];
      [| lia].
    destruct (nth_error l (Z.to_nat i)) as [x |] eqn:Hx.
    + exists x. split; [reflexivity | eapply nth_error_In; eassumption].
    + apply nth_error_None in Hx. lia.
  - destruct (Z.leb_spec (- Z.of_nat (List.length l)) i) as [Hle | Hgt];
      [| lia].
    destruct (Z.ltb_spec i 0) as [_ | Hge]; [| lia]. simpl.
    destruct (nth_error l (Z.to_nat (Z.of_nat (List.length l) + i)))
      as [x |] eqn:Hx.
    + exists x. split; [reflexivity | eapply nth_error_In; eassumption].
    + apply nth_error_None in Hx. lia.
Qed.

Lemma name_eqb_eq (a b : option string) : name_eqb a b = true <-> a = b.
Proof.
  destruct a as [x |], b as [y |]; simpl; split; intros Heq;
    try discriminate; try reflexivity.
  - apply String.eqb_eq in Heq. now subst.
  - injection Heq as ->. apply String.eqb_refl.
Qed.


(** ** Observed spectra *)

Local Open Scope R_scope.

Lemma Rle_b_false (a b : R) : b < a -> Rle_b a b = false.
Proof.
  intros Hlt. unfold Rle_b. destruct (Rle_dec a b) as [Hle | _]; [lra | easy].
Qed.

Lemma Req_b_false (a b : R) : a <> b -> Req_b a b = false.
Proof.
  intros Hne. unfold Req_b. destruct (Req_dec_T a b); [contradiction | easy].
Qed.

Lemma Req_b_true (a b : R) : a = b -> Req_b a b = true.
Proof.
  intros Heq. unfold Req_b. destruct (Req_dec_T a b); [easy | contradiction].
Qed.

Lemma Spectrum_init_valid (lo hi : R) (bins : Z) :
  0 < lo < hi -> (1 <= bins)%Z ->
  Spectrum_init lo hi bins
  = Ok (mkSpectrum lo hi bins (repeat 0 (Z.to_nat bins))
          (repeat 0 (Z.to_nat bins))).
Proof.
  intros [Hlo Hhi] Hbins. unfold Spectrum_init.
  rewrite (Rle_b_false _ _ Hlo), (Rle_b_false hi 0), (Rle_b_false _ _ Hhi) by lra.
  simpl. destruct (Z.ltb_spec bins 1); [lia | reflexivity].
Qed.

(** C5: when the pipeline found is a scalar pipeline (a [PowerPipeline0D],
    which a [RadiancePipeline0D] is too) with recorded mean [P], and the
    wavelength bounds of the observer are [lo < hi], [observed_spectrum]
    returns the spectrum of one bin over [lo, hi] whose sample is
    [P / (hi - lo)]; the sample is written into the spectrum's own array,
    so the engine's methods read it too. *)
Theorem scalar_observed_spectrum (o : Observer) (item : key)
  (pipeline : Pipeline) (lo hi : R) :
  Observer_get_pipeline o item = Ok pipeline ->
  isinstance_PowerPipeline0D pipeline = true ->
  as_float (engine_attrs o A_min_wavelength) = Some lo ->
  as_float (engine_attrs o A_max_wavelength) = Some hi ->
  0 < lo < hi ->
  Observer_observed_spectrum o item
  = Ok (mkSpectrum lo hi 1 [pl_value_mean pipeline / (hi - lo)]
          [pl_value_mean pipeline / (hi - lo)]).
Proof.
  intros Hget Hpower Hlo Hhi Hbounds. unfold Observer_observed_spectrum.
  rewrite Hget. simpl. rewrite Hpower, Hlo, Hhi.
  rewrite Spectrum_init_valid by (assumption || lia). simpl.
  unfold py_div. rewrite Req_b_false by lra. reflexivity.
Qed.

(** C6: when the pipeline found is spectrally resolved, [observed_spectrum]
    raises "No spectrum has been observed." exactly when the pipeline has
    no samples yet; with samples, it returns the spectrum over the range the
    pipeline recorded, with the pipeline's number of bins, whose samples are
    the means of the pipeline's samples; the means are assigned to the
    attribute [samples], and the buffer of the spectrum stays at zero. *)
Theorem spectral_observed_spectrum (o : Observer) (item : key)
  (pipeline : Pipeline) :
  Observer_get_pipeline o item = Ok pipeline ->
  isinstance_SpectralPowerPipeline0D pipeline = true ->
  (Observer_observed_spectrum o item
   = Raise (ValueError "No spectrum has been observed.")
   <-> pl_samples pipeline = None)
  /\ (forall samples : StatsArray1D,
         pl_samples pipeline = Some samples ->
         0 < pl_min_wavelength pipeline < pl_max_wavelength pipeline ->
         (1 <= pl_bins pipeline)%Z ->
         Observer_observed_spectrum o item
         = Ok (mkSpectrum (pl_min_wavelength pipeline)
                 (pl_max_wavelength pipeline) (pl_bins pipeline)
                 (sa_mean samples)
                 (repeat 0 (Z.to_nat (pl_bins pipeline))))).
Proof.
  intros Hget Hspectral. unfold Observer_observed_spectrum.
  rewrite Hget. simpl.
  assert (Hpower : isinstance_PowerPipeline0D pipeline = false).
  { unfold isinstance_PowerPipeline0D, isinstance_SpectralPowerPipeline0D in *.
    destruct (pl_class pipeline); easy. }
  rewrite Hpower, Hspectral. split.
  - destruct (pl_samples pipeline) as [samples |]; [| easy].
    split; [| discriminate]. unfold Spectrum_init.
    repeat match goal with
           | |- context [if ?b then _ else _] => destruct b
           end; simpl; discriminate.
  - intros samples Hsamples Hrange Hbins. rewrite Hsamples.
    rewrite Spectrum_init_valid by assumption. reflexivity.
Qed.

(** ** Plotting *)

Section Plotting.

Context {engine : Engine}.

Lemma string_eqb_false (a b : string) : a <> b -> String.eqb a b = false.
Proof. intros Hne. now apply String.eqb_neq. Qed.

Lemma plot_each_refused (h : heap) (item : key) (unit : string)
  (sight_line : nat) (rest : list nat) (log : list plt_call) :
  unit <> "J" -> unit <> "ph" ->
  plot_each h item unit (sight_line :: rest) log
  = (log, Raise (ValueError "unit must be 'J' or 'ph'.")).
Proof.
  intros HJ Hph. simpl.
  unfold pbind, Observer_plot_spectra, pbind, lift, spectrum_in_unit.
  rewrite (string_eqb_false _ _ HJ), (string_eqb_false _ _ Hph). reflexivity.
Qed.

(** C9 (as the code has it): with a unit other than "J" and "ph", the
    observer's [plot_spectra] raises the [ValueError] with the fixed message
    "unit must be 'J' or 'ph'." before anything is plotted, and the group's
    [plot_spectra] raises too: that same error, once the figure is opened,
    when some member has the pipeline and the pipelines found are of one
    class, and the error of the pipeline lookup otherwise. *)
Theorem plot_spectra_refuses_unit (unit : string) :
  unit <> "J" -> unit <> "ph" ->
  (forall (o : Observer) (item : key) (ymax : option R) (extras : bool)
          (log : list plt_call),
      Observer_plot_spectra o item unit ymax extras log
      = (log, Raise (ValueError "unit must be 'J' or 'ph'.")))
  /\ (forall (g : Group) (h : heap) (item : key) (ymax : option R)
             (log : list plt_call),
         exists log' e,
           Observer0DGroup_plot_spectra g h item unit ymax log
           = (log', Raise e))
  /\ (forall (g : Group) (h : heap) (item : key) (ymax : option R)
             (log : list plt_call) (found : list (nat * Pipeline)),
         resolve_pipelines h item (_sight_lines g) = Ok found ->
         found <> [] ->
         (List.length (distinct PipelineClass_eqb
                         (map pl_class (map snd found))) <= 1)%nat ->
         Observer0DGroup_plot_spectra g h item unit ymax log
         = ((log ++ [plt_figure])%list,
            Raise (ValueError "unit must be 'J' or 'ph'."))).
Proof.
  intros HJ Hph.
  assert (Hgroup :
    forall (g : Group) (h : heap) (item : key) (ymax : option R)
           (log : list plt_call) (found : list (nat * Pipeline)),
      resolve_pipelines h item (_sight_lines g) = Ok found ->
      found <> [] ->
      (List.length (distinct PipelineClass_eqb
                      (map pl_class (map snd found))) <= 1)%nat ->
      Observer0DGroup_plot_spectra g h item unit ymax log
      = ((log ++ [plt_figure])%list,
         Raise (ValueError "unit must be 'J' or 'ph'."))).
  { intros g h item ymax log found Hfound Hne Hone.
    unfold Observer0DGroup_plot_spectra, pbind at 1, lift at 1.
    rewrite Hfound. destruct found as [| [sight_line pipeline] rest];
      [contradiction |].
    cbn [map snd fst] in *.
    destruct (Nat.ltb_spec 1
                (List.length
                   (distinct PipelineClass_eqb
                      (pl_class pipeline :: map pl_class (map snd rest)))));
      [lia |].
    unfold pbind at 1, call at 1. unfold pbind at 1.
    rewrite plot_each_refused by assumption. reflexivity. }
  split; [| split].
  - intros o item ymax extras log.
    unfold Observer_plot_spectra, pbind, lift, spectrum_in_unit.
    rewrite (string_eqb_false _ _ HJ), (string_eqb_false _ _ Hph). reflexivity.
  - intros g h item ymax log.
    destruct (resolve_pipelines h item (_sight_lines g)) as [found | e]
      eqn:Hfound.
    + destruct found as [| [sight_line pipeline] rest] eqn:Hshape.
      * unfold Observer0DGroup_plot_spectra, pbind, lift.
        rewrite Hfound. simpl. eauto.
      * destruct (Nat.ltb_spec 1
                    (List.length
                       (distinct PipelineClass_eqb
                          (map pl_class (map snd found))))) as [Hmix | Hone].
        -- unfold Observer0DGroup_plot_spectra, pbind, lift.
           rewrite Hfound. cbn [map snd fst]. subst found.
           cbn [map snd fst] in Hmix.
           apply Nat.ltb_lt in Hmix. rewrite Hmix. eauto.
        -- subst found. erewrite Hgroup; eauto. discriminate.
    + unfold Observer0DGroup_plot_spectra, pbind, lift.
      rewrite Hfound. eauto.
  - exact Hgroup.
Qed.

Lemma units_of_Ok (pipeline : Pipeline) (unit : string) :
  exists units, units_of pipeline unit = Ok units.
Proof.
  unfold units_of.
  repeat match goal with
         | |- context [if ?b then _ else _] => destruct b
         end; eexists; reflexivity.
Qed.

(** Once the pipeline is found, drawing the samples succeeds and the block
    of the extras stops at the label of the y axis. *)
Lemma plot_extras_raises (o : Observer) (item : key) (unit : string)
  (ymax : option R) (pipeline : Pipeline) (spectrum : Spectrum)
  (log : list plt_call) :
  Observer_get_pipeline o item = Ok pipeline ->
  exists log',
    (plot_samples o item spectrum ;;; plot_extras o item unit ymax) log
    = (log', Raise (ValueError "Single '}' encountered in format string"))
    /\ In (plt_xlabel "wavelength (nm)") log'
    /\ forall text, In (plt_ylabel text) log' -> In (plt_ylabel text) log.
Proof.
  intros Hget. destruct (units_of_Ok pipeline unit) as [units Hunits].
  unfold plot_samples, plot_extras, pbind, lift, call, pret.
  rewrite Hget, Hunits.
  destruct (1 <? List.length (sp_samples spectrum))%nat,
           (isinstance_SpectralPowerPipeline0D pipeline),
           (isinstance_PowerPipeline0D pipeline), ymax;
    cbn [format format_from nth_error prepend Ascii.eqb Bool.eqb];
    eexists; (split; [reflexivity |]);
    (split;
     [ repeat (apply in_or_app; first [right; simpl; tauto | left])
     | intros text Hin;
       repeat (apply in_app_or in Hin;
               destruct Hin as [Hin | Hin];
               [| simpl in Hin; repeat destruct Hin as [Hin | Hin];
                  try discriminate; contradiction]);
       exact Hin ]).
Qed.

(** C10: the observer's [plot_spectra] with [extras=True] never completes:
    it always raises; and when the unit is "J" or "ph" and the spectrum of
    the pipeline can be observed, what it raises is the [ValueError] of the
    y-axis label, whose format string "radiance ({}})" has a closing brace
    alone, after the title and the x-axis label were set. *)
Theorem plot_spectra_extras_always_raises (o : Observer) (item : key)
  (unit : string) (ymax : option R) (log : list plt_call) :
  (exists log' e,
      Observer_plot_spectra o item unit ymax true log = (log', Raise e))
  /\ (forall spectrum : Spectrum,
         unit = "J" \/ unit = "ph" ->
         Observer_observed_spectrum o item = Ok spectrum ->
         exists log',
           Observer_plot_spectra o item unit ymax true log
           = (log',
              Raise (ValueError "Single '}' encountered in format string"))
           /\ In (plt_xlabel "wavelength (nm)") log'
           /\ forall text,
               In (plt_ylabel text) log' -> In (plt_ylabel text) log).
Proof.
  unfold Observer_plot_spectra, pbind at 1, lift at 1.
  destruct (Observer_get_pipeline o item) as [pipeline | e] eqn:Hget.
  - split.
    + destruct (spectrum_in_unit o item unit) as [spectrum | e]; [| eauto].
      destruct (plot_extras_raises o item unit ymax pipeline spectrum log Hget)
        as (log' & Hrun & _).
      rewrite Hrun. eauto.
    + intros spectrum Hunit Hobserved. unfold spectrum_in_unit.
      rewrite Hobserved.
      destruct Hunit as [-> | ->]; cbn [String.eqb Ascii.eqb Bool.eqb bind];
        apply (plot_extras_raises o item _ ymax pipeline _ log Hget).
  - assert (Hobserved : Observer_observed_spectrum o item = Raise e)
      by (unfold Observer_observed_spectrum; now rewrite Hget).
    split.
    + unfold spectrum_in_unit. rewrite Hobserved. simpl.
      destruct (String.eqb unit "J"); [eauto |].
      destruct (String.eqb unit "ph"); eauto.
    + intros spectrum _ Hok. rewrite Hobserved in Hok. discriminate.
Qed.

End Plotting.

(** ** The transform of an observer *)

Section Transform.

(** What the two setters do, by what the engine makes of the direction. *)
Lemma Observer_set_direction_Ok (o : Observer) (d : Vector3D)
  (rot : AffineMatrix3D) :
  rotate_basis d (up_for d) = Ok rot ->
  Observer_set_direction (PyVector3D d) o
  = (with_transform
       (mul (translate (px (_origin o)) (py (_origin o)) (pz (_origin o)))
            rot)
       (with_direction d o), Ok tt).
Proof. intros Hrot. unfold Observer_set_direction. now rewrite Hrot. Qed.

Lemma Observer_set_direction_Raise (o : Observer) (d : Vector3D) (e : exn) :
  rotate_basis d (up_for d) = Raise e ->
  Observer_set_direction (PyVector3D d) o = (with_direction d o, Raise e).
Proof. intros Hrot. unfold Observer_set_direction. now rewrite Hrot. Qed.

Lemma Observer_set_origin_Ok (o : Observer) (p : Point3D)
  (rot : AffineMatrix3D) :
  rotate_basis (_direction o) (up_for (_direction o)) = Ok rot ->
  Observer_set_origin (PyPoint3D p) o
  = (with_transform (mul (translate (px p) (py p) (pz p)) rot)
       (with_origin p o), Ok tt).
Proof.
  intros Hrot. unfold Observer_set_origin. cbn [_direction with_origin].
  now rewrite Hrot.
Qed.

Lemma Observer_set_origin_Raise (o : Observer) (p : Point3D) (e : exn) :
  rotate_basis (_direction o) (up_for (_direction o)) = Raise e ->
  Observer_set_origin (PyPoint3D p) o = (with_origin p o, Raise e).
Proof.
  intros Hrot. unfold Observer_set_origin. cbn [_direction with_origin].
  now rewrite Hrot.
Qed.

(** An observer whose stored direction the engine makes no rotation of has
    no consistent transform. *)
Lemma refused_is_not_consistent (o : Observer) (e : exn) :
  rotate_basis (_direction o) (up_for (_direction o)) = Raise e ->
  ~ consistent o.
Proof. intros Hrot (rot & Hok & _). rewrite Hrot in Hok. discriminate. Qed.

(** What the engine makes of some directions, computed on doubles. *)
Lemma rotate_basis_along_x :
  rotate_basis (Vector3D_new 1 0 0) (up_for (Vector3D_new 1 0 0))
  = Ok (mkAffineMatrix3D
          (double_of_Z 0) (double_of_Z 0) (double_of_Z 1) (double_of_Z 0)
          (double_of_Z 1) (double_of_Z 0) (double_of_Z 0) (double_of_Z 0)
          (double_of_Z 0) (double_of_Z 1) (double_of_Z 0) (double_of_Z 0)
          (double_of_Z 0) (double_of_Z 0) (double_of_Z 0) (double_of_Z 1)).
Proof. vm_compute. reflexivity. Qed.

Lemma rotate_basis_along_z :
  rotate_basis (Vector3D_new 0 0 1) (up_for (Vector3D_new 0 0 1))
  = Ok (mkAffineMatrix3D
          (double_of_Z 0) (double_of_Z 1) (double_of_Z 0) (double_of_Z 0)
          (double_of_Z (-1)) (double_of_Z 0) (double_of_Z 0) (double_of_Z 0)
          (double_of_Z 0) (double_of_Z 0) (double_of_Z 1) (double_of_Z 0)
          (double_of_Z 0) (double_of_Z 0) (double_of_Z 0) (double_of_Z 1)).
Proof. vm_compute. reflexivity. Qed.

Lemma rotate_basis_against_z :
  rotate_basis (Vector3D_new 0 0 (-1)) (up_for (Vector3D_new 0 0 (-1)))
  = Raise zero_length.
Proof. vm_compute. reflexivity. Qed.

Lemma rotate_basis_twice_z :
  rotate_basis (Vector3D_new 0 0 2) (up_for (Vector3D_new 0 0 2))
  = Raise coincident.
Proof. vm_compute. reflexivity. Qed.

(** A vector that is not zero, and whose squared length is: 2 ** -600
    along x. *)
Lemma rotate_basis_tiny :
  rotate_basis (mkVector3D (double_pow2 (-600)) (double_of_Z 0) (double_of_Z 0))
    (up_for (mkVector3D (double_pow2 (-600)) (double_of_Z 0) (double_of_Z 0)))
  = Raise zero_length.
Proof. vm_compute. reflexivity. Qed.

(** The sight lines of the examples are consistent. *)
Lemma demo_sight_line_consistent (name : string) (ps : list Pipeline) :
  consistent (demo_sight_line name ps).
Proof.
  unfold consistent, demo_sight_line, placed.
  cbn [_direction _origin transform]. rewrite rotate_basis_along_x.
  eexists. split; reflexivity.
Qed.

(** C3, where the code fails it: the direction (0, 0, -1).  The setter
    stores the direction and then raises, in the engine's [rotate_basis]:
    the observer is left with the new direction and the transform of the
    former one, which is no more [translate(origin) *
    rotate_basis(direction, up)] of what is stored.  From then on an
    assignment to [origin] stores the point and raises too, and the
    translation of the transform is not the origin stored.  The same
    happens for a direction too short for its squared length, such as
    2 ** -600 along x.  The observer of the examples, at (0, 0, 0) along
    (1, 0, 0), shows it: it is consistent before, and after the two
    assignments it is at (1, 2, 3) along (0, 0, -1) with the transform it
    had. *)
Theorem refused_direction_leaves_stale_transform (o : Observer)
  (p : Point3D) :
  Observer_set_direction (PyVector3D (Vector3D_new 0 0 (-1))) o
  = (with_direction (Vector3D_new 0 0 (-1)) o, Raise zero_length)
  /\ _direction (with_direction (Vector3D_new 0 0 (-1)) o)
     = Vector3D_new 0 0 (-1)
  /\ transform (with_direction (Vector3D_new 0 0 (-1)) o) = transform o
  /\ ~ consistent (with_direction (Vector3D_new 0 0 (-1)) o)
  /\ Observer_set_origin (PyPoint3D p)
       (with_direction (Vector3D_new 0 0 (-1)) o)
     = (with_origin p (with_direction (Vector3D_new 0 0 (-1)) o),
        Raise zero_length)
  /\ Observer_set_direction
       (PyVector3D (mkVector3D (double_pow2 (-600)) (double_of_Z 0)
                      (double_of_Z 0))) o
     = (with_direction
          (mkVector3D (double_pow2 (-600)) (double_of_Z 0) (double_of_Z 0))
          o,
        Raise zero_length)
  /\ consistent (demo_heap 0%nat)
  /\ exists o',
      Observer_set_origin (PyPoint3D (Point3D_new 1 2 3))
        (fst (Observer_set_direction (PyVector3D (Vector3D_new 0 0 (-1)))
                (demo_heap 0%nat)))
      = (o', Raise zero_length)
      /\ _origin o' = Point3D_new 1 2 3
      /\ _direction o' = Vector3D_new 0 0 (-1)
      /\ transform o' = transform (demo_heap 0%nat)
      /\ translation_of (transform o') <> _origin o'
      /\ ~ consistent o'.
Proof.
  pose proof rotate_basis_against_z as Hz.
  split; [now apply Observer_set_direction_Raise |].
  split; [reflexivity |]. split; [reflexivity |].
  split; [now apply (refused_is_not_consistent _ zero_length) |].
  split; [now apply Observer_set_origin_Raise |].
  split; [apply Observer_set_direction_Raise; exact rotate_basis_tiny |].
  split; [apply demo_sight_line_consistent |].
  rewrite (Observer_set_direction_Raise _ _ _ Hz). cbn [fst].
  rewrite (Observer_set_origin_Raise _ _ zero_length) by exact Hz.
  eexists. split; [reflexivity |].
  split; [reflexivity |]. split; [reflexivity |]. split; [reflexivity |].
  split.
  - vm_compute. discriminate.
  - now apply (refused_is_not_consistent _ zero_length).
Qed.

(** C4, where the code fails it: the directions (0, 0, 2) and (0, 0, -1).
    Both are parallel to (0, 0, 1); the guard compares the coordinates with
    0, 0 and 1, so the up vector chosen for them is (0, 0, 1) and not
    (1, 0, 0), and the engine refuses the basis: the assignment raises,
    after the direction was stored.  For (0, 0, 1) itself the up vector is
    (1, 0, 0), the engine makes a rotation whose determinant is 1, and the
    assignment completes. *)
Theorem up_vector_guard_misses_parallel_directions (o : Observer) :
  parallel (Vector3D_new 0 0 2) (Vector3D_new 0 0 1) = true
  /\ up_for (Vector3D_new 0 0 2) = Vector3D_new 0 0 1
  /\ Observer_set_direction (PyVector3D (Vector3D_new 0 0 2)) o
     = (with_direction (Vector3D_new 0 0 2) o, Raise coincident)
  /\ parallel (Vector3D_new 0 0 (-1)) (Vector3D_new 0 0 1) = true
  /\ up_for (Vector3D_new 0 0 (-1)) = Vector3D_new 0 0 1
  /\ Observer_set_direction (PyVector3D (Vector3D_new 0 0 (-1))) o
     = (with_direction (Vector3D_new 0 0 (-1)) o, Raise zero_length)
  /\ up_for (Vector3D_new 0 0 1) = Vector3D_new 1 0 0
  /\ exists rot,
      rotate_basis (Vector3D_new 0 0 1) (Vector3D_new 1 0 0) = Ok rot
      /\ linear_det rot = double_of_Z 1
      /\ Observer_set_direction (PyVector3D (Vector3D_new 0 0 1)) o
         = (with_transform
              (mul (translate (px (_origin o)) (py (_origin o))
                      (pz (_origin o))) rot)
              (with_direction (Vector3D_new 0 0 1) o),
            Ok tt).
Proof.
  split; [vm_compute; reflexivity |]. split; [vm_compute; reflexivity |].
  split; [apply Observer_set_direction_Raise; exact rotate_basis_twice_z |].
  split; [vm_compute; reflexivity |]. split; [vm_compute; reflexivity |].
  split; [apply Observer_set_direction_Raise; exact rotate_basis_against_z |].
  split; [vm_compute; reflexivity |].
  eexists. split; [exact rotate_basis_along_z |].
  split; [vm_compute; reflexivity |].
  apply Observer_set_direction_Ok. exact rotate_basis_along_z.
Qed.

End Transform.
(** ** Bulk assignment in a group *)

Section Bulk.

Context {engine : Engine}.

Lemma update_same (h : heap) (id : nat) (o : Observer) : update h id o id = o.
Proof. unfold update. now rewrite Nat.eqb_refl. Qed.

Lemma update_other (h : heap) (id j : nat) (o : Observer) :
  j <> id -> update h id o j = h j.
Proof.
  intros Hne. unfold update.
  destruct (Nat.eqb_spec j id); [contradiction | reflexivity].
Qed.

Lemma attr_eqb_refl (a : attr) : attr_eqb a a = true.
Proof. unfold attr_eqb. apply String.eqb_refl. Qed.

(** The loop over the pipelines, by what the engine makes of the value:
    with a C boolean, every pipeline that has the flag gets it; with an
    exception, the first pipeline that has the flag raises it and nothing
    is written. *)
Lemma assign_flag_Ok (has : Pipeline -> bool)
  (store : pyval -> Pipeline -> Pipeline) (value : pyval)
  (ps : list Pipeline) (b : bool) :
  pipeline_flag value = Ok b ->
  assign_flag has store value ps
  = (map (fun pipeline =>
            if has pipeline then store (PyBool b) pipeline else pipeline) ps,
     Ok tt).
Proof.
  intros Hflag. induction ps as [| pipeline rest IH]; [reflexivity |].
  cbn [assign_flag map]. rewrite Hflag, IH.
  destruct (has pipeline); reflexivity.
Qed.

Lemma assign_flag_Raise (has : Pipeline -> bool)
  (store : pyval -> Pipeline -> Pipeline) (value : pyval)
  (ps : list Pipeline) (e : exn) :
  pipeline_flag value = Raise e ->
  assign_flag has store value ps
  = (ps, if existsb has ps then Raise e else Ok tt).
Proof.
  intros Hflag. induction ps as [| pipeline rest IH]; [reflexivity |].
  cbn [assign_flag existsb]. rewrite Hflag, IH.
  destruct (has pipeline); reflexivity.
Qed.

Lemma existsb_map_eq (A : Type) (f : A -> bool) (l l' : list A) :
  map f l' = map f l -> existsb f l' = existsb f l.
Proof.
  revert l'. induction l as [| x l IH]; intros [| x' l'] Hmap;
    try discriminate; [reflexivity |].
  cbn [map] in Hmap. injection Hmap as Hx Hl.
  cbn [existsb]. now rewrite Hx, (IH _ Hl).
Qed.

Lemma Observer_set_flag (a : attr) (value : pyval) (o : Observer) :
  per_pipeline a = true ->
  Observer_set a value o
  = (with_pipelines
       (fst (assign_flag (supports a) (flag_store a) value (pipelines o))) o,
     snd (assign_flag (supports a) (flag_store a) value (pipelines o))).
Proof.
  intros Hper. destruct a; try discriminate; cbn [Observer_set].
  - unfold Observer_set_display_progress. cbn [supports flag_store].
    change (fun pipeline : Pipeline =>
              isinstance_SpectralPowerPipeline0D pipeline)
      with isinstance_SpectralPowerPipeline0D.
    now destruct (assign_flag _ _ _ _).
  - unfold Observer_set_accumulate. cbn [supports flag_store].
    now destruct (assign_flag _ _ _ _).
Qed.

Lemma flag_store_supports (a b : attr) (x : pyval) (pipeline : Pipeline) :
  supports b (flag_store a x pipeline) = supports b pipeline.
Proof. destruct a, b; reflexivity. Qed.

Lemma flag_store_attr (a : attr) (x : pyval) (pipeline : Pipeline) :
  per_pipeline a = true ->
  pipeline_attr a (flag_store a x pipeline) = x.
Proof. destruct a; try discriminate; reflexivity. Qed.

Lemma Observer_get_flag (a : attr) (o : Observer) :
  per_pipeline a = true ->
  Observer_get a o
  = PyList (map (fun pipeline =>
                   if supports a pipeline then pipeline_attr a pipeline
                   else PyNone)
                (pipelines o)).
Proof. destruct a; try discriminate; reflexivity. Qed.

Lemma kept_flag (a : attr) (v : pyval) (b : bool) :
  per_pipeline a = true -> pipeline_flag v = Ok b -> kept a v = PyBool b.
Proof.
  intros Hper Hflag. destruct a; try discriminate; cbn [kept];
    now rewrite Hflag.
Qed.

(** No assignment changes which pipelines an observer has, nor their
    classes. *)
Lemma Observer_set_supports (a b : attr) (x : pyval) (o : Observer) :
  map (supports b) (pipelines (fst (Observer_set a x o)))
  = map (supports b) (pipelines o).
Proof.
  destruct (per_pipeline a) eqn:Hper.
  - rewrite (Observer_set_flag _ _ _ Hper). cbn [fst pipelines with_pipelines].
    destruct (pipeline_flag x) as [flag | e] eqn:Hflag.
    + rewrite (assign_flag_Ok _ _ _ _ _ Hflag). cbn [fst].
      rewrite map_map. apply map_ext. intros pipeline.
      destruct (supports a pipeline); [apply flag_store_supports | reflexivity].
    + now rewrite (assign_flag_Raise _ _ _ _ _ Hflag).
  - destruct a; try discriminate; cbn [Observer_set fst];
      try (unfold Observer_set_engine_attr;
           destruct (engine_convert _ x); [| reflexivity];
           destruct (engine_check _ _ _); reflexivity).
    + unfold Observer_set_name. destruct x; reflexivity.
    + unfold Observer_set_origin. destruct x; try reflexivity.
      cbn [_direction with_origin]. destruct (rotate_basis _ _); reflexivity.
    + unfold Observer_set_direction. destruct x; try reflexivity.
      destruct (rotate_basis _ _); reflexivity.
Qed.

Lemma reads_after_set (a b : attr) (x v : pyval) (o : Observer) :
  reads_after b v (fst (Observer_set a x o)) = reads_after b v o.
Proof.
  unfold reads_after. destruct (per_pipeline b); [| reflexivity].
  f_equal.
  rewrite <- (map_map (supports b)
                (fun s : bool => if s then kept b v else PyNone)).
  rewrite Observer_set_supports. now rewrite map_map.
Qed.

Lemma Observer_set_origin_direction (x : pyval) (o : Observer) :
  _direction (fst (Observer_set_origin x o)) = _direction o.
Proof.
  unfold Observer_set_origin. destruct x; try reflexivity.
  cbn [_direction with_origin]. destruct (rotate_basis _ _); reflexivity.
Qed.

Lemma accepted_origin (x : pyval) (o : Observer) :
  accepted A_origin x o
  <-> exists p rot,
      x = PyPoint3D p
      /\ rotate_basis (_direction o) (up_for (_direction o)) = Ok rot.
Proof.
  unfold accepted. cbn [Observer_set]. unfold Observer_set_origin. split.
  - destruct x; try discriminate. cbn [_direction with_origin].
    destruct (rotate_basis _ _) as [rot |]; [eauto | discriminate].
  - intros (p & rot & -> & Hrot). cbn [_direction with_origin].
    now rewrite Hrot.
Qed.

(** A value is taken for an attribute of the pipelines when the engine
    makes a C boolean of it, or when no pipeline has the attribute. *)
Lemma accepted_flag (a : attr) (x : pyval) (o : Observer) :
  per_pipeline a = true ->
  accepted a x o
  <-> (exists b, pipeline_flag x = Ok b)
      \/ existsb (supports a) (pipelines o) = false.
Proof.
  intros Hper. unfold accepted. rewrite (Observer_set_flag _ _ _ Hper).
  cbn [snd]. destruct (pipeline_flag x) as [flag | e] eqn:Hflag.
  - rewrite (assign_flag_Ok _ _ _ _ _ Hflag). cbn [snd].
    split; [eauto | reflexivity].
  - rewrite (assign_flag_Raise _ _ _ _ _ Hflag). cbn [snd].
    destruct (existsb (supports a) (pipelines o)).
    + split; [discriminate | intros [[b Hb] | Hf]; discriminate].
    + split; [now right | reflexivity].
Qed.

(** The check of an attribute does not look at what the attribute held:
    a value the engine's observer takes for an attribute is still taken
    after another assignment to that attribute. *)
Lemma accepted_engine_attr_stable (a : attr) (x x0 : pyval) (o : Observer) :
  snd (Observer_set_engine_attr a x o) = Ok tt ->
  snd (Observer_set_engine_attr a x (fst (Observer_set_engine_attr a x0 o)))
  = Ok tt.
Proof.
  unfold Observer_set_engine_attr.
  destruct (engine_convert a x) as [w |]; [| discriminate].
  destruct (engine_check a (engine_attrs o) w) eqn:Hcheck; [discriminate |].
  intros _.
  destruct (engine_convert a x0) as [w0 |]; cbn [fst]; [| now rewrite Hcheck].
  destruct (engine_check a (engine_attrs o) w0); cbn [fst];
    [now rewrite Hcheck |].
  cbn [engine_attrs with_engine_attr].
  rewrite (engine_check_others a _ (engine_attrs o) w); [now rewrite Hcheck |].
  intros b Hb. now rewrite Hb.
Qed.

(** A value an observer takes is still taken after another assignment to
    the same attribute. *)
Lemma accepted_stable (a : attr) (x x0 : pyval) (o : Observer) :
  accepted a x o -> accepted a x (fst (Observer_set a x0 o)).
Proof.
  destruct (per_pipeline a) eqn:Hper.
  - rewrite !(accepted_flag _ _ _ Hper).
    intros [Hflag | Hnone]; [now left | right].
    rewrite <- Hnone. apply existsb_map_eq. apply Observer_set_supports.
  - destruct a; try discriminate;
      try (now apply accepted_engine_attr_stable).
    + unfold accepted. cbn [Observer_set fst snd].
      unfold Observer_set_name. destruct x; try discriminate;
        destruct x0; reflexivity.
    + rewrite !accepted_origin. cbn [Observer_set].
      now rewrite Observer_set_origin_direction.
    + unfold accepted. cbn [Observer_set fst snd].
      unfold Observer_set_direction.
      destruct x; try discriminate.
      destruct (rotate_basis v (up_for v)); [reflexivity | discriminate].
Qed.

(** What an accepted assignment leaves in the observer. *)
Lemma Observer_get_set (a : attr) (v : pyval) (o : Observer) :
  accepted a v o ->
  Observer_get a (fst (Observer_set a v o)) = reads_after a v o.
Proof.
  destruct (per_pipeline a) eqn:Hper.
  - intros Hacc. apply (accepted_flag _ _ _ Hper) in Hacc.
    rewrite (Observer_get_flag _ _ Hper), (Observer_set_flag _ _ _ Hper).
    unfold reads_after. rewrite Hper. cbn [fst pipelines with_pipelines].
    f_equal. destruct (pipeline_flag v) as [flag | e] eqn:Hflag.
    + rewrite (assign_flag_Ok _ _ _ _ _ Hflag). cbn [fst].
      rewrite map_map. apply map_ext. intros pipeline.
      destruct (supports a pipeline) eqn:Hs; rewrite ?flag_store_supports, Hs;
        [| reflexivity].
      now rewrite (flag_store_attr _ _ _ Hper), (kept_flag _ _ _ Hper Hflag).
    + rewrite (assign_flag_Raise _ _ _ _ _ Hflag). cbn [fst].
      destruct Hacc as [[b Hb] | Hnone]; [discriminate |].
      apply map_ext_in. intros pipeline Hin.
      assert (Hs : supports a pipeline = false).
      { destruct (supports a pipeline) eqn:Hs; [| reflexivity].
        rewrite <- Hnone. symmetry. apply existsb_exists. eauto. }
      now rewrite Hs.
  - unfold accepted, reads_after. rewrite Hper.
    destruct a; try discriminate;
      cbn [Observer_set Observer_get fst snd kept];
      try (unfold Observer_set_engine_attr;
           destruct (engine_convert _ v); [| discriminate];
           destruct (engine_check _ _ _); [discriminate |];
           intros _; cbn [fst engine_attrs with_engine_attr];
           now rewrite attr_eqb_refl).
    + unfold Observer_set_name. destruct v; try discriminate; reflexivity.
    + unfold Observer_set_origin. destruct v; try discriminate.
      cbn [_direction with_origin].
      destruct (rotate_basis _ _); [reflexivity | discriminate].
    + unfold Observer_set_direction. destruct v; try discriminate.
      destruct (rotate_basis _ _); [reflexivity | discriminate].
Qed.

Lemma holds_set (a : attr) (v : pyval) (o : Observer) :
  accepted a v o -> holds a v (fst (Observer_set a v o)).
Proof.
  intros Hacc. unfold holds.
  destruct (per_pipeline a) eqn:Hper.
  - apply (accepted_flag _ _ _ Hper) in Hacc.
    rewrite (Observer_set_flag _ _ _ Hper). cbn [fst pipelines with_pipelines].
    destruct (pipeline_flag v) as [flag | e] eqn:Hflag.
    + rewrite (assign_flag_Ok _ _ _ _ _ Hflag). cbn [fst].
      apply Forall_map. apply Forall_forall. intros pipeline _.
      destruct (supports a pipeline) eqn:Hs.
      * intros _. now rewrite (flag_store_attr _ _ _ Hper),
                    (kept_flag _ _ _ Hper Hflag).
      * intros Hs'. rewrite Hs in Hs'. discriminate.
    + rewrite (assign_flag_Raise _ _ _ _ _ Hflag). cbn [fst].
      destruct Hacc as [[b Hb] | Hnone]; [discriminate |].
      apply Forall_forall. intros pipeline Hin Hs.
      assert (Hsome : existsb (supports a) (pipelines o) = true)
        by (apply existsb_exists; eauto).
      rewrite Hnone in Hsome. discriminate.
  - rewrite (Observer_get_set _ _ _ Hacc). unfold reads_after. now rewrite Hper.
Qed.


Lemma assign_each_app (a : attr) (l1 l2 : list (nat * pyval)) (h : heap) :
  assign_each a (l1 ++ l2)%list h
  = match assign_each a l1 h with
    | (h1, Ok _) => assign_each a l2 h1
    | (h1, Raise e) => (h1, Raise e)
    end.
Proof.
  revert h. induction l1 as [| [id x] l1 IH]; intros h; [reflexivity |].
  cbn [app assign_each].
  destruct (Observer_set a x (h id)) as [o' [[] | e]]; [apply IH | reflexivity].
Qed.

Lemma assign_each_frame (a : attr) (pairs : list (nat * pyval)) (h h' : heap)
  (r : result unit) (id : nat) :
  assign_each a pairs h = (h', r) ->
  ~ In id (map fst pairs) ->
  h' id = h id.
Proof.
  revert h. induction pairs as [| [id0 x] rest IH]; intros h Hrun Hnot.
  - now injection Hrun as <- <-.
  - cbn [assign_each] in Hrun. cbn [map fst In] in Hnot.
    destruct (Observer_set a x (h id0)) as [o' [[] | e]].
    + rewrite (IH _ Hrun) by tauto. apply update_other. intros ->. tauto.
    + injection Hrun as <- <-. apply update_other. intros ->. tauto.
Qed.

Lemma assign_each_accepted (a : attr) (pairs : list (nat * pyval))
  (h h' : heap) (r : result unit) (x : pyval) (id : nat) :
  assign_each a pairs h = (h', r) ->
  accepted a x (h id) -> accepted a x (h' id).
Proof.
  revert h. induction pairs as [| [id0 x0] rest IH]; intros h Hrun Hacc.
  - now injection Hrun as <- <-.
  - cbn [assign_each] in Hrun.
    assert (Hstep : accepted a x
                      (update h id0 (fst (Observer_set a x0 (h id0))) id)).
    { destruct (Nat.eq_dec id id0) as [-> | Hne].
      - rewrite update_same. now apply accepted_stable.
      - now rewrite update_other. }
    destruct (Observer_set a x0 (h id0)) as [o' [[] | e]]; cbn [fst] in Hstep.
    + exact (IH _ Hrun Hstep).
    + now injection Hrun as <- <-.
Qed.

Lemma assign_each_reads (a : attr) (pairs : list (nat * pyval))
  (h h' : heap) (r : result unit) (v : pyval) (id : nat) :
  assign_each a pairs h = (h', r) ->
  reads_after a v (h' id) = reads_after a v (h id).
Proof.
  revert h. induction pairs as [| [id0 x0] rest IH]; intros h Hrun.
  - now injection Hrun as <- <-.
  - cbn [assign_each] in Hrun.
    assert (Hstep : reads_after a v
                      (update h id0 (fst (Observer_set a x0 (h id0))) id)
                    = reads_after a v (h id)).
    { destruct (Nat.eq_dec id id0) as [-> | Hne].
      - rewrite update_same. apply reads_after_set.
      - now rewrite update_other. }
    destruct (Observer_set a x0 (h id0)) as [o' [[] | e]]; cbn [fst] in Hstep.
    + now rewrite (IH _ Hrun).
    + now injection Hrun as <- <-.
Qed.

Lemma assign_each_succeeds (a : attr) (pairs : list (nat * pyval))
  (h : heap) :
  (forall id x, In (id, x) pairs -> accepted a x (h id)) ->
  exists h', assign_each a pairs h = (h', Ok tt).
Proof.
  revert h. induction pairs as [| [id0 x0] rest IH]; intros h Hacc.
  - now exists h.
  - cbn [assign_each].
    pose proof (Hacc id0 x0 (or_introl eq_refl)) as H0.
    unfold accepted in H0.
    destruct (Observer_set a x0 (h id0)) as [o' r] eqn:Hset.
    cbn [snd] in H0. subst r. apply IH. intros id x Hin.
    destruct (Nat.eq_dec id id0) as [-> | Hne].
    + rewrite update_same.
      replace o' with (fst (Observer_set a x0 (h id0))) by now rewrite Hset.
      apply accepted_stable. apply Hacc. now right.
    + rewrite update_other by assumption. apply Hacc. now right.
Qed.

(** The last assignment to an observer in a run is the one it holds. *)
Lemma assign_each_last (a : attr) (pre post : list (nat * pyval))
  (id : nat) (x : pyval) (h h' : heap) :
  assign_each a (pre ++ (id, x) :: post)%list h = (h', Ok tt) ->
  accepted a x (h id) ->
  ~ In id (map fst post) ->
  holds a x (h' id)
  /\ Observer_get a (h' id) = reads_after a x (h id).
Proof.
  intros Hrun Hacc Hnot. rewrite assign_each_app in Hrun.
  destruct (assign_each a pre h) as [h1 [[] | e]] eqn:Hpre;
    [| discriminate].
  cbn [assign_each] in Hrun.
  pose proof (assign_each_accepted _ _ _ _ _ _ _ Hpre Hacc) as Hacc1.
  pose proof (holds_set _ _ _ Hacc1) as Hholds.
  pose proof (Observer_get_set _ _ _ Hacc1) as Hget.
  rewrite (assign_each_reads _ _ _ _ _ x id Hpre) in Hget.
  destruct (Observer_set a x (h1 id)) as [o' [[] | e]];
    cbn [fst] in Hholds, Hget.
  - rewrite (assign_each_frame _ _ _ _ _ _ Hrun Hnot), update_same. now split.
  - discriminate.
Qed.

Lemma nth_error_combine (A B : Type) (l : list A) (l' : list B) (i : nat)
  (a : A) (b : B) :
  nth_error (combine l l') i = Some (a, b)
  <-> nth_error l i = Some a /\ nth_error l' i = Some b.
Proof.
  revert l' i. induction l as [| a0 l IH]; intros l' i.
  - destruct i; simpl; split; intros H; try discriminate;
      destruct H; discriminate.
  - destruct l' as [| b0 l'].
    + destruct i; simpl; split; intros H; try discriminate;
        destruct H; discriminate.
    + destruct i as [| i]; simpl.
      * split; [intros [= -> ->]; auto | intros [[= ->] [= ->]]; auto].
      * apply IH.
Qed.

Lemma in_nth_error (A : Type) (l : list A) (x : A) :
  In x l -> exists i, nth_error l i = Some x.
Proof.
  induction l as [| y l IH]; [contradiction |].
  intros [-> | Hin].
  - now exists 0%nat.
  - destruct (IH Hin) as [i Hi]. now exists (S i).
Qed.

Lemma in_skipn_nth_error (A : Type) (l : list A) (n : nat) (x : A) :
  In x (skipn n l) -> exists j, (n <= j)%nat /\ nth_error l j = Some x.
Proof.
  revert l. induction n as [| n IH]; intros l Hin.
  - destruct (in_nth_error _ _ _ Hin) as [j Hj]. exists j. split; [lia | easy].
  - destruct l as [| y l]; [contradiction |].
    destruct (IH _ Hin) as (j & Hle & Hj). exists (S j). split; [lia | easy].
Qed.

Lemma split_at_nth (A : Type) (l : list A) (i : nat) (x : A) :
  nth_error l i = Some x ->
  l = (firstn i l ++ x :: skipn (S i) l)%list
  /\ firstn (S i) l = (firstn i l ++ [x])%list.
Proof.
  revert l. induction i as [| i IH]; intros l Hnth.
  - destruct l as [| y l]; [discriminate |]. injection Hnth as ->.
    now split.
  - destruct l as [| y l]; [discriminate |].
    destruct (IH _ Hnth) as [Hl Hf]. split.
    + cbn [firstn skipn app]. f_equal. exact Hl.
    + change (firstn (S (S i)) (y :: l)) with (y :: firstn (S i) l).
      rewrite Hf. reflexivity.
Qed.


Lemma in_split_last (l : list nat) (x : nat) :
  In x l -> exists pre post, l = (pre ++ x :: post)%list /\ ~ In x post.
Proof.
  induction l as [| y l IH]; [contradiction |]. intros Hin.
  destruct (in_dec Nat.eq_dec x l) as [Hl | Hl].
  - destruct (IH Hl) as (pre & post & -> & Hpost).
    now exists (y :: pre), post.
  - destruct Hin as [-> | Hin]; [| contradiction].
    now exists [], l.
Qed.

Lemma map_constant (A B : Type) (f : A -> B) (l : list A) (b : B) :
  (forall x, In x l -> f x = b) -> map f l = repeat b (List.length l).
Proof.
  induction l as [| x l IH]; intros Hf; [reflexivity |].
  cbn [map List.length repeat]. rewrite (Hf x (or_introl eq_refl)).
  f_equal. apply IH. intros y Hy. apply Hf. now right.
Qed.

(** C1 (as the code has it): a value that is not a collection, assigned
    to a group property other than [names] and valid for every member, is
    assigned to every member, which holds what its setter keeps of it.
    Reading the property back gives one element per member, in the order of
    the members.  For the properties other than [display_progress] and
    [accumulate] every element is what is kept of the value: the value
    itself for [origin] and [direction], the value converted by the engine
    to the type of the attribute for the others, and so the value whenever
    it is kept as it is.  For [display_progress] and [accumulate], which an
    observer keeps in its pipelines, every element is the list, over the
    member's pipelines, of the C boolean kept of the value for a pipeline
    that has the attribute and [None] for one that has not. *)
Theorem scalar_broadcast (a : attr) (v : pyval) (g : Group) (h : heap) :
  has_property (g_class g) a = true ->
  a <> A_names ->
  as_collection a v = None ->
  (forall sight_line,
      In sight_line (_sight_lines g) -> accepted a v (h sight_line)) ->
  exists h',
    Observer0DGroup_set a v g h = (h', Ok tt)
    /\ (forall sight_line,
           In sight_line (_sight_lines g) -> holds a v (h' sight_line))
    /\ List.length (Observer0DGroup_get a g h')
       = List.length (_sight_lines g)
    /\ Observer0DGroup_get a g h'
       = map (fun sight_line => reads_after a v (h sight_line))
             (_sight_lines g)
    /\ (per_pipeline a = false ->
        Observer0DGroup_get a g h'
        = repeat (kept a v) (List.length (_sight_lines g))
        /\ (a = A_origin \/ a = A_direction \/ kept a v = v ->
            Observer0DGroup_get a g h'
            = repeat v (List.length (_sight_lines g)))).
Proof.
  intros _ Hnames Hscalar Hvalid.
  set (pairs := map (fun sight_line => (sight_line, v)) (_sight_lines g)).
  assert (Hset : Observer0DGroup_set a v g h = assign_each a pairs h).
  { unfold Observer0DGroup_set. rewrite Hscalar.
    destruct a; try reflexivity. contradiction. }
  assert (Hpairs : forall id x, In (id, x) pairs -> accepted a x (h id)).
  { intros id x Hin. apply in_map_iff in Hin.
    destruct Hin as (sight_line & [= <- <-] & Hin). now apply Hvalid. }
  destruct (assign_each_succeeds a pairs h Hpairs) as [h' Hrun].
  assert (Hlast : forall sight_line,
             In sight_line (_sight_lines g) ->
             holds a v (h' sight_line)
             /\ Observer_get a (h' sight_line)
                = reads_after a v (h sight_line)).
  { intros sight_line Hin.
    destruct (in_split_last _ _ Hin) as (pre & post & Hsplit & Hpost).
    unfold pairs in Hrun. rewrite Hsplit, map_app in Hrun.
    cbn [map] in Hrun.
    apply (assign_each_last _ _ _ _ _ _ _ Hrun (Hvalid _ Hin)).
    now rewrite map_map, map_id. }
  assert (Hread : Observer0DGroup_get a g h'
                  = map (fun sight_line => reads_after a v (h sight_line))
                        (_sight_lines g)).
  { unfold Observer0DGroup_get. apply map_ext_in. intros sight_line Hin.
    apply (Hlast _ Hin). }
  exists h'. rewrite Hset. split; [exact Hrun |].
  split; [intros sight_line Hin; apply (Hlast _ Hin) |].
  split; [unfold Observer0DGroup_get; apply length_map |].
  split; [exact Hread |].
  intros Hper.
  assert (Hkept : Observer0DGroup_get a g h'
                  = repeat (kept a v) (List.length (_sight_lines g))).
  { rewrite Hread. apply map_constant. intros sight_line _.
    unfold reads_after. now rewrite Hper. }
  split; [exact Hkept |].
  intros [-> | [-> | Hsame]]; rewrite Hkept; [reflexivity | reflexivity |].
  now rewrite Hsame.
Qed.

(** ** Connecting pipelines *)

Lemma ScalarPipeline_new_taken (cls : PipelineClass) (filter_func : pyval)
  (accumulate : bool) (name : option string) :
  is_filter filter_func = true ->
  ScalarPipeline_new cls filter_func accumulate name
  = Ok (new_pipeline cls (Some (filter_or_default filter_func)) accumulate
          name).
Proof. destruct filter_func; try discriminate; reflexivity. Qed.

Lemma ScalarPipeline_new_refused (cls : PipelineClass) (filter_func : pyval)
  (accumulate : bool) (name : option string) :
  is_filter filter_func = false ->
  ScalarPipeline_new cls filter_func accumulate name
  = Raise (argument_type_error "filter" filter_func).
Proof. destruct filter_func; try discriminate; reflexivity. Qed.

Lemma build_pipelines_supported
  (properties : list (PipelineClass * option string * pyval)) :
  Forall (fun property => supported (fst (fst property)) = true) properties ->
  Forall (fun property => filter_taken property = true) properties ->
  build_pipelines properties = Ok (map connected properties).
Proof.
  induction properties as [| [[cls name] filter_func] rest IH];
    [reflexivity |].
  intros Hsupported Hfilters.
  apply Forall_cons_iff in Hsupported, Hfilters.
  destruct Hsupported as [Hcls Hrest], Hfilters as [Hfilter Hrest'].
  cbn [build_pipelines map]. rewrite (IH Hrest Hrest').
  cbn [fst] in Hcls. cbn [filter_taken] in Hfilter.
  destruct cls; try discriminate; cbn [spectral orb] in Hfilter;
    try reflexivity;
    now rewrite (ScalarPipeline_new_taken _ _ _ _ Hfilter).
Qed.

Lemma build_pipelines_stops
  (pre post : list (PipelineClass * option string * pyval))
  (property : PipelineClass * option string * pyval) :
  Forall (fun property => supported (fst (fst property)) = true) pre ->
  Forall (fun property => filter_taken property = true) pre ->
  build_pipelines (pre ++ property :: post)%list
  = match build_pipelines [property] with
    | Ok _ => build_pipelines (pre ++ property :: post)%list
    | Raise e => Raise e
    end.
Proof.
  induction pre as [| [[cls name] filter_func] rest IH].
  - intros _ _. destruct property as [[cls name] filter_func].
    cbn [app build_pipelines].
    destruct cls; cbn [bind]; try reflexivity;
      destruct (ScalarPipeline_new _ _ _ _); reflexivity.
  - intros Hsupported Hfilters.
    apply Forall_cons_iff in Hsupported, Hfilters.
    destruct Hsupported as [Hcls Hrest], Hfilters as [Hfilter Hrest'].
    specialize (IH Hrest Hrest').
    destruct (build_pipelines [property]) as [built | e]; [reflexivity |].
    cbn [app build_pipelines]. rewrite IH.
    cbn [fst] in Hcls. cbn [filter_taken] in Hfilter.
    destruct cls; try discriminate; cbn [spectral orb] in Hfilter;
      try reflexivity;
      now rewrite (ScalarPipeline_new_taken _ _ _ _ Hfilter).
Qed.

Lemma build_pipelines_unsupported
  (pre post : list (PipelineClass * option string * pyval))
  (n : string) (name : option string) (filter_func : pyval) :
  Forall (fun property => supported (fst (fst property)) = true) pre ->
  Forall (fun property => filter_taken property = true) pre ->
  build_pipelines (pre ++ (OtherClass n, name, filter_func) :: post)%list
  = Raise (ValueError (unsupported_message n)).
Proof.
  intros Hsupported Hfilters.
  now rewrite (build_pipelines_stops _ _ _ Hsupported Hfilters).
Qed.

Lemma build_pipelines_refused
  (pre post : list (PipelineClass * option string * pyval))
  (cls : PipelineClass) (name : option string) (filter_func : pyval) :
  Forall (fun property => supported (fst (fst property)) = true) pre ->
  Forall (fun property => filter_taken property = true) pre ->
  supported cls = true ->
  filter_taken (cls, name, filter_func) = false ->
  build_pipelines (pre ++ (cls, name, filter_func) :: post)%list
  = Raise (argument_type_error "filter" filter_func).
Proof.
  intros Hsupported Hfilters Hcls Hfilter.
  rewrite (build_pipelines_stops _ _ _ Hsupported Hfilters).
  cbn [filter_taken] in Hfilter. apply orb_false_iff in Hfilter.
  destruct Hfilter as [Hspectral Hfilter].
  cbn [build_pipelines].
  destruct cls; try discriminate;
    now rewrite (ScalarPipeline_new_refused _ _ _ _ Hfilter).
Qed.

Lemma connect_each_connects
  (properties : list (PipelineClass * option string * pyval))
  (built : list Pipeline) (sight_lines : list nat) (h : heap) :
  build_pipelines properties = Ok built ->
  engine_check_pipelines built = None ->
  exists h',
    connect_each properties sight_lines h = (h', Ok tt)
    /\ (forall sight_line,
           In sight_line sight_lines -> pipelines (h' sight_line) = built)
    /\ (forall sight_line,
           ~ In sight_line sight_lines -> h' sight_line = h sight_line).
Proof.
  intros Hbuilt Hcheck. revert h.
  induction sight_lines as [| sight_line rest IH]; intros h.
  - exists h. split; [reflexivity |]. split; [intros ? [] | reflexivity].
  - cbn [connect_each]. rewrite Hbuilt. unfold Observer_set_pipelines.
    rewrite Hcheck.
    destruct (IH (update h sight_line (with_pipelines built (h sight_line))))
      as (h' & Hrun & Hin & Hout).
    exists h'. split; [exact Hrun |]. split.
    + intros id [<- | Hid].
      * destruct (in_dec Nat.eq_dec sight_line rest) as [Hrest | Hrest];
          [now apply Hin |].
        now rewrite (Hout _ Hrest), update_same.
      * now apply Hin.
    + intros id Hnot. cbn [In] in Hnot.
      rewrite Hout by tauto. apply update_other. intros ->. tauto.
Qed.

Lemma connect_each_raises
  (properties : list (PipelineClass * option string * pyval))
  (e : exn) (sight_lines : list nat) (h : heap) :
  build_pipelines properties = Raise e ->
  sight_lines <> [] ->
  connect_each properties sight_lines h = (h, Raise e).
Proof.
  intros Hbuilt Hmembers.
  destruct sight_lines as [| sight_line rest]; [contradiction |].
  cbn [connect_each]. now rewrite Hbuilt.
Qed.

(** C8 (as the code has it): when every class of [properties] is one of the
    four supported and every filter given for a scalar class is one the
    engine's constructor takes (a [SpectralFunction] or [None]), the
    pipelines built for a member are, in order, one per triple: of the
    class given, with the name given (the default name of the class for no
    name and for the empty name), not accumulating; for the two spectral
    classes without filter and the same whatever the filter given; for the
    two scalar classes with the filter given, the engine's default filter
    standing for [None]; and, the engine taking that list, every member
    gets it in place of its pipelines.  When a class of [properties] is not
    supported, the triples before it being taken, and the group has a
    member, [connect_pipelines] raises the [ValueError] that names that
    class, and no member is touched; when, in the same way, the filter
    given for a scalar class is not one the constructor takes, it raises
    the engine's type error.  When the group has no member,
    [connect_pipelines] does nothing and returns, whatever the classes. *)
Theorem connect_pipelines_contract
  (properties : list (PipelineClass * option string * pyval))
  (g : Group) (h : heap) :
  (Forall (fun property => supported (fst (fst property)) = true) properties ->
   Forall (fun property => filter_taken property = true) properties ->
   build_pipelines properties = Ok (map connected properties)
   /\ (forall cls name filter_func,
          In (cls, name, filter_func) properties ->
          pl_class (connected (cls, name, filter_func)) = cls
          /\ pl_name (connected (cls, name, filter_func))
             = Some (name_or_default cls name)
          /\ (forall s, name = Some s -> s <> "" ->
                        pl_name (connected (cls, name, filter_func)) = Some s)
          /\ pl_accumulate (connected (cls, name, filter_func)) = PyBool false
          /\ (spectral cls = true ->
              pl_filter (connected (cls, name, filter_func)) = None
              /\ forall other,
                  connected (cls, name, other)
                  = connected (cls, name, filter_func))
          /\ (spectral cls = false ->
              pl_filter (connected (cls, name, filter_func))
              = Some (filter_or_default filter_func)
              /\ (filter_func <> PyNone ->
                  pl_filter (connected (cls, name, filter_func))
                  = Some filter_func)))
   /\ (engine_check_pipelines (map connected properties) = None ->
       exists h',
         connect_pipelines properties g h = (h', Ok tt)
         /\ forall sight_line,
           In sight_line (_sight_lines g) ->
           pipelines (h' sight_line) = map connected properties))
  /\ (forall pre post n name filter_func,
         properties = (pre ++ (OtherClass n, name, filter_func) :: post)%list ->
         Forall (fun property => supported (fst (fst property)) = true) pre ->
         Forall (fun property => filter_taken property = true) pre ->
         _sight_lines g <> [] ->
         connect_pipelines properties g h
         = (h, Raise (ValueError
                        ("Unsupported pipeline class: " ++ n
                         ++ ". Only the following pipeline types are supported: SpectralRadiancePipeline0D, SpectralPowerPipeline0D, RadiancePipeline0D, PowerPipeline0D."))))
  /\ (forall pre post cls name filter_func,
         properties = (pre ++ (cls, name, filter_func) :: post)%list ->
         Forall (fun property => supported (fst (fst property)) = true) pre ->
         Forall (fun property => filter_taken property = true) pre ->
         supported cls = true ->
         filter_taken (cls, name, filter_func) = false ->
         _sight_lines g <> [] ->
         connect_pipelines properties g h
         = (h, Raise (argument_type_error "filter" filter_func)))
  /\ (_sight_lines g = [] ->
      connect_pipelines properties g h = (h, Ok tt)).
Proof.
  split; [| split; [| split]].
  - intros Hsupported Hfilters.
    pose proof (build_pipelines_supported _ Hsupported Hfilters) as Hbuilt.
    split; [exact Hbuilt |]. split.
    + intros cls name filter_func _. unfold connected.
      destruct (spectral cls) eqn:Hspectral;
        cbn [new_pipeline pl_class pl_name pl_accumulate pl_filter];
        (split; [reflexivity |]); (split; [reflexivity |]);
        (split;
         [intros s -> Hs; cbn [name_or_default];
          apply String.eqb_neq in Hs; now rewrite Hs |]);
        (split; [reflexivity |]).
      * split; [| discriminate]. intros _. split; reflexivity.
      * split; [discriminate |]. intros _. split; [reflexivity |].
        intros Hnone. destruct filter_func; try reflexivity. contradiction.
    + intros Hcheck.
      destruct (connect_each_connects _ _ (_sight_lines g) h Hbuilt Hcheck)
        as (h' & Hrun & Hin & _).
      exists h'. split; assumption.
  - intros pre post n name filter_func -> Hpre Hfilters Hmembers.
    unfold connect_pipelines. apply connect_each_raises; [| exact Hmembers].
    now apply build_pipelines_unsupported.
  - intros pre post cls name filter_func -> Hpre Hfilters Hcls Hfilter
      Hmembers.
    unfold connect_pipelines. apply connect_each_raises; [| exact Hmembers].
    now apply build_pipelines_refused.
  - intros Hempty. unfold connect_pipelines. now rewrite Hempty.
Qed.

End Bulk.
(** ** The statements at concrete inputs *)

Example str_of_Z_examples :
  str_of_Z 0 = "0" /\ str_of_Z 42 = "42" /\ str_of_Z (-7) = "-7".
Proof. repeat split; reflexivity. Qed.

Example format_examples :
  format "{}/s/m^2/str" ["J"] = Ok "J/s/m^2/str"
  /\ format "{}: {}" ["a"; "b"] = Ok "a: b"
  /\ format "radiance ({})" ["J/s"] = Ok "radiance (J/s)"
  /\ format "radiance ({}})" ["J/s"]
     = Raise (ValueError "Single '}' encountered in format string")
  /\ format "{} in {}" ["x"]
     = Raise (IndexError "Replacement index 1 out of range for positional args tuple").
Proof. repeat split; reflexivity. Qed.

Example py_index_examples :
  py_index [10; 20; 30]%Z 0 = Some 10%Z
  /\ py_index [10; 20; 30]%Z (-1) = Some 30%Z
  /\ py_index [10; 20; 30]%Z 3 = None
  /\ py_index [10; 20; 30]%Z (-4) = None.
Proof. repeat split; reflexivity. Qed.

Local Open Scope R_scope.

(** The doubles of the examples: the integers are exact, 2 ** -600 is a
    double that is not zero and whose square is, and the square of 2 ** 600
    is infinite. *)
Example double_examples :
  double_of_Z 0 = S754_zero false
  /\ double_of_Z 1 = S754_finite false 4503599627370496 (-52)
  /\ deqb (double_of_Z 0) (S754_zero true) = true
  /\ deqb (double_pow2 (-600)) (double_of_Z 0) = false
  /\ dmul (double_pow2 (-600)) (double_pow2 (-600)) = double_of_Z 0
  /\ dmul (double_pow2 600) (double_pow2 600) = S754_infinity false.
Proof. repeat split; vm_compute; reflexivity. Qed.

(** The engine of the examples keeps of 2.5, for a C integer, 2. *)
Lemma truncate_example : truncate (5 / 2) = 2%Z.
Proof.
  unfold truncate. destruct (Rle_dec 0 (5 / 2)) as [_ | Hneg]; [| lra].
  symmetry. apply Int_part_spec. simpl. lra.
Qed.

Lemma demo_spectral_spectrum :
  Observer_observed_spectrum (demo_heap 0%nat) (KInt 0)
  = Ok (mkSpectrum 400 700 3 [1; 2; 3] [0; 0; 0]).
Proof.
  unfold Observer_observed_spectrum. cbn.
  rewrite Spectrum_init_valid by (lra || lia). reflexivity.
Qed.

(** C1, the claim as stated fails: after [G.display_progress = True] on a
    group of a sight line with a spectral pipeline and one with a power
    pipeline, [G.display_progress] reads [[[True], [None]]], lists and not
    the value. *)
Lemma display_progress_reads_lists :
  exists h',
    @Observer0DGroup_set demo_engine A_display_progress (PyBool true)
      (demo_group [0; 1]%nat) demo_heap = (h', Ok tt)
    /\ Observer0DGroup_get A_display_progress
         (demo_group [0; 1]%nat) h'
       = [PyList [PyBool true]; PyList [PyNone]]
    /\ Observer0DGroup_get A_display_progress
         (demo_group [0; 1]%nat) h'
       <> repeat (PyBool true) 2%nat.
Proof.
  eexists. split; [reflexivity |]. split; [reflexivity | discriminate].
Qed.

Lemma scalar_broadcast_witness :
  (exists h',
      @Observer0DGroup_set demo_engine A_pixel_samples (PyFloat (5 / 2))
        (demo_group [0; 1; 0]%nat) demo_heap = (h', Ok tt)
      /\ Observer0DGroup_get A_pixel_samples (demo_group [0; 1; 0]%nat)
           demo_heap
         = [PyInt 100; PyInt 100; PyInt 100]
      /\ Observer0DGroup_get A_pixel_samples
           (demo_group [0; 1; 0]%nat) h'
         = [PyInt 2; PyInt 2; PyInt 2])
  /\ (exists h',
         @Observer0DGroup_set demo_engine A_origin
           (PyPoint3D (Point3D_new 1 2 3)) (demo_group [0; 1]%nat) demo_heap
         = (h', Ok tt)
         /\ Observer0DGroup_get A_origin (demo_group [0; 1]%nat) h'
            = [PyPoint3D (Point3D_new 1 2 3);
               PyPoint3D (Point3D_new 1 2 3)]).
Proof.
  split.
  - destruct (@scalar_broadcast demo_engine A_pixel_samples
                (PyFloat (5 / 2)) (demo_group [0; 1; 0]%nat) demo_heap)
      as (h' & Hset & _ & _ & _ & Hread).
    + reflexivity.
    + discriminate.
    + reflexivity.
    + intros sight_line _. reflexivity.
    + exists h'. split; [exact Hset |]. split; [reflexivity |].
      rewrite (proj1 (Hread eq_refl)). cbn [kept engine_convert demo_engine].
      unfold demo_convert. cbn [integer_attr]. now rewrite truncate_example.
  - destruct (@scalar_broadcast demo_engine A_origin
                (PyPoint3D (Point3D_new 1 2 3)) (demo_group [0; 1]%nat)
                demo_heap)
      as (h' & Hset & _ & _ & _ & Hread).
    + reflexivity.
    + discriminate.
    + reflexivity.
    + intros sight_line _. apply accepted_origin.
      exists (Point3D_new 1 2 3). eexists. split; [reflexivity |].
      destruct sight_line as [| [| sight_line]];
        exact rotate_basis_along_x.
    + exists h'. split; [exact Hset |].
      exact (proj2 (Hread eq_refl) (or_introl eq_refl)).
Defined.


Lemma scalar_observed_spectrum_witness :
  Observer_observed_spectrum (demo_heap 1%nat) (KInt 0)
  = Ok (mkSpectrum 400 700 1 [600 / (700 - 400)] [600 / (700 - 400)]).
Proof.
  apply (scalar_observed_spectrum (demo_heap 1%nat) (KInt 0) observed_power
           400 700);
    try reflexivity.
  lra.
Defined.

Lemma spectral_observed_spectrum_witness :
  Observer_observed_spectrum (demo_heap 0%nat) (KInt 0)
  = Ok (mkSpectrum 400 700 3 [1; 2; 3] [0; 0; 0]).
Proof.
  apply (proj2 (spectral_observed_spectrum (demo_heap 0%nat) (KInt 0)
                  observed_spectral eq_refl eq_refl)
               (mkStatsArray1D [1; 2; 3]) eq_refl).
  - simpl. lra.
  - simpl. lia.
Defined.


(** C8, the claim as stated fails: on a group without members,
    [connect_pipelines] with a class that is not supported returns and
    raises nothing. *)
Lemma connect_pipelines_empty_group :
  supported (OtherClass "Pipeline2D") = false
  /\ @connect_pipelines demo_engine
       [(OtherClass "Pipeline2D", None, PyNone)] (demo_group []) demo_heap
     = (demo_heap, Ok tt).
Proof. split; reflexivity. Qed.

Lemma connect_pipelines_contract_witness :
  (exists h',
      @connect_pipelines demo_engine
        [(SpectralRadiancePipeline0D, Some "spectrum", PyStr "ignored");
         (PowerPipeline0D, None, PySpectralFunction 7);
         (RadiancePipeline0D, Some "radiance", PyNone)]
        (demo_group [0; 1]%nat) demo_heap = (h', Ok tt)
      /\ map pl_class (pipelines (h' 1%nat))
         = [SpectralRadiancePipeline0D; PowerPipeline0D; RadiancePipeline0D]
      /\ map pl_name (pipelines (h' 1%nat))
         = [Some "spectrum"; Some "Power Pipeline"; Some "radiance"]
      /\ map pl_filter (pipelines (h' 1%nat))
         = [None; Some (PySpectralFunction 7);
            Some (@default_filter demo_engine)]
      /\ map pl_accumulate (pipelines (h' 1%nat))
         = [PyBool false; PyBool false; PyBool false])
  /\ @connect_pipelines demo_engine
       [(PowerPipeline0D, None, PyNone);
        (OtherClass "Pipeline2D", None, PyNone)]
       (demo_group [0; 1]%nat) demo_heap
     = (demo_heap,
        Raise (ValueError "Unsupported pipeline class: Pipeline2D. Only the following pipeline types are supported: SpectralRadiancePipeline0D, SpectralPowerPipeline0D, RadiancePipeline0D, PowerPipeline0D."))
  /\ exists message,
      @connect_pipelines demo_engine
        [(PowerPipeline0D, Some "power", PyStr "filter")]
        (demo_group [0; 1]%nat) demo_heap
      = (demo_heap, Raise (TypeError message)).
Proof.
  split; [| split].
  - destruct (proj1 (@connect_pipelines_contract demo_engine
                       [(SpectralRadiancePipeline0D, Some "spectrum",
                         PyStr "ignored");
                        (PowerPipeline0D, None, PySpectralFunction 7);
                        (RadiancePipeline0D, Some "radiance", PyNone)]
                       (demo_group [0; 1]%nat) demo_heap))
      as (_ & _ & Hconnect).
    + repeat constructor.
    + repeat constructor.
    + destruct (Hconnect eq_refl) as (h' & Hrun & Heach).
      exists h'. split; [exact Hrun |].
      rewrite (Heach 1%nat) by (simpl; auto).
      repeat split; reflexivity.
  - apply (proj1 (proj2 (@connect_pipelines_contract demo_engine
                           [(PowerPipeline0D, None, PyNone);
                            (OtherClass "Pipeline2D", None, PyNone)]
                           (demo_group [0; 1]%nat) demo_heap))
                 [(PowerPipeline0D, None, PyNone)] [] "Pipeline2D" None PyNone
                 eq_refl).
    + repeat constructor.
    + repeat constructor.
    + discriminate.
  - eexists.
    apply (proj1 (proj2 (proj2 (@connect_pipelines_contract demo_engine
                                  [(PowerPipeline0D, Some "power",
                                    PyStr "filter")]
                                  (demo_group [0; 1]%nat) demo_heap)))
                 [] [] PowerPipeline0D (Some "power") (PyStr "filter")
                 eq_refl).
    + constructor.
    + constructor.
    + reflexivity.
    + reflexivity.
    + discriminate.
Defined.

(** C9, the claim as stated fails: with the unit "eV", the error of the
    observer's and of the group's [plot_spectra] is "unit must be 'J' or
    'ph'.", in which "eV" does not occur. *)
Lemma unit_error_does_not_name_the_unit :
  exists e,
    snd (@Observer_plot_spectra demo_engine (demo_heap 0%nat) (KInt 0) "eV"
           None true []) = Raise e
    /\ snd (@Observer0DGroup_plot_spectra demo_engine (demo_group [0]%nat)
              demo_heap (KInt 0) "eV" None []) = Raise e
    /\ message e = "unit must be 'J' or 'ph'."
    /\ contains (message e) "eV" = false.
Proof. eexists. repeat split; reflexivity. Qed.

Lemma plot_spectra_refuses_unit_witness :
  @Observer_plot_spectra demo_engine (demo_heap 0%nat) (KInt 0) "eV" None true []
  = ([], Raise (ValueError "unit must be 'J' or 'ph'.")).
Proof.
  apply (proj1 (@plot_spectra_refuses_unit demo_engine "eV"
                  ltac:(discriminate) ltac:(discriminate))).
Defined.

Lemma plot_spectra_extras_always_raises_witness :
  exists log',
    @Observer_plot_spectra demo_engine (demo_heap 0%nat) (KInt 0) "J" None true []
    = (log', Raise (ValueError "Single '}' encountered in format string"))
    /\ In (plt_xlabel "wavelength (nm)") log'
    /\ forall text, In (plt_ylabel text) log' -> In (plt_ylabel text) [].
Proof.
  apply (proj2 (@plot_spectra_extras_always_raises demo_engine (demo_heap 0%nat)
                  (KInt 0) "J" None [])
               (mkSpectrum 400 700 3 [1; 2; 3] [0; 0; 0])).
  - now left.
  - exact demo_spectral_spectrum.
Defined.

(** * Further properties of the module *)

(** ** Lookups that succeed *)

Lemma py_index_mod (A : Type) (l : list A) (i : Z) :
  (- Z.of_nat (List.length l) <= i < Z.of_nat (List.length l))%Z ->
  py_index l i = nth_error l (Z.to_nat (i mod Z.of_nat (List.length l))).
Proof.
  intros Hin. unfold py_index.
  destruct (Z.leb_spec 0 i) as [Hpos | Hneg]; cbn [andb].
  - destruct (Z.ltb_spec i (Z.of_nat (List.length l))); [| lia].
    now rewrite Z.mod_small by lia.
  - destruct (Z.leb_spec (- Z.of_nat (List.length l)) i); [| lia].
    destruct (Z.ltb_spec i 0); [| lia]. cbn [andb].
    replace (i mod Z.of_nat (List.length l))%Z
      with (Z.of_nat (List.length l) + i)%Z; [reflexivity |].
    apply Z.mod_unique with (q := (-1)%Z); lia.
Qed.

(** X1: an integer index from [-n] to [n - 1], for [n] elements, finds the
    element at that position counted from the start, or from the end when
    negative (position [i mod n]): so for the members of a group
    ([__getitem__]) and for the pipelines of an observer
    ([get_pipeline]). *)
Theorem lookup_by_position :
  (forall (g : Group) (h : heap) (i : Z),
      (- Z.of_nat (List.length (_sight_lines g)) <= i
       < Z.of_nat (List.length (_sight_lines g)))%Z ->
      exists sight_line,
        Observer0DGroup_getitem g h (KInt i) = Ok sight_line
        /\ nth_error (_sight_lines g)
             (Z.to_nat (i mod Z.of_nat (List.length (_sight_lines g))))
           = Some sight_line)
  /\ (forall (o : Observer) (i : Z),
         (- Z.of_nat (List.length (pipelines o)) <= i
          < Z.of_nat (List.length (pipelines o)))%Z ->
         exists pipeline,
           Observer_get_pipeline o (KInt i) = Ok pipeline
           /\ nth_error (pipelines o)
                (Z.to_nat (i mod Z.of_nat (List.length (pipelines o))))
              = Some pipeline).
Proof.
  split.
  - intros g h i Hin. unfold Observer0DGroup_getitem.
    rewrite (py_index_mod _ _ _ Hin).
    destruct (nth_error _ _) as [sight_line |] eqn:Hnth; [eauto |].
    apply nth_error_None in Hnth.
    pose proof (Z.mod_pos_bound i (Z.of_nat (List.length (_sight_lines g)))).
    lia.
  - intros o i Hin. unfold Observer_get_pipeline.
    rewrite (py_index_mod _ _ _ Hin).
    destruct (nth_error _ _) as [pipeline |] eqn:Hnth; [eauto |].
    apply nth_error_None in Hnth.
    pose proof (Z.mod_pos_bound i (Z.of_nat (List.length (pipelines o)))).
    lia.
Qed.

Lemma filter_unique (A : Type) (f : A -> bool) (l : list A) (k : nat)
  (x : A) :
  nth_error l k = Some x ->
  f x = true ->
  (forall j y, nth_error l j = Some y -> f y = true -> j = k) ->
  filter f l = [x].
Proof.
  revert k. induction l as [| y l IH]; intros k Hk Hx Honly.
  - destruct k; discriminate.
  - destruct k as [| k].
    + injection Hk as ->. cbn [filter]. rewrite Hx. f_equal.
      assert (Hnone : forall z, In z l -> f z = false).
      { intros z Hz. destruct (f z) eqn:Hfz; [| reflexivity].
        destruct (In_nth_error _ _ Hz) as [j Hj].
        pose proof (Honly (S j) z Hj Hfz). discriminate. }
      clear - Hnone. induction l as [| z l IH]; [reflexivity |].
      cbn [filter]. rewrite (Hnone z (or_introl eq_refl)).
      apply IH. intros w Hw. apply Hnone. now right.
    + cbn [filter].
      destruct (f y) eqn:Hy.
      * pose proof (Honly 0%nat y eq_refl Hy). discriminate.
      * apply (IH k Hk Hx). intros j z Hj Hz.
        pose proof (Honly (S j) z Hj Hz). lia.
Qed.

(** X2: lookup by name and lookup by position agree.  When the element
    at position [k] has a name that no element at another position has, the
    lookup by that name finds that very element: so for the members of a
    group and for the pipelines of an observer. *)
Theorem lookup_by_name_finds_position :
  (forall (g : Group) (h : heap) (k : nat) (sight_line : nat) (s : string),
      nth_error (_sight_lines g) k = Some sight_line ->
      ob_name (h sight_line) = Some s ->
      (forall j other,
          nth_error (_sight_lines g) j = Some other ->
          ob_name (h other) = Some s -> j = k) ->
      Observer0DGroup_getitem g h (KStr s) = Ok sight_line
      /\ Observer0DGroup_getitem g h (KInt (Z.of_nat k)) = Ok sight_line)
  /\ (forall (o : Observer) (k : nat) (pipeline : Pipeline) (s : string),
         nth_error (pipelines o) k = Some pipeline ->
         pl_name pipeline = Some s ->
         (forall j other,
             nth_error (pipelines o) j = Some other ->
             pl_name other = Some s -> j = k) ->
         Observer_get_pipeline o (KStr s) = Ok pipeline
         /\ Observer_get_pipeline o (KInt (Z.of_nat k)) = Ok pipeline).
Proof.
  split.
  - intros g h k sight_line s Hk Hname Honly. split.
    + unfold Observer0DGroup_getitem, sight_lines_named.
      rewrite (filter_unique _ _ _ k sight_line Hk); [reflexivity | |].
      * now apply name_eqb_eq.
      * intros j other Hj Hother. apply name_eqb_eq in Hother. eauto.
    + unfold Observer0DGroup_getitem, py_index.
      assert (Hlt : (k < List.length (_sight_lines g))%nat)
        by (apply nth_error_Some; rewrite Hk; discriminate).
      destruct (Z.leb_spec 0 (Z.of_nat k)); [| lia].
      destruct (Z.ltb_spec (Z.of_nat k)
                  (Z.of_nat (List.length (_sight_lines g)))); [| lia].
      cbn [andb]. now rewrite Nat2Z.id, Hk.
  - intros o k pipeline s Hk Hname Honly. split.
    + unfold Observer_get_pipeline, pipelines_named.
      rewrite (filter_unique _ _ _ k pipeline Hk); [reflexivity | |].
      * now apply name_eqb_eq.
      * intros j other Hj Hother. apply name_eqb_eq in Hother. eauto.
    + unfold Observer_get_pipeline, py_index.
      assert (Hlt : (k < List.length (pipelines o))%nat)
        by (apply nth_error_Some; rewrite Hk; discriminate).
      destruct (Z.leb_spec 0 (Z.of_nat k)); [| lia].
      destruct (Z.ltb_spec (Z.of_nat k)
                  (Z.of_nat (List.length (pipelines o)))); [| lia].
      cbn [andb]. now rewrite Nat2Z.id, Hk.
Qed.

(** ** Membership of a group *)

Lemma ObserverClass_eqb_eq (a b : ObserverClass) :
  ObserverClass_eqb a b = true <-> a = b.
Proof. destruct a, b; simpl; split; intros H; congruence. Qed.

(** X3: [add_sight_line] on an observer of the group's class puts it at
    the end of the members and under the group: the members before it keep
    their positions, the new one is found at position [n] and at position
    [-1], and no other observer is touched.  On an observer of the other
    class it raises a [TypeError] and changes nothing. *)
Theorem add_sight_line_appends (g : Group) (sight_line : nat) (h : heap) :
  (ob_class (h sight_line) = member_class (g_class g) ->
   exists g' h',
     add_sight_line g sight_line h = ((g', h'), Ok tt)
     /\ _sight_lines g' = (_sight_lines g ++ [sight_line])%list
     /\ g_class g' = g_class g
     /\ (forall i,
            (0 <= i < Z.of_nat (List.length (_sight_lines g)))%Z ->
            Observer0DGroup_getitem g' h' (KInt i)
            = Observer0DGroup_getitem g h (KInt i))
     /\ Observer0DGroup_getitem g' h'
          (KInt (Z.of_nat (List.length (_sight_lines g)))) = Ok sight_line
     /\ Observer0DGroup_getitem g' h' (KInt (-1)) = Ok sight_line
     /\ h' sight_line = with_parent (Some (g_id g)) (h sight_line)
     /\ forall other, other <> sight_line -> h' other = h other)
  /\ (ob_class (h sight_line) <> member_class (g_class g) ->
      exists msg,
        add_sight_line g sight_line h = ((g, h), Raise (TypeError msg))).
Proof.
  unfold add_sight_line. split.
  - intros Hclass. apply ObserverClass_eqb_eq in Hclass. rewrite Hclass.
    do 2 eexists. split; [reflexivity |].
    cbn [_sight_lines g_class]. split; [reflexivity |].
    split; [reflexivity |].
    set (n := List.length (_sight_lines g)).
    assert (Hlen : List.length (_sight_lines g ++ [sight_line])%list = S n)
      by (rewrite length_app; simpl; lia).
    split; [| split; [| split; [| split]]].
    + intros i Hi. unfold Observer0DGroup_getitem, py_index.
      cbn [_sight_lines g_class]. rewrite Hlen. fold n.
      destruct (Z.leb_spec 0 i); [| lia].
      destruct (Z.ltb_spec i (Z.of_nat (S n))); [| lia].
      destruct (Z.ltb_spec i (Z.of_nat n)); [| lia].
      cbn [andb]. rewrite nth_error_app1 by (fold n; lia).
      destruct (nth_error (_sight_lines g) (Z.to_nat i)) eqn:Hnth;
        [reflexivity |].
      apply nth_error_None in Hnth. fold n in Hnth. lia.
    + unfold Observer0DGroup_getitem, py_index.
      cbn [_sight_lines]. rewrite Hlen.
      destruct (Z.leb_spec 0 (Z.of_nat n)); [| lia].
      destruct (Z.ltb_spec (Z.of_nat n) (Z.of_nat (S n))); [| lia].
      cbn [andb]. rewrite Nat2Z.id.
      rewrite nth_error_app2 by (fold n; lia). fold n.
      now rewrite Nat.sub_diag.
    + unfold Observer0DGroup_getitem, py_index.
      cbn [_sight_lines]. rewrite Hlen.
      destruct (Z.leb_spec 0 (-1)); [lia |].
      destruct (Z.leb_spec (- Z.of_nat (S n)) (-1)); [| lia].
      cbn [andb Z.ltb Z.compare].
      replace (Z.to_nat (Z.of_nat (S n) + -1)) with n by lia.
      rewrite nth_error_app2 by (fold n; lia). fold n.
      now rewrite Nat.sub_diag.
    + apply update_same.
    + intros other Hother. now apply update_other.
  - intros Hclass.
    destruct (ObserverClass_eqb _ _) eqn:Heq;
      [apply ObserverClass_eqb_eq in Heq; contradiction |].
    eexists. reflexivity.
Qed.

Lemma reparent_each_spec (g : Group) (sight_lines : list nat) (h : heap)
  (id : nat) :
  (In id sight_lines ->
   reparent_each g sight_lines h id = with_parent (Some (g_id g)) (h id))
  /\ (~ In id sight_lines -> reparent_each g sight_lines h id = h id).
Proof.
  revert h. induction sight_lines as [| sight_line rest IH]; intros h.
  - split; [intros [] | reflexivity].
  - cbn [reparent_each In].
    destruct (IH (update h sight_line
                    (with_parent (Some (g_id g)) (h sight_line))))
      as [IHin IHout].
    split.
    + intros Hin.
      destruct (in_dec Nat.eq_dec id rest) as [Hrest | Hrest].
      * rewrite (IHin Hrest).
        destruct (Nat.eq_dec id sight_line) as [-> | Hne].
        -- now rewrite update_same.
        -- now rewrite update_other.
      * rewrite (IHout Hrest).
        destruct Hin as [<- | Hin]; [| contradiction].
        apply update_same.
    + intros Hnot. rewrite IHout by tauto. apply update_other.
      intros ->. tauto.
Qed.

Lemma check_members_accepts (g : Group) (h : heap) (items : list pyobj) :
  Forall (fun x => is_member_object g h x = true) items ->
  exists sight_lines,
    items = map ObjObserver sight_lines
    /\ forall str_of_observer,
      check_members str_of_observer g h items = Ok sight_lines.
Proof.
  induction 1 as [| x rest Hx _ (sight_lines & -> & IH)].
  - exists []. now split.
  - destruct x as [sight_line | text]; [| discriminate].
    exists (sight_line :: sight_lines). split; [reflexivity |].
    intros str_of_observer. cbn [check_members]. rewrite Hx, IH.
    reflexivity.
Qed.

Lemma check_members_refuses (str_of_observer : Observer -> string)
  (g : Group) (h : heap) (pre post : list pyobj) (x : pyobj) :
  Forall (fun x => is_member_object g h x = true) pre ->
  is_member_object g h x = false ->
  check_members str_of_observer g h (pre ++ x :: post)
  = Raise (TypeError (not_a_member_message (g_class g)
                        (str_of_pyobj str_of_observer h x))).
Proof.
  intros Hpre Hx. induction Hpre as [| y rest Hy _ IH].
  - cbn [app check_members]. rewrite Hx.
    destruct x; destruct (g_class g); reflexivity.
  - cbn [app check_members]. rewrite Hy, IH.
    destruct y; [reflexivity | discriminate].
Qed.

(** X4: the [sight_lines] setter takes all the elements or none.  When
    the value is a list or a tuple of observers of the group's class, the
    members become exactly these, in order, and each is put under the
    group; every other observer, a former member too, is left as it was.
    When some element is not an observer of the group's class, the setter
    raises the [TypeError] that names the first such element, and neither
    the group nor any observer changes; so when the value is not a list or
    a tuple. *)
Theorem set_sight_lines_all_or_nothing
  (str_of_observer : Observer -> string) (value : members_value) (g : Group)
  (h : heap) :
  (forall items,
      members_items value = Some items ->
      Forall (fun x => is_member_object g h x = true) items ->
      exists sight_lines,
        items = map ObjObserver sight_lines
        /\ set_sight_lines str_of_observer value g h
           = ((mkGroup (g_id g) (g_class g) (g_name g) sight_lines,
               reparent_each g sight_lines h), Ok tt)
        /\ (forall id,
               In id sight_lines ->
               reparent_each g sight_lines h id
               = with_parent (Some (g_id g)) (h id))
        /\ (forall id,
               ~ In id sight_lines ->
               reparent_each g sight_lines h id = h id))
  /\ (forall pre x post,
         members_items value = Some (pre ++ x :: post)%list ->
         Forall (fun x => is_member_object g h x = true) pre ->
         is_member_object g h x = false ->
         set_sight_lines str_of_observer value g h
         = ((g, h),
            Raise (TypeError
                     (not_a_member_message (g_class g)
                        (str_of_pyobj str_of_observer h x)))))
  /\ (members_items value = None ->
      set_sight_lines str_of_observer value g h
      = ((g, h), Raise (TypeError (not_a_list_message (g_class g))))).
Proof.
  unfold set_sight_lines. split; [| split].
  - intros items -> Hall.
    destruct (check_members_accepts g h items Hall)
      as (sight_lines & Hitems & Hcheck).
    exists sight_lines. rewrite Hcheck.
    split; [exact Hitems |]. split; [reflexivity |].
    split; intros id Hid; now apply reparent_each_spec.
  - intros pre x post -> Hpre Hx.
    now rewrite (check_members_refuses _ _ _ _ _ _ Hpre Hx).
  - intros ->. reflexivity.
Qed.

Section Invariant.

Context {engine : Engine}.

Lemma Observer_set_class (a : attr) (v : pyval) (o : Observer) :
  ob_class (fst (Observer_set a v o)) = ob_class o.
Proof.
  destruct a; cbn [Observer_set fst];
    try (unfold Observer_set_engine_attr;
         destruct (engine_convert _ v); [| reflexivity];
         destruct (engine_check _ _ _); reflexivity).
  - unfold Observer_set_name. destruct v; reflexivity.
  - unfold Observer_set_origin. destruct v; try reflexivity.
    cbn [_direction with_origin]. destruct (rotate_basis _ _); reflexivity.
  - unfold Observer_set_direction. destruct v; try reflexivity.
    destruct (rotate_basis _ _); reflexivity.
  - unfold Observer_set_display_progress.
    now destruct (assign_flag _ _ _ _).
  - unfold Observer_set_accumulate. now destruct (assign_flag _ _ _ _).
Qed.

Lemma assign_each_class (a : attr) (pairs : list (nat * pyval))
  (h : heap) (id : nat) :
  ob_class (fst (assign_each a pairs h) id) = ob_class (h id).
Proof.
  revert h. induction pairs as [| [id0 x0] rest IH]; intros h;
    [reflexivity |].
  cbn [assign_each].
  assert (Hstep : ob_class (update h id0 (fst (Observer_set a x0 (h id0))) id)
                  = ob_class (h id)).
  { destruct (Nat.eq_dec id id0) as [-> | Hne].
    - rewrite update_same. apply Observer_set_class.
    - now rewrite update_other. }
  destruct (Observer_set a x0 (h id0)) as [o' [[] | e]]; cbn [fst] in *.
  - now rewrite IH.
  - exact Hstep.
Qed.

Lemma connect_each_class
  (properties : list (PipelineClass * option string * pyval))
  (sight_lines : list nat) (h : heap) (id : nat) :
  ob_class (fst (connect_each properties sight_lines h) id) = ob_class (h id).
Proof.
  revert h. induction sight_lines as [| sight_line rest IH]; intros h;
    [reflexivity |].
  cbn [connect_each].
  destruct (build_pipelines properties) as [built | e]; [| reflexivity].
  unfold Observer_set_pipelines.
  destruct (engine_check_pipelines built).
  - cbn [fst]. destruct (Nat.eq_dec id sight_line) as [-> | Hne].
    + now rewrite update_same.
    + now rewrite update_other.
  - rewrite IH. destruct (Nat.eq_dec id sight_line) as [-> | Hne].
    + now rewrite update_same.
    + now rewrite update_other.
Qed.

Lemma check_members_Ok (str_of_observer : Observer -> string) (g : Group)
  (h : heap) (items : list pyobj) (sight_lines : list nat) :
  check_members str_of_observer g h items = Ok sight_lines ->
  Forall (fun sight_line =>
            ob_class (h sight_line) = member_class (g_class g))
         sight_lines.
Proof.
  revert sight_lines.
  induction items as [| x rest IH]; intros sight_lines Hcheck.
  - injection Hcheck as <-. constructor.
  - cbn [check_members] in Hcheck.
    destruct x as [sight_line | text]; [| discriminate].
    destruct (is_member_object g h (ObjObserver sight_line)) eqn:Hx;
      [| discriminate].
    destruct (check_members str_of_observer g h rest) as [members |];
      [| discriminate].
    injection Hcheck as <-. constructor.
    + now apply ObserverClass_eqb_eq.
    + now apply IH.
Qed.

(** X5: a group only ever holds observers of its own class.  A new
    group has no members; and when every member of a group is of the
    group's class, this is still so after [add_sight_line], after an
    assignment to [sight_lines], after an assignment to any bulk property
    and after [connect_pipelines], whether they succeed or raise. *)
Theorem membership_invariant (str_of_observer : Observer -> string) :
  (forall id c name h, members_of_class (Observer0DGroup_init id c name) h)
  /\ (forall g h,
         members_of_class g h ->
         (forall sight_line,
             members_of_class (fst (fst (add_sight_line g sight_line h)))
               (snd (fst (add_sight_line g sight_line h))))
         /\ (forall value,
                members_of_class
                  (fst (fst (set_sight_lines str_of_observer value g h)))
                  (snd (fst (set_sight_lines str_of_observer value g h))))
         /\ (forall a value,
                members_of_class g (fst (Observer0DGroup_set a value g h)))
         /\ (forall properties,
                members_of_class g (fst (connect_pipelines properties g h)))).
Proof.
  split; [intros; constructor |].
  intros g h Hinv. unfold members_of_class in *.
  split; [| split; [| split]].
  - intros sight_line. unfold add_sight_line.
    destruct (ObserverClass_eqb _ _) eqn:Hclass; cbn [fst snd]; [| exact Hinv].
    cbn [_sight_lines g_class]. apply ObserverClass_eqb_eq in Hclass.
    assert (Hsame : forall id,
               ob_class (update h sight_line
                           (with_parent (Some (g_id g)) (h sight_line)) id)
               = ob_class (h id)).
    { intros id. destruct (Nat.eq_dec id sight_line) as [-> | Hne].
      - now rewrite update_same.
      - now rewrite update_other. }
    apply Forall_app. split.
    + eapply Forall_impl; [| exact Hinv]. cbn beta. intros id Hid.
      now rewrite Hsame.
    + constructor; [now rewrite Hsame | constructor].
  - intros value. unfold set_sight_lines.
    destruct (members_items value) as [items |]; cbn [fst snd];
      [| exact Hinv].
    destruct (check_members str_of_observer g h items) as [sight_lines |]
      eqn:Hcheck; cbn [fst snd]; [| exact Hinv].
    cbn [_sight_lines g_class]. apply check_members_Ok in Hcheck.
    eapply Forall_impl; [| exact Hcheck]. cbn beta. intros id Hid.
    destruct (in_dec Nat.eq_dec id sight_lines) as [Hin | Hout].
    + now rewrite (proj1 (reparent_each_spec g sight_lines h id) Hin).
    + now rewrite (proj2 (reparent_each_spec g sight_lines h id) Hout).
  - intros a value.
    assert (Hsame : forall id,
               ob_class (fst (Observer0DGroup_set a value g h) id)
               = ob_class (h id)).
    { intros id. unfold Observer0DGroup_set.
      destruct (as_collection a value) as [items |].
      - destruct (Nat.eqb _ _); [apply assign_each_class | reflexivity].
      - destruct a; try apply assign_each_class. reflexivity. }
    eapply Forall_impl; [| exact Hinv]. cbn beta. intros id Hid.
    now rewrite Hsame.
  - intros properties. unfold connect_pipelines.
    eapply Forall_impl; [| exact Hinv]. cbn beta. intros id Hid.
    now rewrite connect_each_class.
Qed.

End Invariant.

(** ** Bulk assignments that are refused *)

Section Refusals.

Context {engine : Engine}.

Lemma broadcast_holds (a : attr) (v : pyval) (ids : list nat)
  (h h' : heap) :
  assign_each a (map (fun sight_line => (sight_line, v)) ids) h
  = (h', Ok tt) ->
  (forall id, In id ids -> accepted a v (h id)) ->
  forall id, In id ids -> holds a v (h' id).
Proof.
  intros Hrun Hvalid id Hin.
  destruct (in_split_last _ _ Hin) as (pre & post & Hsplit & Hpost).
  rewrite Hsplit, map_app in Hrun. cbn [map] in Hrun.
  apply (assign_each_last _ _ _ _ _ _ _ Hrun (Hvalid _ Hin)).
  now rewrite map_map, map_id.
Qed.

(** X6: a scalar assignment to a group property is not all or nothing.
    When the members up to some position take the value and the member at
    that position refuses it, the assignment raises that member's
    exception; the members before it hold the value all the same, the
    refusing member is as its own setter left it, and the observers that
    are neither are untouched. *)
Theorem scalar_assignment_stops_at_refusal (a : attr) (v : pyval)
  (g : Group) (h : heap) (pre post : list nat) (k : nat) (o_k : Observer)
  (e : exn) :
  has_property (g_class g) a = true ->
  a <> A_names ->
  as_collection a v = None ->
  _sight_lines g = (pre ++ k :: post)%list ->
  (forall id, In id pre -> accepted a v (h id)) ->
  Observer_set a v (h k) = (o_k, Raise e) ->
  exists h',
    Observer0DGroup_set a v g h = (h', Raise e)
    /\ (forall id, In id pre -> holds a v (h' id))
    /\ h' k = o_k
    /\ (forall id, ~ In id pre -> id <> k -> h' id = h id).
Proof.
  intros _ Hnames Hscalar Hmembers Hpre Hk.
  assert (Hset : Observer0DGroup_set a v g h
                 = assign_each a (map (fun sight_line => (sight_line, v))
                                      (_sight_lines g)) h).
  { unfold Observer0DGroup_set. rewrite Hscalar.
    destruct a; try reflexivity. contradiction. }
  rewrite Hset, Hmembers, map_app, assign_each_app. cbn [map].
  destruct (assign_each_succeeds a
              (map (fun sight_line => (sight_line, v)) pre) h)
    as [h1 Hrun].
  { intros id x Hin. apply in_map_iff in Hin.
    destruct Hin as (sight_line & [= <- <-] & Hin). now apply Hpre. }
  rewrite Hrun.
  assert (Hnot : ~ In k pre).
  { intros Hin. pose proof (Hpre k Hin) as Hacc. unfold accepted in Hacc.
    rewrite Hk in Hacc. discriminate. }
  assert (Hframe : forall id, ~ In id pre -> h1 id = h id).
  { intros id Hid. apply (assign_each_frame _ _ _ _ _ _ Hrun).
    now rewrite map_map, map_id. }
  cbn [assign_each]. rewrite (Hframe k Hnot), Hk.
  eexists. split; [reflexivity |]. split; [| split].
  - intros id Hin. rewrite update_other by (intros ->; contradiction).
    exact (broadcast_holds _ _ _ _ _ Hrun Hpre id Hin).
  - apply update_same.
  - intros id Hid Hne. rewrite update_other by assumption. now apply Hframe.
Qed.

(** X7: what is not a list or a tuple is no collection for [names],
    [origin] and [direction], an array included.  Assigned to [names] it
    raises the [TypeError] of the group and nothing changes.  Assigned to
    [origin] or [direction] an array is handed to the first member as one
    value: the group raises the [TypeError] of the observer's setter,
    whatever the length of the array, and no observer changes; a group
    without members takes it and does nothing. *)
Theorem array_is_no_collection_for_placement (g : Group) (h : heap) :
  (forall value,
      as_collection A_names value = None ->
      Observer0DGroup_set A_names value g h
      = (h, Raise (TypeError "The names attribute must be a list or tuple.")))
  /\ (forall items,
         _sight_lines g <> [] ->
         (exists h',
             Observer0DGroup_set A_origin (PyNdarray items) g h
             = (h', Raise (TypeError
                             "Attribute 'origin' must be of type Point3D."))
             /\ forall id, h' id = h id)
         /\ (exists h',
                Observer0DGroup_set A_direction (PyNdarray items) g h
                = (h', Raise (TypeError
                                "Attribute 'direction' must be of type Vector3D."))
                /\ forall id, h' id = h id))
  /\ (forall items,
         _sight_lines g = [] ->
         Observer0DGroup_set A_origin (PyNdarray items) g h = (h, Ok tt)
         /\ Observer0DGroup_set A_direction (PyNdarray items) g h
            = (h, Ok tt)).
Proof.
  split; [| split].
  - intros value Hnone. unfold Observer0DGroup_set. now rewrite Hnone.
  - intros items Hmembers. unfold Observer0DGroup_set. cbn [as_collection
      accepts_ndarray].
    destruct (_sight_lines g) as [| k rest]; [contradiction |].
    cbn [map assign_each Observer_set Observer_set_origin
           Observer_set_direction].
    split; eexists; (split; [reflexivity |]); intros id;
      (destruct (Nat.eq_dec id k) as [-> | Hne];
       [apply update_same | now apply update_other]).
  - intros items Hmembers. unfold Observer0DGroup_set.
    cbn [as_collection accepts_ndarray]. rewrite Hmembers. now split.
Qed.

End Refusals.
(** ** Placing an observer *)

Section Placement.

(** X9: a direction the engine makes no rotation of is stored all the
    same.  When the engine's [rotate_basis] raises for the direction
    assigned and the up vector chosen for it, the assignment raises that
    exception and leaves the observer with that direction, its former
    origin and its former transform, which is not the transform of what is
    stored; from then on every assignment to [origin] stores the point and
    raises the same exception, the transform staying where it was; and the
    next assignment of a direction the engine makes a rotation of completes
    and leaves the observer consistent again. *)
Theorem refused_direction_is_stored (o : Observer) (d : Vector3D) (e : exn) :
  rotate_basis d (up_for d) = Raise e ->
  exists o',
    Observer_set_direction (PyVector3D d) o = (o', Raise e)
    /\ _direction o' = d
    /\ _origin o' = _origin o
    /\ transform o' = transform o
    /\ ~ consistent o'
    /\ (forall p : Point3D,
           exists o'',
             Observer_set_origin (PyPoint3D p) o' = (o'', Raise e)
             /\ _origin o'' = p
             /\ _direction o'' = d
             /\ transform o'' = transform o
             /\ ~ consistent o'')
    /\ (forall (d2 : Vector3D) (rot : AffineMatrix3D),
           rotate_basis d2 (up_for d2) = Ok rot ->
           exists o2,
             Observer_set_direction (PyVector3D d2) o' = (o2, Ok tt)
             /\ _direction o2 = d2
             /\ _origin o2 = _origin o
             /\ consistent o2).
Proof.
  intros Hrot. exists (with_direction d o).
  split; [now apply Observer_set_direction_Raise |].
  split; [reflexivity |]. split; [reflexivity |]. split; [reflexivity |].
  split; [now apply (refused_is_not_consistent _ e) |]. split.
  - intros p. exists (with_origin p (with_direction d o)).
    split; [now apply Observer_set_origin_Raise |].
    split; [reflexivity |]. split; [reflexivity |]. split; [reflexivity |].
    now apply (refused_is_not_consistent _ e).
  - intros d2 rot Hrot2. eexists.
    split; [exact (Observer_set_direction_Ok _ _ _ Hrot2) |].
    split; [reflexivity |]. split; [reflexivity |].
    exists rot. split; [exact Hrot2 | reflexivity].
Qed.

(** X10: the order of the two assignments does not matter.  When the
    engine makes a rotation of the direction stored and of the direction
    assigned, assigning the origin and then the direction, or the direction
    and then the origin, both complete and leave the same observer: at the
    origin and along the direction assigned, with the transform of the
    two. *)
Theorem origin_and_direction_commute (o : Observer) (p : Point3D)
  (d : Vector3D) (rot0 rot : AffineMatrix3D) :
  rotate_basis (_direction o) (up_for (_direction o)) = Ok rot0 ->
  rotate_basis d (up_for d) = Ok rot ->
  snd (Observer_set_origin (PyPoint3D p) o) = Ok tt
  /\ snd (Observer_set_direction (PyVector3D d) o) = Ok tt
  /\ Observer_set_direction (PyVector3D d)
       (fst (Observer_set_origin (PyPoint3D p) o))
     = Observer_set_origin (PyPoint3D p)
         (fst (Observer_set_direction (PyVector3D d) o))
  /\ Observer_set_direction (PyVector3D d)
       (fst (Observer_set_origin (PyPoint3D p) o))
     = (with_transform (mul (translate (px p) (py p) (pz p)) rot)
          (with_direction d (with_origin p o)),
        Ok tt)
  /\ consistent
       (fst (Observer_set_direction (PyVector3D d)
               (fst (Observer_set_origin (PyPoint3D p) o)))).
Proof.
  intros Hrot0 Hrot.
  rewrite (Observer_set_origin_Ok _ _ _ Hrot0).
  rewrite (Observer_set_direction_Ok o _ _ Hrot). cbn [fst snd].
  rewrite (Observer_set_direction_Ok _ _ _ Hrot).
  rewrite (Observer_set_origin_Ok _ p rot) by exact Hrot.
  split; [reflexivity |]. split; [reflexivity |].
  split; [reflexivity |]. split; [reflexivity |].
  cbn [fst]. exists rot. split; [exact Hrot | reflexivity].
Qed.

(** X22: an assignment to [origin] or to [direction] that completes leaves
    the observer consistent, whatever it was before: the value is a point,
    or a vector, the observer holds it, its other coordinate is the one it
    had, and its transform is [translate(origin) * rotate_basis(direction,
    up)] of the two, with the up vector the setter chooses. *)
Theorem completed_assignment_is_consistent (o o' : Observer) (value : pyval) :
  Observer_set_origin value o = (o', Ok tt)
  \/ Observer_set_direction value o = (o', Ok tt) ->
  consistent o'
  /\ ((exists p,
          value = PyPoint3D p /\ _origin o' = p
          /\ _direction o' = _direction o)
      \/ (exists d,
             value = PyVector3D d /\ _direction o' = d
             /\ _origin o' = _origin o)).
Proof.
  intros [Hset | Hset].
  - unfold Observer_set_origin in Hset. destruct value; try discriminate.
    cbn [_direction with_origin] in Hset.
    destruct (rotate_basis (_direction o) (up_for (_direction o)))
      as [rot |] eqn:Hrot; [| discriminate].
    injection Hset as <-. split.
    + exists rot. split; [exact Hrot | reflexivity].
    + left. exists p. repeat split.
  - unfold Observer_set_direction in Hset. destruct value; try discriminate.
    destruct (rotate_basis v (up_for v)) as [rot |] eqn:Hrot;
      [| discriminate].
    injection Hset as <-. split.
    + exists rot. split; [exact Hrot | reflexivity].
    + right. exists v. repeat split.
Qed.

End Placement.

Section Constructor.

Context {engine : Engine}.

(** X11: the constructor of an observer places it, or raises.  With
    pipelines the engine takes, or none, and a point: for a direction the
    engine makes a rotation of, it returns the observer of that class, name
    and parent, at that origin along that direction, with the transform of
    the two; for a direction the engine makes none of, it raises the
    engine's exception and there is no observer.  Without pipelines, or
    with an empty list, the observer has one pipeline, the default: a
    spectral radiance pipeline with the default name of its class, which
    does not accumulate and has observed nothing. *)
Theorem constructor_places_observer (engine_defaults : attr -> pyval)
  (c : ObserverClass) (p : Point3D) (d : Vector3D)
  (given : option (list Pipeline)) (parent : option nat)
  (name : option string) :
  engine_check_pipelines (pipelines_or_default given) = None ->
  (forall rot,
      rotate_basis d (up_for d) = Ok rot ->
      Observer_init engine_defaults c (PyPoint3D p) (PyVector3D d) given
        parent name
      = Ok (mkObserver c name parent p d
              (mul (translate (px p) (py p) (pz p)) rot)
              (pipelines_or_default given) engine_defaults)
      /\ consistent
           (mkObserver c name parent p d
              (mul (translate (px p) (py p) (pz p)) rot)
              (pipelines_or_default given) engine_defaults))
  /\ (forall e,
         rotate_basis d (up_for d) = Raise e ->
         Observer_init engine_defaults c (PyPoint3D p) (PyVector3D d) given
           parent name
         = Raise e)
  /\ ((given = None \/ given = Some []) ->
      exists pipeline,
        pipelines_or_default given = [pipeline]
        /\ pl_class pipeline = SpectralRadiancePipeline0D
        /\ pl_name pipeline = Some (default_name SpectralRadiancePipeline0D)
        /\ pl_accumulate pipeline = PyBool false
        /\ pl_samples pipeline = None)
  /\ (forall first rest,
         given = Some (first :: rest) ->
         pipelines_or_default given = first :: rest).
Proof.
  intros Hcheck.
  assert (Hinit :
    Observer_init engine_defaults c (PyPoint3D p) (PyVector3D d) given
      parent name
    = match rotate_basis d (up_for d) with
      | Ok rot =>
        Ok (mkObserver c name parent p d
              (mul (translate (px p) (py p) (pz p)) rot)
              (pipelines_or_default given) engine_defaults)
      | Raise e => Raise e
      end).
  { unfold Observer_init, Observer_set_pipelines. rewrite Hcheck.
    unfold Observer_set_origin.
    cbn [_direction with_origin with_name with_parent with_pipelines].
    rewrite rotate_basis_along_x. unfold Observer_set_direction.
    destruct (rotate_basis d (up_for d)); reflexivity. }
  split; [| split; [| split]].
  - intros rot Hrot. rewrite Hinit, Hrot. split; [reflexivity |].
    exists rot. split; [exact Hrot | reflexivity].
  - intros e Hrot. now rewrite Hinit, Hrot.
  - intros Hnone. eexists.
    split; [destruct Hnone as [-> | ->]; reflexivity |].
    repeat split.
  - intros first rest ->. reflexivity.
Qed.

End Constructor.

(** ** Pipelines and results *)

Local Open Scope R_scope.

Lemma Rle_b_true_le (a b : R) : Rle_b a b = true -> a <= b.
Proof. unfold Rle_b. destruct (Rle_dec a b); [easy | discriminate]. Qed.

Lemma Rle_b_false_lt (a b : R) : Rle_b a b = false -> b < a.
Proof. unfold Rle_b. destruct (Rle_dec a b); [discriminate | lra]. Qed.

Lemma Spectrum_init_Ok (lo hi : R) (bins : Z) (s : Spectrum) :
  Spectrum_init lo hi bins = Ok s ->
  0 < lo < hi /\ (1 <= bins)%Z
  /\ s = mkSpectrum lo hi bins (repeat 0 (Z.to_nat bins))
          (repeat 0 (Z.to_nat bins)).
Proof.
  unfold Spectrum_init.
  destruct (Rle_b lo 0) eqn:Hlo; [discriminate |].
  destruct (Rle_b hi 0) eqn:Hhi; [discriminate |].
  destruct (Rle_b hi lo) eqn:Hrange; [discriminate |]. cbn [orb].
  destruct (Z.ltb_spec bins 1); [discriminate |].
  intros [= <-]. apply Rle_b_false_lt in Hlo, Hrange. repeat split; lra || lia.
Qed.

(** X13: a spectrum that [observed_spectrum] returns is well formed and
    comes from a pipeline of one of the four classes.  Its range is
    positive and not empty and it has at least one bin; from a scalar
    pipeline it has one bin and one sample; from a spectral pipeline it has
    the range and the bins the pipeline recorded, and the pipeline has
    samples, whose means it carries. *)
Theorem observed_spectrum_is_well_formed (o : Observer) (item : key)
  (s : Spectrum) :
  Observer_observed_spectrum o item = Ok s ->
  0 < sp_min_wavelength s < sp_max_wavelength s
  /\ (1 <= sp_bins s)%Z
  /\ exists pipeline,
      Observer_get_pipeline o item = Ok pipeline
      /\ supported (pl_class pipeline) = true
      /\ (isinstance_PowerPipeline0D pipeline = true ->
          sp_bins s = 1%Z /\ exists x, sp_samples s = [x])
      /\ (isinstance_PowerPipeline0D pipeline = false ->
          sp_min_wavelength s = pl_min_wavelength pipeline
          /\ sp_max_wavelength s = pl_max_wavelength pipeline
          /\ sp_bins s = pl_bins pipeline
          /\ exists samples,
              pl_samples pipeline = Some samples
              /\ sp_samples s = sa_mean samples).
Proof.
  unfold Observer_observed_spectrum. intros Hobs.
  destruct (Observer_get_pipeline o item) as [pipeline | e];
    [| discriminate].
  cbn [bind] in Hobs.
  destruct (isinstance_PowerPipeline0D pipeline) eqn:Hpower.
  - destruct (as_float (engine_attrs o A_min_wavelength)) as [lo |];
      [| discriminate].
    destruct (as_float (engine_attrs o A_max_wavelength)) as [hi |];
      [| discriminate].
    destruct (Spectrum_init lo hi 1) as [spectrum |] eqn:Hinit;
      [| discriminate].
    cbn [bind] in Hobs.
    destruct (py_div (pl_value_mean pipeline) (hi - lo)) as [sample |];
      [| discriminate].
    cbn [bind] in Hobs. injection Hobs as <-.
    apply Spectrum_init_Ok in Hinit. destruct Hinit as (Hrange & Hbins & ->).
    cbn [sp_min_wavelength sp_max_wavelength sp_bins sp_samples store_first].
    split; [exact Hrange |]. split; [lia |].
    exists pipeline. split; [reflexivity |]. split.
    + unfold isinstance_PowerPipeline0D in Hpower.
      destruct (pl_class pipeline); easy.
    + split; [| intros Hf; congruence].
      intros _. split; [reflexivity |]. exists sample. reflexivity.
  - destruct (isinstance_SpectralPowerPipeline0D pipeline) eqn:Hspectral;
      [| discriminate].
    destruct (pl_samples pipeline) as [samples |] eqn:Hsamples;
      [| discriminate].
    destruct (Spectrum_init _ _ _) as [spectrum |] eqn:Hinit;
      [| discriminate].
    cbn [bind] in Hobs. injection Hobs as <-.
    apply Spectrum_init_Ok in Hinit. destruct Hinit as (Hrange & Hbins & ->).
    cbn [sp_min_wavelength sp_max_wavelength sp_bins sp_samples with_samples].
    split; [exact Hrange |]. split; [exact Hbins |].
    exists pipeline. split; [reflexivity |]. split.
    + unfold isinstance_SpectralPowerPipeline0D in Hspectral.
      destruct (pl_class pipeline); easy.
    + split; [intros Hf; congruence |]. intros _. repeat split. eauto.
Qed.

Section Connecting.

Context {engine : Engine}.

Lemma connected_accumulate
  (properties : list (PipelineClass * option string * pyval)) :
  Forall (fun property => supported (fst (fst property)) = true) properties ->
  map (fun pipeline =>
         if isinstance_PowerPipeline0D pipeline
            || isinstance_SpectralPowerPipeline0D pipeline
         then pl_accumulate pipeline
         else PyNone)
      (map connected properties)
  = repeat (PyBool false) (List.length properties).
Proof.
  induction 1 as [| [[cls name] filter_func] rest Hcls _ IH];
    [reflexivity |].
  cbn [map List.length repeat]. rewrite IH. f_equal.
  destruct cls; try discriminate; reflexivity.
Qed.

(** X14: [connect_pipelines] replaces the pipelines of every member.
    With classes that are supported, filters the engine's constructor
    takes and a list the engine takes, every
    member ends with the same new pipelines and none of its former ones,
    [G.accumulate] then reads [False] for every pipeline of every member,
    and no observer outside the group is touched.  When the engine refuses
    the list and the group has a member, the engine's exception is raised
    and no observer changes. *)
Theorem connect_pipelines_replaces
  (properties : list (PipelineClass * option string * pyval))
  (g : Group) (h : heap) :
  Forall (fun property => supported (fst (fst property)) = true) properties ->
  Forall (fun property => filter_taken property = true) properties ->
  (engine_check_pipelines (map connected properties) = None ->
   exists h',
     connect_pipelines properties g h = (h', Ok tt)
     /\ Observer0DGroup_pipelines g h'
        = repeat (map connected properties) (List.length (_sight_lines g))
     /\ Observer0DGroup_get A_accumulate g h'
        = repeat (PyList (repeat (PyBool false) (List.length properties)))
                 (List.length (_sight_lines g))
     /\ forall id, ~ In id (_sight_lines g) -> h' id = h id)
  /\ (forall e,
         engine_check_pipelines (map connected properties) = Some e ->
         _sight_lines g <> [] ->
         exists h',
           connect_pipelines properties g h = (h', Raise e)
           /\ forall id, h' id = h id).
Proof.
  intros Hsupported Hfilters.
  pose proof (build_pipelines_supported _ Hsupported Hfilters) as Hbuilt.
  split.
  - intros Hcheck.
    destruct (connect_each_connects _ _ (_sight_lines g) h Hbuilt Hcheck)
      as (h' & Hrun & Hin & Hout).
    exists h'. split; [exact Hrun |]. split; [| split; [| exact Hout]].
    + unfold Observer0DGroup_pipelines. now apply map_constant.
    + unfold Observer0DGroup_get. apply map_constant.
      intros id Hid. cbn [Observer_get]. unfold Observer_accumulate.
      rewrite (Hin id Hid). now rewrite connected_accumulate.
  - intros e Hcheck Hmembers. unfold connect_pipelines.
    destruct (_sight_lines g) as [| k rest]; [contradiction |].
    cbn [connect_each]. rewrite Hbuilt. unfold Observer_set_pipelines.
    rewrite Hcheck. eexists. split; [reflexivity |].
    intros id. destruct (Nat.eq_dec id k) as [-> | Hne];
      [apply update_same | now apply update_other].
Qed.

End Connecting.

(** ** Plots that are drawn *)

Section Drawing.

Context {engine : Engine}.

Lemma observed_pipeline (o : Observer) (item : key) (s : Spectrum) :
  Observer_observed_spectrum o item = Ok s ->
  exists p,
    Observer_get_pipeline o item = Ok p
    /\ (isinstance_PowerPipeline0D p = true
        \/ isinstance_SpectralPowerPipeline0D p = true).
Proof.
  unfold Observer_observed_spectrum. intros Hobs.
  destruct (Observer_get_pipeline o item) as [p |]; [| discriminate].
  exists p. split; [reflexivity |]. cbn [bind] in Hobs.
  destruct (isinstance_PowerPipeline0D p); [now left |].
  destruct (isinstance_SpectralPowerPipeline0D p); [now right | discriminate].
Qed.

Lemma spectrum_in_unit_Ok (o : Observer) (item : key) (unit : string)
  (s : Spectrum) :
  unit = "J" \/ unit = "ph" ->
  Observer_observed_spectrum o item = Ok s ->
  spectrum_in_unit o item unit
  = Ok (if String.eqb unit "J" then s
        else with_samples (Spectrum_to_photons s) (new_spectrum s)).
Proof.
  intros [-> | ->] Hobs; unfold spectrum_in_unit; rewrite Hobs; reflexivity.
Qed.

Lemma plot_without_extras (o : Observer) (item : key) (unit : string)
  (ymax : option R) (log : list plt_call) (s : Spectrum) (p : Pipeline) :
  spectrum_in_unit o item unit = Ok s ->
  Observer_get_pipeline o item = Ok p ->
  isinstance_PowerPipeline0D p = true
  \/ isinstance_SpectralPowerPipeline0D p = true ->
  Observer_plot_spectra o item unit ymax false log
  = ((log ++ [plt_plot (Spectrum_wavelengths s)
                (if (1 <? List.length (sp_samples s))%nat
                    || isinstance_SpectralPowerPipeline0D p
                 then sp_samples s
                 else [Spectrum_total s])
                (negb (1 <? List.length (sp_samples s))%nat)
                (ob_name o)])%list,
     Ok tt).
Proof.
  intros Hs Hp Hclass.
  unfold Observer_plot_spectra, plot_samples, pbind, lift, call, pret.
  rewrite Hs.
  destruct (1 <? List.length (sp_samples s))%nat; [reflexivity |].
  rewrite Hp.
  destruct (isinstance_SpectralPowerPipeline0D p); [reflexivity |].
  destruct Hclass as [Hpower | Hf]; [| discriminate].
  now rewrite Hpower.
Qed.

Lemma observed_buffer (o : Observer) (item : key) (s : Spectrum)
  (p : Pipeline) :
  Observer_observed_spectrum o item = Ok s ->
  Observer_get_pipeline o item = Ok p ->
  (isinstance_PowerPipeline0D p = true -> sp_buffer s = sp_samples s)
  /\ (isinstance_PowerPipeline0D p = false ->
      sp_buffer s = repeat 0%R (Z.to_nat (sp_bins s))).
Proof.
  unfold Observer_observed_spectrum. intros Hobs Hp. rewrite Hp in Hobs.
  cbn [bind] in Hobs.
  destruct (isinstance_PowerPipeline0D p) eqn:Hpower.
  - split; [intros _ | discriminate].
    destruct (as_float (engine_attrs o A_min_wavelength)) as [lo |];
      [| discriminate].
    destruct (as_float (engine_attrs o A_max_wavelength)) as [hi |];
      [| discriminate].
    destruct (Spectrum_init lo hi 1) as [spectrum |] eqn:Hinit;
      [| discriminate].
    cbn [bind] in Hobs.
    destruct (py_div (pl_value_mean p) (hi - lo)) as [sample |];
      [| discriminate].
    cbn [bind] in Hobs. injection Hobs as <-.
    apply Spectrum_init_Ok in Hinit. destruct Hinit as (_ & _ & ->).
    reflexivity.
  - split; [discriminate | intros _].
    destruct (isinstance_SpectralPowerPipeline0D p); [| discriminate].
    destruct (pl_samples p) as [samples |]; [| discriminate].
    destruct (Spectrum_init _ _ _) as [spectrum |] eqn:Hinit;
      [| discriminate].
    cbn [bind] in Hobs. injection Hobs as <-.
    apply Spectrum_init_Ok in Hinit. destruct Hinit as (_ & _ & ->).
    reflexivity.
Qed.

(** X15: the observer's [plot_spectra] with [extras=False] draws one
    thing and completes, and for "ph" it does not draw what was observed.
    With the unit "J" or "ph" and a spectrum that can be observed, it adds
    to the plot exactly one call, labelled with the observer's name, over
    the wavelengths of the spectrum: a line through the samples when there
    are several, a marker otherwise, at the sample for a spectral pipeline
    and at the total of the spectrum for a scalar one.  For "J" the
    spectrum is the one observed.  For "ph" it is a new spectrum whose
    attribute [samples] is assigned what [to_photons] makes of the observed
    one and whose buffer stays at zero.  The observed spectrum of a
    spectral pipeline has its means in the attribute [samples] and a
    buffer of zeros; so, with an engine whose methods read the buffer, what
    is drawn for "ph" is the photons of a spectrum of zeros for a spectral
    pipeline, and the total of a spectrum of zeros where the total is
    drawn, whatever was observed. *)
Theorem plot_spectra_draws_once (o : Observer) (item : key) (unit : string)
  (ymax : option R) (log : list plt_call) (observed : Spectrum) :
  unit = "J" \/ unit = "ph" ->
  Observer_observed_spectrum o item = Ok observed ->
  exists p s,
    Observer_get_pipeline o item = Ok p
    /\ s = (if String.eqb unit "J" then observed
            else with_samples (Spectrum_to_photons observed)
                   (new_spectrum observed))
    /\ Observer_plot_spectra o item unit ymax false log
       = ((log ++ [plt_plot (Spectrum_wavelengths s)
                     (if (1 <? List.length (sp_samples s))%nat
                         || isinstance_SpectralPowerPipeline0D p
                      then sp_samples s
                      else [Spectrum_total s])
                     (negb (1 <? List.length (sp_samples s))%nat)
                     (ob_name o)])%list,
          Ok tt)
    /\ (isinstance_PowerPipeline0D p = true ->
        sp_buffer observed = sp_samples observed)
    /\ (isinstance_PowerPipeline0D p = false ->
        sp_buffer observed = repeat 0%R (Z.to_nat (sp_bins observed)))
    /\ (unit = "ph" ->
        sp_buffer s = repeat 0%R (Z.to_nat (sp_bins observed))
        /\ (reads_buffer ->
            Spectrum_total s = Spectrum_total (new_spectrum observed)
            /\ (isinstance_PowerPipeline0D p = false ->
                sp_samples s
                = Spectrum_to_photons (new_spectrum observed)))).
Proof.
  intros Hunit Hobs.
  destruct (observed_pipeline _ _ _ Hobs) as (p & Hp & Hclass).
  destruct (observed_buffer _ _ _ _ Hobs Hp) as [Hscalar Hspectral].
  exists p. eexists. split; [exact Hp |]. split; [reflexivity |].
  split; [apply plot_without_extras; try assumption;
          now apply spectrum_in_unit_Ok |].
  split; [exact Hscalar |]. split; [exact Hspectral |].
  intros ->. cbn [String.eqb Ascii.eqb Bool.eqb].
  split; [reflexivity |]. intros Hreads. split.
  - apply Hreads; reflexivity.
  - intros Hpower. cbn [sp_samples with_samples]. apply Hreads;
      try reflexivity.
    cbn [new_spectrum sp_buffer]. exact (Hspectral Hpower).
Qed.

Lemma get_pipeline_raises (o : Observer) (item : key) (e : exn) :
  Observer_get_pipeline o item = Raise e ->
  item <> KOther ->
  (exists m, e = IndexError m) \/ (exists m, e = ValueError m).
Proof.
  unfold Observer_get_pipeline. intros Hget Hitem.
  destruct item as [i | s |]; [| | contradiction].
  - destruct (py_index (pipelines o) i); [discriminate |].
    injection Hget as <-. left. eexists. reflexivity.
  - destruct (pipelines_named o s) as [| x [| y rest]];
      [| discriminate |]; injection Hget as <-; right; eexists; reflexivity.
Qed.

Lemma resolve_pipelines_spec (h : heap) (item : key)
  (sight_lines : list nat) :
  item <> KOther ->
  exists found,
    resolve_pipelines h item sight_lines = Ok found
    /\ map fst found
       = filter (fun sight_line =>
                   match Observer_get_pipeline (h sight_line) item with
                   | Ok _ => true
                   | Raise _ => false
                   end) sight_lines
    /\ forall sight_line p,
      In (sight_line, p) found
      <-> In sight_line sight_lines
          /\ Observer_get_pipeline (h sight_line) item = Ok p.
Proof.
  intros Hitem.
  induction sight_lines as [| k rest (found & Hrun & Hfst & Hin)].
  - exists []. split; [reflexivity |]. split; [reflexivity |].
    intros id p. split; [intros [] | intros [[] _]].
  - cbn [resolve_pipelines filter].
    destruct (Observer_get_pipeline (h k) item) as [p | e] eqn:Hget.
    + exists ((k, p) :: found). rewrite Hrun. cbn [bind map fst].
      split; [reflexivity |]. split; [now rewrite Hfst |].
      intros id q. cbn [In]. rewrite Hin. split.
      * intros [[= <- <-] | [Hid Hq]]; [now split; [left |] | split; [now right | exact Hq]].
      * intros [[<- | Hid] Hq].
        -- left. rewrite Hget in Hq. now injection Hq as ->.
        -- right. now split.
    + exists found.
      assert (Hrest : resolve_pipelines h item rest = Ok found) by exact Hrun.
      split.
      * destruct (get_pipeline_raises _ _ _ Hget Hitem) as [[m ->] | [m ->]];
          exact Hrun.
      * split; [exact Hfst |]. intros id q. cbn [In]. rewrite Hin. split.
        -- intros [Hid Hq]. split; [now right | exact Hq].
        -- intros [[<- | Hid] Hq]; [rewrite Hget in Hq; discriminate |].
           now split.
Qed.

(** X16: the group's [plot_spectra] looks the pipeline up in every member
    and skips the members that do not have it.  For an index or a name,
    the lookup never raises and finds, in the order of the members, exactly
    the members whose [get_pipeline] succeeds, each with the pipeline it
    returns; for a key that is neither, it raises the [TypeError] of the
    first member. *)
Theorem resolve_pipelines_skips (h : heap) (item : key)
  (sight_lines : list nat) :
  (item <> KOther ->
   exists found,
     resolve_pipelines h item sight_lines = Ok found
     /\ map fst found
        = filter (fun sight_line =>
                    match Observer_get_pipeline (h sight_line) item with
                    | Ok _ => true
                    | Raise _ => false
                    end) sight_lines
     /\ forall sight_line p,
       In (sight_line, p) found
       <-> In sight_line sight_lines
           /\ Observer_get_pipeline (h sight_line) item = Ok p)
  /\ (forall first rest,
         item = KOther ->
         sight_lines = first :: rest ->
         resolve_pipelines h item sight_lines
         = Raise (TypeError
                    (ObserverClass_name (ob_class (h first))
                     ++ " key must be of type int or str."))).
Proof.
  split; [apply resolve_pipelines_spec |].
  intros first rest -> ->. cbn [resolve_pipelines Observer_get_pipeline].
  destruct (ob_class (h first)); reflexivity.
Qed.

Lemma resolve_none (h : heap) (item : key) (sight_lines : list nat) :
  item <> KOther ->
  (forall sight_line,
      In sight_line sight_lines ->
      exists e, Observer_get_pipeline (h sight_line) item = Raise e) ->
  resolve_pipelines h item sight_lines = Ok [].
Proof.
  intros Hitem. induction sight_lines as [| k rest IH]; intros Hnone;
    [reflexivity |].
  cbn [resolve_pipelines].
  destruct (Hnone k (or_introl eq_refl)) as [e Hget]. rewrite Hget.
  destruct (get_pipeline_raises _ _ _ Hget Hitem) as [[m ->] | [m ->]];
    apply IH; intros id Hid; apply Hnone; now right.
Qed.

Lemma PipelineClass_eqb_eq (a b : PipelineClass) :
  PipelineClass_eqb a b = true <-> a = b.
Proof.
  destruct a, b; simpl; split; intros H; try congruence;
    try (apply String.eqb_eq in H; congruence).
  injection H as ->. apply String.eqb_refl.
Qed.

Lemma in_distinct (l : list PipelineClass) (c : PipelineClass) :
  In c l -> In c (distinct PipelineClass_eqb l).
Proof.
  induction l as [| x l IH]; [contradiction |].
  intros Hin. cbn [distinct].
  destruct (existsb (PipelineClass_eqb x) l) eqn:Hdup.
  - destruct Hin as [<- | Hin]; [| now apply IH].
    apply existsb_exists in Hdup. destruct Hdup as (y & Hy & Heq).
    apply PipelineClass_eqb_eq in Heq. subst y. now apply IH.
  - destruct Hin as [<- | Hin]; [now left | right; now apply IH].
Qed.

Lemma two_classes_are_mixed (l : list PipelineClass) (a b : PipelineClass) :
  In a l -> In b l -> a <> b ->
  (1 <? List.length (distinct PipelineClass_eqb l))%nat = true.
Proof.
  intros Ha Hb Hne. apply in_distinct in Ha, Hb. apply Nat.ltb_lt.
  destruct (distinct PipelineClass_eqb l) as [| x [| y rest]];
    [contradiction | | simpl; lia].
  destruct Ha as [<- | []], Hb as [<- | []]. contradiction.
Qed.

(** X17: the group's [plot_spectra] refuses before it draws.  For an
    index or a name that no member has a pipeline for, it raises an
    [IndexError], that of [str.format], whose template has two fields for
    the one argument it is given, and not the [ValueError] the template was
    written for; when two members have pipelines of different classes for
    the key, it raises the [ValueError] that names the key; in both cases
    nothing is added to the plot. *)
Theorem group_plot_refuses_before_drawing (g : Group) (h : heap)
  (item : key) (unit : string) (ymax : option R) (log : list plt_call) :
  item <> KOther ->
  ((forall sight_line,
       In sight_line (_sight_lines g) ->
       exists e, Observer_get_pipeline (h sight_line) item = Raise e) ->
   Observer0DGroup_plot_spectra g h item unit ymax log
   = (log,
      Raise (IndexError
               "Replacement index 1 out of range for positional args tuple")))
  /\ (forall first second p q,
         In first (_sight_lines g) -> In second (_sight_lines g) ->
         Observer_get_pipeline (h first) item = Ok p ->
         Observer_get_pipeline (h second) item = Ok q ->
         pl_class p <> pl_class q ->
         Observer0DGroup_plot_spectra g h item unit ymax log
         = (log,
            Raise (ValueError
                     ("Pipelines " ++ str_of_key item
                      ++ " have different types for different sight-lines.")))).
Proof.
  intros Hitem. split.
  - intros Hnone. unfold Observer0DGroup_plot_spectra, pbind, lift.
    rewrite (resolve_none _ _ _ Hitem Hnone). cbn [map].
    destruct item as [i | s |]; [| | contradiction];
      destruct (g_class g); reflexivity.
  - intros first second p q Hfirst Hsecond Hp Hq Hne.
    destruct (resolve_pipelines_spec h item (_sight_lines g) Hitem)
      as (found & Hrun & _ & Hall).
    unfold Observer0DGroup_plot_spectra, pbind, lift. rewrite Hrun.
    assert (Hmixed : (1 <? List.length
                            (distinct PipelineClass_eqb
                               (map pl_class (map snd found))))%nat = true).
    { apply (two_classes_are_mixed _ (pl_class p) (pl_class q)).
      - apply in_map. apply (in_map snd _ (first, p)). now apply Hall.
      - apply in_map. apply (in_map snd _ (second, q)). now apply Hall.
      - exact Hne. }
    destruct (map snd found) as [| p0 rest] eqn:Hsnd.
    + cbn in Hmixed. discriminate.
    + rewrite Hmixed. reflexivity.
Qed.

Lemma plot_each_draws (h : heap) (item : key) (unit : string)
  (sight_lines : list nat) (log : list plt_call) :
  unit = "J" \/ unit = "ph" ->
  (forall sight_line,
      In sight_line sight_lines ->
      exists s, Observer_observed_spectrum (h sight_line) item = Ok s) ->
  exists plots,
    plot_each h item unit sight_lines log = ((log ++ plots)%list, Ok tt)
    /\ Forall2 (fun sight_line c =>
                  exists xs ys marker,
                    c = plt_plot xs ys marker (ob_name (h sight_line)))
               sight_lines plots.
Proof.
  intros Hunit. revert log.
  induction sight_lines as [| k rest IH]; intros log Hall.
  - exists []. split; [cbn; now rewrite app_nil_r | constructor].
  - destruct (Hall k (or_introl eq_refl)) as [s Hs].
    destruct (observed_pipeline _ _ _ Hs) as (p & Hp & Hclass).
    pose proof (spectrum_in_unit_Ok _ _ _ _ Hunit Hs) as Hin.
    cbn [plot_each]. unfold pbind at 1.
    rewrite (plot_without_extras _ _ _ None log _ _ Hin Hp Hclass).
    match goal with
    | |- context [plot_each h item unit rest ?log1] =>
      destruct (IH log1) as (plots & Hrun & Hplots)
    end.
    { intros id Hid. apply Hall. now right. }
    eexists (_ :: plots). rewrite Hrun. split.
    + now rewrite <- app_assoc.
    + constructor; [eauto | exact Hplots].
Qed.

Lemma one_class_is_not_mixed (l : list PipelineClass) :
  (forall a b, In a l -> In b l -> a = b) ->
  (1 <? List.length (distinct PipelineClass_eqb l))%nat = false.
Proof.
  intros Hsame. apply Nat.ltb_ge.
  induction l as [| x l IH]; [simpl; lia |].
  cbn [distinct].
  assert (Hrest : forall a b, In a l -> In b l -> a = b)
    by (intros a b Ha Hb; apply Hsame; now right).
  destruct (existsb (PipelineClass_eqb x) l) eqn:Hdup; [now apply IH |].
  destruct l as [| y l]; [simpl; lia |].
  assert (Hxy : x = y) by (apply Hsame; [now left | right; now left]).
  subst y. cbn [existsb] in Hdup.
  rewrite (proj2 (PipelineClass_eqb_eq x x) eq_refl) in Hdup. discriminate.
Qed.

(** X18: the group's [plot_spectra] completes, where the observer's with
    its extras never does.  For the unit "J" or "ph" and an index or a
    name, when some member has the pipeline, the pipelines found are of one
    class and each spectrum can be observed, the call opens a figure, draws
    one labelled plot per member that has the pipeline, in order, sets the
    limit of the y axis if one is given, the title, the x label and the y
    label "radiance (<units>)" with the units of the class of the pipeline,
    and the legend, and returns. *)
Theorem group_plot_completes (g : Group) (h : heap) (item : key)
  (unit : string) (ymax : option R) (log : list plt_call) :
  unit = "J" \/ unit = "ph" ->
  item <> KOther ->
  (exists sight_line p,
      In sight_line (_sight_lines g)
      /\ Observer_get_pipeline (h sight_line) item = Ok p) ->
  (forall first second p q,
      In first (_sight_lines g) -> In second (_sight_lines g) ->
      Observer_get_pipeline (h first) item = Ok p ->
      Observer_get_pipeline (h second) item = Ok q ->
      pl_class p = pl_class q) ->
  (forall sight_line p,
      In sight_line (_sight_lines g) ->
      Observer_get_pipeline (h sight_line) item = Ok p ->
      exists s, Observer_observed_spectrum (h sight_line) item = Ok s) ->
  exists found pipeline plots units title,
    resolve_pipelines h item (_sight_lines g) = Ok found
    /\ hd_error (map snd found) = Some pipeline
    /\ units_of pipeline unit = Ok units
    /\ Forall2 (fun sight_line c =>
                  exists xs ys marker,
                    c = plt_plot xs ys marker (ob_name (h sight_line)))
               (map fst found) plots
    /\ Observer0DGroup_plot_spectra g h item unit ymax log
       = ((log ++ plt_figure :: plots
           ++ match ymax with
              | Some y => [plt_ylim y]
              | None => []
              end
           ++ [plt_title title; plt_xlabel "wavelength (nm)";
               plt_ylabel ("radiance (" ++ units ++ ")"); plt_legend])%list,
          Ok tt).
Proof.
  intros Hunit Hitem (k0 & p0 & Hk0 & Hp0) Hsame Hobs.
  destruct (resolve_pipelines_spec h item (_sight_lines g) Hitem)
    as (found & Hrun & _ & Hall).
  assert (Hne : In (k0, p0) found) by now apply Hall.
  destruct (map snd found) as [| pipeline rest] eqn:Hsnd.
  { apply (in_map snd) in Hne. rewrite Hsnd in Hne. contradiction. }
  assert (Hone : (1 <? List.length
                         (distinct PipelineClass_eqb
                            (map pl_class (pipeline :: rest))))%nat = false).
  { apply one_class_is_not_mixed. intros a b Ha Hb. rewrite <- Hsnd in Ha, Hb.
    apply in_map_iff in Ha, Hb.
    destruct Ha as (p & <- & Hp), Hb as (q & <- & Hq).
    apply in_map_iff in Hp, Hq.
    destruct Hp as ([k1 p1] & <- & Hp), Hq as ([k2 q1] & <- & Hq).
    apply Hall in Hp, Hq. cbn [snd].
    exact (Hsame k1 k2 p1 q1 (proj1 Hp) (proj1 Hq) (proj2 Hp) (proj2 Hq)). }
  destruct (plot_each_draws h item unit (map fst found)
              (log ++ [plt_figure])%list Hunit)
    as (plots & Hplots & Hlabels).
  { intros id Hid. apply in_map_iff in Hid.
    destruct Hid as ([k p] & <- & Hp). apply Hall in Hp. cbn [fst].
    exact (Hobs k p (proj1 Hp) (proj2 Hp)). }
  destruct (units_of_Ok pipeline unit) as [units Hunits].
  assert (Hrest :
    exists title,
      Observer0DGroup_plot_spectra g h item unit ymax log
      = ((((log ++ [plt_figure]) ++ plots)
          ++ match ymax with
             | Some y => [plt_ylim y]
             | None => []
             end
          ++ [plt_title title; plt_xlabel "wavelength (nm)";
              plt_ylabel ("radiance (" ++ units ++ ")"); plt_legend])%list,
         Ok tt)).
  { unfold Observer0DGroup_plot_spectra, pbind at 1, lift at 1.
    rewrite Hrun, Hsnd, Hone.
    unfold pbind at 1, call at 1. unfold pbind at 1. rewrite Hplots.
    unfold pbind at 1, lift at 1. rewrite Hunits.
    destruct ymax as [y |]; destruct item as [i | s |];
      try contradiction;
      try destruct (Nat.eqb _ 1);
      unfold pbind, lift, call, pret;
      cbn [format format_from nth_error prepend Ascii.eqb Bool.eqb];
      eexists; rewrite <- ?app_assoc; reflexivity. }
  destruct Hrest as [title Hrest].
  exists found, pipeline, plots, units, title.
  rewrite Hsnd. split; [exact Hrun |]. split; [reflexivity |].
  split; [exact Hunits |]. split; [exact Hlabels |].
  rewrite Hrest. now rewrite <- !app_assoc.
Qed.

End Drawing.

(** ** Assignments and lookups together *)

Section Together.

Context {engine : Engine}.

Lemma collection_run_holds (a : attr) (pairs : list (nat * pyval))
  (h h' : heap) (i id : nat) (x : pyval) :
  assign_each a pairs h = (h', Ok tt) ->
  nth_error pairs i = Some (id, x) ->
  accepted a x (h id) ->
  (forall j y, (i < j)%nat -> nth_error pairs j <> Some (id, y)) ->
  holds a x (h' id) /\ Observer_get a (h' id) = reads_after a x (h id).
Proof.
  intros Hrun Hnth Hacc Hlast.
  destruct (split_at_nth _ _ _ _ Hnth) as [Hsplit _].
  rewrite Hsplit in Hrun.
  apply (assign_each_last _ _ _ _ _ _ _ Hrun Hacc).
  intros Hin. apply in_map_iff in Hin.
  destruct Hin as ([id' y] & Hid & Hin). cbn [fst] in Hid. subst id'.
  apply in_skipn_nth_error in Hin. destruct Hin as (j & Hle & Hj).
  exact (Hlast j y Hle Hj).
Qed.

Lemma combine_repeat (ids : list nat) (v : pyval) :
  combine ids (repeat v (List.length ids))
  = map (fun sight_line => (sight_line, v)) ids.
Proof.
  induction ids as [| id ids IH]; [reflexivity |].
  cbn [List.length repeat combine map]. now rewrite IH.
Qed.

(** X19: a scalar assignment is the assignment of as many copies.  For a
    property other than [names], assigning a value that is not a collection
    does exactly what assigning the list, or the tuple, of that value
    repeated once per member does: the same observers afterwards, the same
    result. *)
Theorem broadcast_is_assignment_of_copies (a : attr) (v : pyval) (g : Group)
  (h : heap) :
  a <> A_names ->
  as_collection a v = None ->
  Observer0DGroup_set a (PyList (repeat v (List.length (_sight_lines g)))) g h
  = Observer0DGroup_set a v g h
  /\ Observer0DGroup_set a
       (PyTuple (repeat v (List.length (_sight_lines g)))) g h
     = Observer0DGroup_set a v g h.
Proof.
  intros Hnames Hscalar. unfold Observer0DGroup_set.
  cbn [as_collection]. rewrite Hscalar, repeat_length, Nat.eqb_refl,
    combine_repeat.
  destruct a; try (split; reflexivity). contradiction.
Qed.

(** X20: names given to the members are the names they are found by.
    After [G.names] is assigned a list of strings, all different, one per
    member of a group whose members are all different, [G.names] reads that
    list and [G[name]] finds, for each name, the member at the position of
    the name. *)
Theorem names_then_lookup (g : Group) (h : heap) (names : list string) :
  NoDup (_sight_lines g) ->
  NoDup names ->
  List.length names = List.length (_sight_lines g) ->
  exists h',
    Observer0DGroup_set A_names (PyList (map PyStr names)) g h = (h', Ok tt)
    /\ Observer0DGroup_get A_names g h' = map PyStr names
    /\ forall k sight_line s,
      nth_error (_sight_lines g) k = Some sight_line ->
      nth_error names k = Some s ->
      Observer0DGroup_getitem g h' (KStr s) = Ok sight_line.
Proof.
  intros Hmembers Hnames Hlen.
  set (pairs := combine (_sight_lines g) (map PyStr names)).
  assert (Hset : Observer0DGroup_set A_names (PyList (map PyStr names)) g h
                 = assign_each A_names pairs h).
  { unfold Observer0DGroup_set. cbn [as_collection].
    now rewrite length_map, Hlen, Nat.eqb_refl. }
  destruct (assign_each_succeeds A_names pairs h) as [h' Hrun].
  { intros id x Hin. destruct (in_nth_error _ _ _ Hin) as [i Hi].
    apply nth_error_combine in Hi. destruct Hi as [_ Hx].
    rewrite nth_error_map in Hx.
    destruct (nth_error names i); [| discriminate].
    injection Hx as <-. reflexivity. }
  assert (Hname : forall k sight_line s,
             nth_error (_sight_lines g) k = Some sight_line ->
             nth_error names k = Some s ->
             ob_name (h' sight_line) = Some s).
  { intros k sight_line s Hk Hs.
    assert (Hnth : nth_error pairs k = Some (sight_line, PyStr s)).
    { apply nth_error_combine. split; [exact Hk |].
      now rewrite nth_error_map, Hs. }
    destruct (collection_run_holds A_names pairs h h' k sight_line (PyStr s)
                Hrun Hnth eq_refl) as [_ Hget].
    - intros j y Hlt Hj. apply nth_error_combine in Hj.
      destruct Hj as [Hj _].
      assert (Hbound : (k < List.length (_sight_lines g))%nat)
        by (apply nth_error_Some; rewrite Hk; discriminate).
      rewrite <- Hk in Hj. symmetry in Hj.
      pose proof (proj1 (NoDup_nth_error _) Hmembers k j Hbound Hj). lia.
    - cbn [Observer_get reads_after per_pipeline] in Hget.
      destruct (ob_name (h' sight_line)); [| discriminate].
      now injection Hget as ->. }
  exists h'. rewrite Hset. split; [exact Hrun |]. split.
  - unfold Observer0DGroup_get. apply nth_error_ext. intros n.
    rewrite !nth_error_map.
    destruct (nth_error (_sight_lines g) n) as [sight_line |] eqn:Hn.
    + destruct (nth_error names n) as [s |] eqn:Hs.
      * cbn [option_map Observer_get]. now rewrite (Hname n sight_line s Hn Hs).
      * apply nth_error_None in Hs.
        assert (n < List.length (_sight_lines g))%nat
          by (apply nth_error_Some; rewrite Hn; discriminate).
        lia.
    + apply nth_error_None in Hn.
      assert (Hs : nth_error names n = None) by (apply nth_error_None; lia).
      now rewrite Hs.
  - intros k sight_line s Hk Hs.
    unfold Observer0DGroup_getitem, sight_lines_named.
    rewrite (filter_unique _ _ _ k sight_line Hk); [reflexivity | |].
    + apply name_eqb_eq. exact (Hname k sight_line s Hk Hs).
    + intros j other Hj Hother. apply name_eqb_eq in Hother.
      assert (Hbound : (j < List.length names)%nat).
      { rewrite Hlen. apply nth_error_Some. rewrite Hj. discriminate. }
      destruct (nth_error names j) as [s' |] eqn:Hs';
        [| apply nth_error_None in Hs'; lia].
      rewrite (Hname j other s' Hj Hs') in Hother. injection Hother as ->.
      rewrite <- Hs in Hs'.
      exact (proj1 (NoDup_nth_error _) Hnames j k Hbound Hs').
Qed.

(** X21: the pipelines that [connect_pipelines] gives have observed
    nothing.  After [connect_pipelines], with classes that are supported,
    filters the engine's constructor takes
    and a list the engine takes, [observed_spectrum] of any member, for the
    position of a triple of a spectral class, raises "No spectrum has been
    observed.". *)
Theorem connected_pipelines_have_no_spectrum
  (properties : list (PipelineClass * option string * pyval))
  (g : Group) (h : heap) :
  Forall (fun property => supported (fst (fst property)) = true) properties ->
  Forall (fun property => filter_taken property = true) properties ->
  engine_check_pipelines (map connected properties) = None ->
  exists h',
    connect_pipelines properties g h = (h', Ok tt)
    /\ forall sight_line i cls name filter_func,
      In sight_line (_sight_lines g) ->
      nth_error properties i = Some (cls, name, filter_func) ->
      spectral cls = true ->
      Observer_observed_spectrum (h' sight_line) (KInt (Z.of_nat i))
      = Raise (ValueError "No spectrum has been observed.").
Proof.
  intros Hsupported Hfilters Hcheck.
  pose proof (build_pipelines_supported _ Hsupported Hfilters) as Hbuilt.
  destruct (connect_each_connects _ _ (_sight_lines g) h Hbuilt Hcheck)
    as (h' & Hrun & Hin & _).
  exists h'. split; [exact Hrun |].
  intros sight_line i cls name filter_func Hmember Hi Hspectral.
  unfold Observer_observed_spectrum, Observer_get_pipeline, py_index.
  rewrite (Hin sight_line Hmember), length_map.
  assert (Hbound : (i < List.length properties)%nat)
    by (apply nth_error_Some; rewrite Hi; discriminate).
  destruct (Z.leb_spec 0 (Z.of_nat i)); [| lia].
  destruct (Z.ltb_spec (Z.of_nat i) (Z.of_nat (List.length properties)));
    [| lia].
  cbn [andb]. rewrite Nat2Z.id, nth_error_map, Hi. cbn [option_map bind].
  unfold connected. rewrite Hspectral.
  destruct cls; try discriminate; reflexivity.
Qed.

End Together.

(** ** The further properties at concrete inputs *)

Local Open Scope R_scope.

Lemma lookup_by_position_witness :
  exists sight_line,
    Observer0DGroup_getitem (demo_group [0; 1; 2]%nat) demo_heap (KInt (-1))
    = Ok sight_line
    /\ nth_error [0; 1; 2]%nat 2 = Some sight_line.
Proof.
  apply (proj1 lookup_by_position (demo_group [0; 1; 2]%nat) demo_heap
               (-1)%Z).
  simpl. lia.
Defined.

Lemma lookup_by_name_finds_position_witness :
  Observer_get_pipeline (demo_heap 2%nat) (KStr "power") = Ok observed_power
  /\ Observer_get_pipeline (demo_heap 2%nat) (KInt 1) = Ok observed_power.
Proof.
  apply (proj2 lookup_by_name_finds_position (demo_heap 2%nat) 1%nat
               observed_power "power" eq_refl eq_refl).
  intros j other Hj Hname.
  destruct j as [| [| [| j]]]; simpl in Hj; try reflexivity;
    try discriminate.
  injection Hj as <-. discriminate.
Defined.

Lemma add_sight_line_appends_witness :
  exists g' h',
    add_sight_line (demo_group [0]%nat) 1%nat demo_heap = ((g', h'), Ok tt)
    /\ _sight_lines g' = [0; 1]%nat
    /\ Observer0DGroup_getitem g' h' (KInt (-1)) = Ok 1%nat.
Proof.
  destruct (proj1 (add_sight_line_appends (demo_group [0]%nat) 1%nat
                     demo_heap) eq_refl)
    as (g' & h' & Hadd & Hmembers & _ & _ & _ & Hlast & _).
  exists g', h'. repeat split; assumption.
Defined.

Lemma set_sight_lines_all_or_nothing_witness :
  (exists sight_lines,
      [ObjObserver 0%nat; ObjObserver 1%nat] = map ObjObserver sight_lines
      /\ set_sight_lines (fun _ => "observer")
           (MList [ObjObserver 0%nat; ObjObserver 1%nat])
           (demo_group [2]%nat) demo_heap
         = ((mkGroup 100 LineOfSightGroup (Some "group") sight_lines,
             reparent_each (demo_group [2]%nat) sight_lines demo_heap),
            Ok tt))
  /\ set_sight_lines (fun _ => "observer")
       (MTuple [ObjObserver 0%nat; ObjOther "5"; ObjObserver 1%nat])
       (demo_group [2]%nat) demo_heap
     = ((demo_group [2]%nat, demo_heap),
        Raise (TypeError "The sight_lines attribute of LineOfSightGroup must be a list or tuple of SpectroscopicSightLines. Value 5 is not a SpectroscopicSightLine.")).
Proof.
  split.
  - destruct (proj1 (set_sight_lines_all_or_nothing (fun _ => "observer")
                       (MList [ObjObserver 0%nat; ObjObserver 1%nat])
                       (demo_group [2]%nat) demo_heap)
                    [ObjObserver 0%nat; ObjObserver 1%nat] eq_refl)
      as (sight_lines & Hitems & Hset & _).
    + repeat constructor.
    + exists sight_lines. split; assumption.
  - apply (proj1 (proj2 (set_sight_lines_all_or_nothing (fun _ => "observer")
                           (MTuple [ObjObserver 0%nat; ObjOther "5";
                                    ObjObserver 1%nat])
                           (demo_group [2]%nat) demo_heap))
                 [ObjObserver 0%nat] (ObjOther "5") [ObjObserver 1%nat]
                 eq_refl).
    + repeat constructor.
    + reflexivity.
Defined.

Lemma membership_invariant_witness :
  members_of_class (demo_group [0; 1]%nat)
    (fst (@Observer0DGroup_set demo_engine A_pixel_samples (PyInt 5)
            (demo_group [0; 1]%nat) demo_heap)).
Proof.
  apply (proj2 (@membership_invariant demo_engine (fun _ => "observer"))
               (demo_group [0; 1]%nat) demo_heap).
  repeat constructor.
Defined.

Lemma stuck_accepts_origin :
  @accepted demo_engine A_origin (PyPoint3D (Point3D_new 1 2 3))
    (stuck_heap 0%nat).
Proof.
  apply accepted_origin. exists (Point3D_new 1 2 3). eexists.
  split; [reflexivity | exact rotate_basis_along_x].
Qed.

Lemma stuck_refuses_origin :
  @Observer_set demo_engine A_origin (PyPoint3D (Point3D_new 1 2 3))
    (stuck_heap 1%nat)
  = (with_origin (Point3D_new 1 2 3) (stuck_heap 1%nat), Raise coincident).
Proof.
  cbn [Observer_set]. apply Observer_set_origin_Raise.
  exact rotate_basis_twice_z.
Qed.

Lemma scalar_assignment_stops_at_refusal_witness :
  exists h',
    @Observer0DGroup_set demo_engine A_origin (PyPoint3D (Point3D_new 1 2 3))
      (demo_group [0; 1; 2]%nat) stuck_heap = (h', Raise coincident)
    /\ @holds demo_engine A_origin (PyPoint3D (Point3D_new 1 2 3)) (h' 0%nat)
    /\ _origin (h' 0%nat) = Point3D_new 1 2 3
    /\ h' 2%nat = stuck_heap 2%nat.
Proof.
  destruct (@scalar_assignment_stops_at_refusal demo_engine A_origin
              (PyPoint3D (Point3D_new 1 2 3)) (demo_group [0; 1; 2]%nat)
              stuck_heap [0%nat] [2%nat] 1%nat
              (with_origin (Point3D_new 1 2 3) (stuck_heap 1%nat)) coincident)
    as (h' & Hset & Hpre & _ & Hrest).
  - reflexivity.
  - discriminate.
  - reflexivity.
  - reflexivity.
  - intros id [<- | []]. exact stuck_accepts_origin.
  - exact stuck_refuses_origin.
  - exists h'. split; [exact Hset |].
    pose proof (Hpre 0%nat (or_introl eq_refl)) as Hholds.
    split; [exact Hholds |]. split.
    + unfold holds in Hholds. cbn [per_pipeline Observer_get kept] in Hholds.
      now injection Hholds.
    + apply Hrest; [intros [Hid | []]; discriminate | discriminate].
Defined.

Lemma array_is_no_collection_for_placement_witness :
  exists h',
    @Observer0DGroup_set demo_engine A_origin
      (PyNdarray [PyPoint3D (Point3D_new 1 2 3)]) (demo_group [0]%nat)
      demo_heap
    = (h', Raise (TypeError "Attribute 'origin' must be of type Point3D."))
    /\ forall id, h' id = demo_heap id.
Proof.
  apply (proj1 (proj1 (proj2 (@array_is_no_collection_for_placement
                                demo_engine (demo_group [0]%nat) demo_heap))
                      [PyPoint3D (Point3D_new 1 2 3)] ltac:(discriminate))).
Defined.

Lemma rotate_basis_along_y :
  exists rot,
    rotate_basis (Vector3D_new 0 1 0) (up_for (Vector3D_new 0 1 0)) = Ok rot.
Proof. vm_compute. eexists. reflexivity. Qed.

Lemma refused_direction_is_stored_witness :
  exists o',
    Observer_set_direction (PyVector3D (Vector3D_new 0 0 2))
      (demo_heap 0%nat) = (o', Raise coincident)
    /\ _direction o' = Vector3D_new 0 0 2
    /\ transform o' = transform (demo_heap 0%nat)
    /\ ~ consistent o'
    /\ (exists o'',
           Observer_set_origin (PyPoint3D (Point3D_new 1 2 3)) o'
           = (o'', Raise coincident)
           /\ _origin o'' = Point3D_new 1 2 3)
    /\ exists o2,
        Observer_set_direction (PyVector3D (Vector3D_new 0 0 1)) o'
        = (o2, Ok tt)
        /\ consistent o2.
Proof.
  destruct (refused_direction_is_stored (demo_heap 0%nat)
              (Vector3D_new 0 0 2) coincident rotate_basis_twice_z)
    as (o' & Hset & Hd & _ & Ht & Hstale & Horigin & Hnext).
  exists o'. split; [exact Hset |]. split; [exact Hd |].
  split; [exact Ht |]. split; [exact Hstale |]. split.
  - destruct (Horigin (Point3D_new 1 2 3)) as (o'' & Hraise & Hp & _).
    exists o''. split; assumption.
  - destruct (Hnext (Vector3D_new 0 0 1) _ rotate_basis_along_z)
      as (o2 & Hok & _ & _ & Hconsistent).
    exists o2. split; assumption.
Defined.

Lemma origin_and_direction_commute_witness :
  Observer_set_direction (PyVector3D (Vector3D_new 0 0 1))
    (fst (Observer_set_origin (PyPoint3D (Point3D_new 1 2 3))
            (demo_heap 0%nat)))
  = Observer_set_origin (PyPoint3D (Point3D_new 1 2 3))
      (fst (Observer_set_direction (PyVector3D (Vector3D_new 0 0 1))
              (demo_heap 0%nat)))
  /\ _origin
       (fst (Observer_set_direction (PyVector3D (Vector3D_new 0 0 1))
               (fst (Observer_set_origin (PyPoint3D (Point3D_new 1 2 3))
                       (demo_heap 0%nat)))))
     = Point3D_new 1 2 3.
Proof.
  destruct (origin_and_direction_commute (demo_heap 0%nat)
              (Point3D_new 1 2 3) (Vector3D_new 0 0 1) _ _
              rotate_basis_along_x rotate_basis_along_z)
    as (_ & _ & Hsame & Hstate & _).
  split; [exact Hsame |]. now rewrite Hstate.
Defined.

Lemma completed_assignment_is_consistent_witness :
  ~ consistent (stuck_heap 1%nat)
  /\ exists o',
      Observer_set_direction (PyVector3D (Vector3D_new 0 1 0))
        (stuck_heap 1%nat)
      = (o', Ok tt)
      /\ consistent o'
      /\ _direction o' = Vector3D_new 0 1 0
      /\ _origin o' = Point3D_new 0 0 0.
Proof.
  split.
  - apply (refused_is_not_consistent _ coincident).
    exact rotate_basis_twice_z.
  - destruct rotate_basis_along_y as [rot Hrot].
    pose proof (Observer_set_direction_Ok (stuck_heap 1%nat) _ _ Hrot)
      as Hset.
    destruct (completed_assignment_is_consistent _ _ _ (or_intror Hset))
      as [Hconsistent _].
    eexists. split; [exact Hset |]. split; [exact Hconsistent |].
    split; reflexivity.
Defined.

Lemma constructor_places_observer_witness :
  (exists rot o,
      rotate_basis (Vector3D_new 0 0 1) (up_for (Vector3D_new 0 0 1)) = Ok rot
      /\ @Observer_init demo_engine demo_attrs SpectroscopicSightLine
           (PyPoint3D (Point3D_new 1 2 3)) (PyVector3D (Vector3D_new 0 0 1))
           None None (Some "los")
         = Ok o
      /\ _origin o = Point3D_new 1 2 3
      /\ _direction o = Vector3D_new 0 0 1
      /\ transform o
         = mul (translate (double_of_Z 1) (double_of_Z 2) (double_of_Z 3)) rot
      /\ translation_of (transform o) = Point3D_new 1 2 3
      /\ map pl_class (pipelines o) = [SpectralRadiancePipeline0D]
      /\ map pl_accumulate (pipelines o) = [PyBool false])
  /\ @Observer_init demo_engine demo_attrs SpectroscopicSightLine
       (PyPoint3D (Point3D_new 1 2 3)) (PyVector3D (Vector3D_new 0 0 (-1)))
       None None (Some "los")
     = Raise zero_length.
Proof.
  split.
  - eexists. eexists. split; [exact rotate_basis_along_z |].
    split;
      [exact (proj1 (proj1 (@constructor_places_observer demo_engine
                              demo_attrs SpectroscopicSightLine
                              (Point3D_new 1 2 3) (Vector3D_new 0 0 1) None
                              None (Some "los") eq_refl)
                           _ rotate_basis_along_z)) |].
    repeat split.
  - apply (proj1 (proj2 (@constructor_places_observer demo_engine demo_attrs
                           SpectroscopicSightLine (Point3D_new 1 2 3)
                           (Vector3D_new 0 0 (-1)) None None (Some "los")
                           eq_refl))
                 _ rotate_basis_against_z).
Defined.

Lemma observed_spectrum_is_well_formed_witness :
  exists pipeline,
    Observer_get_pipeline (demo_heap 0%nat) (KInt 0) = Ok pipeline
    /\ supported (pl_class pipeline) = true
    /\ exists samples,
        pl_samples pipeline = Some samples
        /\ sp_samples (mkSpectrum 400 700 3 [1; 2; 3] [0; 0; 0])
           = sa_mean samples.
Proof.
  destruct (observed_spectrum_is_well_formed (demo_heap 0%nat) (KInt 0)
              (mkSpectrum 400 700 3 [1; 2; 3] [0; 0; 0])
              demo_spectral_spectrum)
    as (_ & _ & pipeline & Hget & Hsupported & _ & Hspectral).
  exists pipeline. split; [exact Hget |]. split; [exact Hsupported |].
  apply Hspectral. injection Hget as <-. reflexivity.
Defined.

Lemma connect_pipelines_replaces_witness :
  exists h',
    @connect_pipelines demo_engine
      [(RadiancePipeline0D, Some "radiance", PyNone);
       (SpectralPowerPipeline0D, None, PyNone)]
      (demo_group [0; 1]%nat) demo_heap = (h', Ok tt)
    /\ Observer0DGroup_get A_accumulate (demo_group [0; 1]%nat) h'
       = [PyList [PyBool false; PyBool false];
          PyList [PyBool false; PyBool false]].
Proof.
  destruct (proj1 (@connect_pipelines_replaces demo_engine
                     [(RadiancePipeline0D, Some "radiance", PyNone);
                      (SpectralPowerPipeline0D, None, PyNone)]
                     (demo_group [0; 1]%nat) demo_heap
                     ltac:(repeat constructor) ltac:(repeat constructor))
                  eq_refl)
    as (h' & Hrun & _ & Hacc & _).
  exists h'. split; assumption.
Defined.

Lemma demo_reads_buffer : @reads_buffer demo_engine.
Proof.
  intros s1 s2 Hlo Hhi Hbins Hbuffer.
  cbn [Spectrum_total Spectrum_to_photons demo_engine].
  unfold bin_centres, bin_width. now rewrite Hlo, Hhi, Hbins, Hbuffer.
Qed.

Lemma plot_spectra_draws_once_witness :
  (exists xs,
      @Observer_plot_spectra demo_engine (demo_heap 0%nat) (KInt 0) "J" None
        false []
      = ([plt_plot xs [1; 2; 3] false (Some "los0")], Ok tt))
  /\ (exists xs,
         @Observer_plot_spectra demo_engine (demo_heap 0%nat) (KInt 0) "ph"
           None false []
         = ([plt_plot xs [0; 0; 0] false (Some "los0")], Ok tt)).
Proof.
  split.
  - destruct (@plot_spectra_draws_once demo_engine (demo_heap 0%nat) (KInt 0)
                "J" None [] _ (or_introl eq_refl) demo_spectral_spectrum)
      as (p & s & _ & -> & Hplot & _).
    eexists. rewrite Hplot. reflexivity.
  - destruct (@plot_spectra_draws_once demo_engine (demo_heap 0%nat) (KInt 0)
                "ph" None [] _ (or_intror eq_refl) demo_spectral_spectrum)
      as (p & s & Hp & -> & Hplot & _ & _ & Hph).
    injection Hp as <-.
    destruct (Hph eq_refl) as [_ Hzero].
    destruct (Hzero demo_reads_buffer) as [_ Hsamples].
    specialize (Hsamples eq_refl).
    assert (Hzeros :
      @Spectrum_to_photons demo_engine
        (new_spectrum (mkSpectrum 400 700 3 [1; 2; 3] [0; 0; 0]))
      = [0; 0; 0]).
    { cbn [Spectrum_to_photons demo_engine]. unfold bin_centres.
      cbn [new_spectrum sp_bins sp_buffer].
      change (Z.to_nat 3) with 3%nat. cbn [seq repeat map combine fst snd].
      unfold Rdiv. now rewrite !Rmult_0_l. }
    rewrite Hzeros in Hsamples.
    eexists. rewrite Hplot.
    cbn [String.eqb Ascii.eqb Bool.eqb] in Hsamples |- *.
    rewrite Hsamples. reflexivity.
Defined.

Lemma resolve_pipelines_skips_witness :
  exists found,
    resolve_pipelines demo_heap (KStr "power") [0; 1; 2]%nat = Ok found
    /\ map fst found = [1; 2]%nat.
Proof.
  destruct (proj1 (resolve_pipelines_skips demo_heap (KStr "power")
                     [0; 1; 2]%nat) ltac:(discriminate))
    as (found & Hrun & Hfst & _).
  exists found. split; [exact Hrun | exact Hfst].
Defined.

Lemma group_plot_refuses_before_drawing_witness :
  @Observer0DGroup_plot_spectra demo_engine (demo_group [0; 1]%nat) demo_heap
    (KInt 5) "J" None []
  = ([], Raise (IndexError
                  "Replacement index 1 out of range for positional args tuple"))
  /\ @Observer0DGroup_plot_spectra demo_engine (demo_group [0; 1]%nat)
       demo_heap (KInt 0) "J" None []
     = ([], Raise (ValueError
                     "Pipelines 0 have different types for different sight-lines.")).
Proof.
  split.
  - apply (proj1 (@group_plot_refuses_before_drawing demo_engine
                    (demo_group [0; 1]%nat) demo_heap (KInt 5) "J" None []
                    ltac:(discriminate))).
    intros sight_line [<- | [<- | []]]; eexists; reflexivity.
  - apply (proj2 (@group_plot_refuses_before_drawing demo_engine
                    (demo_group [0; 1]%nat) demo_heap (KInt 0) "J" None []
                    ltac:(discriminate))
                 0%nat 1%nat observed_spectral observed_power);
      simpl; auto; discriminate.
Defined.

Lemma demo_spectral_spectrum_2 :
  Observer_observed_spectrum (demo_heap 2%nat) (KInt 0)
  = Ok (mkSpectrum 400 700 3 [1; 2; 3] [0; 0; 0]).
Proof.
  unfold Observer_observed_spectrum. cbn.
  rewrite Spectrum_init_valid by (lra || lia). reflexivity.
Qed.

Lemma group_plot_completes_witness :
  exists plots title,
    @Observer0DGroup_plot_spectra demo_engine (demo_group [0; 2]%nat)
      demo_heap (KInt 0) "J" (Some 10) []
    = ((plt_figure :: plots
        ++ [plt_ylim 10; plt_title title; plt_xlabel "wavelength (nm)";
            plt_ylabel "radiance (J/s/m^2/str/nm)"; plt_legend])%list,
       Ok tt)
    /\ List.length plots = 2%nat.
Proof.
  destruct (@group_plot_completes demo_engine (demo_group [0; 2]%nat)
              demo_heap (KInt 0) "J" (Some 10) [])
    as (found & pipeline & plots & units & title
        & Hfound & Hfirst & Hunits & Hplots & Hrun).
  - now left.
  - discriminate.
  - exists 0%nat, observed_spectral. split; [now left | reflexivity].
  - intros first second p q [<- | [<- | []]] [<- | [<- | []]] Hp Hq;
      injection Hp as <-; injection Hq as <-; reflexivity.
  - intros sight_line p [<- | [<- | []]] _; eexists;
      [exact demo_spectral_spectrum | exact demo_spectral_spectrum_2].
  - injection Hfound as <-. injection Hfirst as <-. injection Hunits as <-.
    exists plots, title. split; [exact Hrun |].
    apply Forall2_length in Hplots. now rewrite <- Hplots.
Defined.

Lemma broadcast_is_assignment_of_copies_witness :
  @Observer0DGroup_set demo_engine A_pixel_samples
    (PyList [PyInt 100; PyInt 100; PyInt 100]) (demo_group [0; 1; 2]%nat)
    demo_heap
  = @Observer0DGroup_set demo_engine A_pixel_samples (PyInt 100)
      (demo_group [0; 1; 2]%nat) demo_heap.
Proof.
  apply (proj1 (@broadcast_is_assignment_of_copies demo_engine
                  A_pixel_samples (PyInt 100) (demo_group [0; 1; 2]%nat)
                  demo_heap ltac:(discriminate) eq_refl)).
Defined.

Lemma names_then_lookup_witness :
  exists h',
    @Observer0DGroup_set demo_engine A_names
      (PyList [PyStr "a"; PyStr "b"]) (demo_group [0; 1]%nat) demo_heap
    = (h', Ok tt)
    /\ Observer0DGroup_getitem (demo_group [0; 1]%nat) h' (KStr "b")
       = Ok 1%nat.
Proof.
  destruct (@names_then_lookup demo_engine (demo_group [0; 1]%nat) demo_heap
              ["a"; "b"]%string)
    as (h' & Hset & _ & Hfind).
  - repeat constructor; simpl; intuition discriminate.
  - repeat constructor; simpl; intuition discriminate.
  - reflexivity.
  - exists h'. split; [exact Hset |].
    exact (Hfind 1%nat 1%nat "b"%string eq_refl eq_refl).
Defined.

Lemma connected_pipelines_have_no_spectrum_witness :
  exists h',
    @connect_pipelines demo_engine
      [(PowerPipeline0D, None, PyNone);
       (SpectralRadiancePipeline0D, None, PyNone)]
      (demo_group [0]%nat) demo_heap = (h', Ok tt)
    /\ Observer_observed_spectrum (h' 0%nat) (KInt 1)
       = Raise (ValueError "No spectrum has been observed.").
Proof.
  destruct (@connected_pipelines_have_no_spectrum demo_engine
              [(PowerPipeline0D, None, PyNone);
               (SpectralRadiancePipeline0D, None, PyNone)]
              (demo_group [0]%nat) demo_heap
              ltac:(repeat constructor) ltac:(repeat constructor) eq_refl)
    as (h' & Hrun & Hnone).
  exists h'. split; [exact Hrun |].
  apply (Hnone 0%nat 1%nat SpectralRadiancePipeline0D None PyNone);
    [now left | reflexivity | reflexivity].
Defined.
